(** * scenedetect._cli.config: configuration schema, validators and registry

    A shallow embedding of [scenedetect/_cli/config.py] and the properties of
    its loader.  Python objects are modelled by the inductive type [Value],
    exceptions by [Exn] and a result type [Res]; dictionaries, which keep
    their insertion order, by association lists.

    The texts of the model are texts of ASCII characters: [str.isspace],
    [str.upper], [str.lower] and the digits that [int] and [float] read are
    those of ASCII, and a file with other characters is outside the model.

    A [ConfigParser] is modelled twice.  [ParserData] with [RawParser] is
    the parser itself: the options of [[DEFAULT]], which every section
    shows next to its own, the values as written, and the interpolation
    that [items] and [get] apply to a value and that can raise.  A
    [RawConfig] is its view: for every section the parser lists, the items
    that [config.items(section)] returns when every value can be read.  The
    structural validator is modelled on both; the value parser and the
    registry read the view, which a file that passes the structural validator
    always has ([clean_structure_has_view], [view_get]). *)

From Stdlib Require Import String Ascii List ZArith QArith Bool Lia Lqa.
From Stdlib Require Import DecimalString.
Import ListNotations.
Local Open Scope string_scope.
Local Open Scope Z_scope.

(* ===================================================================== *)
(** ** Python strings *)
(* ===================================================================== *)

Module PyStr.

Definition code (c : ascii) : N := N_of_ascii c.

(** [str.isspace] on the characters below 128.  The whitespace above them
    (the no-break space and the like) is outside the model. *)
Definition isspace (c : ascii) : bool :=
  let n := code c in
  (((9 <=? n) && (n <=? 13)) || ((28 <=? n) && (n <=? 32)))%N.

Definition isdigit (c : ascii) : bool :=
  let n := code c in ((48 <=? n) && (n <=? 57))%N.

(** [str.upper] and [str.lower] of an ASCII character; other characters
    are left as they are, where Python maps the letters among them. *)
Definition upper_char (c : ascii) : ascii :=
  let n := code c in
  if ((97 <=? n) && (n <=? 122))%N then ascii_of_N (n - 32) else c.

Definition lower_char (c : ascii) : ascii :=
  let n := code c in
  if ((65 <=? n) && (n <=? 90))%N then ascii_of_N (n + 32) else c.

Fixpoint map (f : ascii -> ascii) (s : string) : string :=
  match s with
  | EmptyString => EmptyString
  | String c r => String (f c) (map f r)
  end.

Definition upper : string -> string := map upper_char.
Definition lower : string -> string := map lower_char.

(** [s.replace(old, new)] for a one-character [old]. *)
Fixpoint replace_char (old : ascii) (new : string) (s : string) : string :=
  match s with
  | EmptyString => EmptyString
  | String c r =>
      if Ascii.eqb c old then new ++ replace_char old new r
      else String c (replace_char old new r)
  end.

Fixpoint lstrip (s : string) : string :=
  match s with
  | EmptyString => EmptyString
  | String c r => if isspace c then lstrip r else s
  end.

Fixpoint rev_acc (s acc : string) : string :=
  match s with
  | EmptyString => acc
  | String c r => rev_acc r (String c acc)
  end.

Definition rev (s : string) : string := rev_acc s EmptyString.

Definition rstrip (s : string) : string := rev (lstrip (rev s)).

Definition strip (s : string) : string := rstrip (lstrip s).

(** [s.split()]: the maximal runs of non-whitespace characters. *)
Fixpoint split_acc (s : string) (cur : string) : list string :=
  match s with
  | EmptyString => if String.eqb cur "" then [] else [rev cur]
  | String c r =>
      if isspace c
      then (if String.eqb cur "" then split_acc r "" else rev cur :: split_acc r "")
      else split_acc r (String c cur)
  end.

Definition split (s : string) : list string := split_acc s "".

(** [sep.join(parts)]. *)
Fixpoint join (sep : string) (parts : list string) : string :=
  match parts with
  | [] => ""
  | [p] => p
  | p :: rest => p ++ sep ++ join sep rest
  end.

Definition mem (s : string) (l : list string) : bool :=
  existsb (String.eqb s) l.

Definition newline : ascii := ascii_of_N 10.
Definition tab : ascii := ascii_of_N 9.
Definition nl : string := String newline "".

End PyStr.

Example strip_ex : PyStr.strip "  Ab c " = "Ab c".
Proof. reflexivity. Qed.

Example split_ex : PyStr.split " 1  2 3 " = ["1"; "2"; "3"].
Proof. reflexivity. Qed.

Example upper_ex : PyStr.upper "time-Code" = "TIME-CODE".
Proof. reflexivity. Qed.

(* ===================================================================== *)
(** ** Python numbers *)
(* ===================================================================== *)

(** A [float] is a binary64 value.  A finite one is represented by the
    rational it denotes (every rational is admitted, the binary64 values are
    among them); the sign of zero is not tracked since no comparison
    observes it. *)
Inductive PyFloat : Type :=
| FNaN
| FInf (negative : bool)
| FFin (q : Q).

(** [int] and [float], the two numeric types a range may hold. *)
Inductive Number : Type :=
| NInt (z : Z)
| NFloat (f : PyFloat).

Module PyNum.

Definition as_float (n : Number) : PyFloat :=
  match n with
  | NInt z => FFin (inject_Z z)
  | NFloat f => f
  end.

(** [x < y] on floats: false as soon as one side is NaN.  Python compares
    an [int] with a [float] by value, without rounding the [int]. *)
Definition flt (x y : PyFloat) : bool :=
  match x, y with
  | FNaN, _ | _, FNaN => false
  | FInf true, FInf true => false
  | FInf true, _ => true
  | _, FInf true => false
  | FInf false, _ => false
  | _, FInf false => true
  | FFin p, FFin q => match Qcompare p q with Lt => true | _ => false end
  end.

Definition feq (x y : PyFloat) : bool :=
  match x, y with
  | FNaN, _ | _, FNaN => false
  | FInf a, FInf b => Bool.eqb a b
  | FFin p, FFin q => Qeq_bool p q
  | _, _ => false
  end.

Definition lt (x y : Number) : bool :=
  match x, y with
  | NInt a, NInt b => a <? b
  | _, _ => flt (as_float x) (as_float y)
  end.

Definition gt (x y : Number) : bool := lt y x.

Definition eq (x y : Number) : bool :=
  match x, y with
  | NInt a, NInt b => a =? b
  | _, _ => feq (as_float x) (as_float y)
  end.

Definition le (x y : Number) : bool := lt x y || eq x y.

Definition is_nan (x : Number) : bool :=
  match x with NFloat FNaN => true | _ => false end.

(** [isinstance(x, int)]. *)
Definition is_int (x : Number) : bool :=
  match x with NInt _ => true | NFloat _ => false end.

Definition digit_val (c : ascii) : Z := Z.of_N (PyStr.code c) - 48.

(** Underscores may separate digits, and nothing else (PEP 515). *)
Fixpoint drop_underscores (s : string) (prev_digit : bool) : option string :=
  match s with
  | EmptyString => Some EmptyString
  | String c r =>
      if Ascii.eqb c "_"%char then
        match r with
        | String d _ =>
            if prev_digit && PyStr.isdigit d then drop_underscores r false else None
        | EmptyString => None
        end
      else option_map (String c) (drop_underscores r (PyStr.isdigit c))
  end.

(** The longest prefix of digits: its value, its length, and the rest. *)
Fixpoint take_digits (s : string) (acc : Z) (n : nat) : Z * nat * string :=
  match s with
  | String c r =>
      if PyStr.isdigit c then take_digits r (10 * acc + digit_val c) (S n)
      else (acc, n, s)
  | EmptyString => (acc, n, s)
  end.

Definition take_sign (s : string) : bool * string :=
  match s with
  | String "-"%char r => (true, r)
  | String "+"%char r => (false, r)
  | _ => (false, s)
  end.

(** [int(s)] for a string [s] of ASCII characters; [None] stands for
    [ValueError].  Python reads the decimal digits of other scripts as well,
    and refuses a text of more than 4300 digits, which the model reads. *)
Definition int (s : string) : option Z :=
  match drop_underscores (PyStr.strip s) false with
  | None => None
  | Some t =>
      let '(neg, body) := take_sign t in
      match take_digits body 0 0 with
      | (_, O, _) => None
      | (v, _, EmptyString) => Some (if neg then - v else v)
      | _ => None
      end
  end.

(** Largest [E] with [2^E <= n / d], for positive [n] and [d]. *)
Definition floor_log2 (n d : Z) : Z :=
  let E0 := Z.log2 n - Z.log2 d in
  let above := if 0 <=? E0 then d * 2 ^ E0 <=? n else d <=? n * 2 ^ (- E0) in
  if above then E0 else E0 - 1.

(** The binary64 value nearest to [n / d] ([0 <= n], [0 < d]), ties to the
    even significand; overflow gives infinity. *)
Definition nearest_binary64 (n d : Z) : PyFloat :=
  if n =? 0 then FFin 0 else
  let e := Z.max (floor_log2 n d - 52) (-1074) in
  let num := if e <? 0 then n * 2 ^ (- e) else n in
  let den := if e <? 0 then d else d * 2 ^ e in
  let q := num / den in
  let r := num mod den in
  let m := if (den <? 2 * r) || ((den =? 2 * r) && Z.odd q) then q + 1 else q in
  if 1024 <=? Z.log2 m + e then FInf false
  else FFin (Qred (if e <? 0 then Qmake m (Z.to_pos (2 ^ (- e)))
                   else inject_Z (m * 2 ^ e))).

Definition fneg (f : PyFloat) : PyFloat :=
  match f with
  | FNaN => FNaN
  | FInf b => FInf (negb b)
  | FFin q => FFin (Qred (Qopp q))
  end.

(** [digits [. digits] [(e|E) [sign] digits]] with a digit in the mantissa. *)
Definition decimal (s : string) : option PyFloat :=
  let '(ip, ni, r1) := take_digits s 0 0 in
  let '(mant, nf, r2) :=
    match r1 with
    | String "."%char r => take_digits r ip 0
    | _ => (ip, O, r1)
    end in
  match (ni + nf)%nat with
  | O => None
  | _ =>
      let finish (x : Z) :=
        let p := x - Z.of_nat nf in
        Some (if 0 <=? p then nearest_binary64 (mant * 10 ^ p) 1
              else nearest_binary64 mant (10 ^ (- p))) in
      match r2 with
      | EmptyString => finish 0
      | String c r =>
          if Ascii.eqb (PyStr.lower_char c) "e"%char then
            let '(eneg, r3) := take_sign r in
            match take_digits r3 0 0 with
            | (_, O, _) => None
            | (x, _, EmptyString) => finish (if eneg then - x else x)
            | _ => None
            end
          else None
      end
  end.

(** [float(s)] for a string [s]; [None] stands for [ValueError]. *)
Definition float (s : string) : option PyFloat :=
  match drop_underscores (PyStr.strip s) false with
  | None => None
  | Some t =>
      let '(neg, body) := take_sign t in
      let low := PyStr.lower body in
      option_map (fun f => if neg then fneg f else f)
        (if String.eqb low "inf" || String.eqb low "infinity" then Some (FInf false)
         else if String.eqb low "nan" then Some FNaN
         else decimal body)
  end.

(** A float literal of the source text. *)
Definition lit (s : string) : PyFloat :=
  match float s with Some f => f | None => FNaN end.

(** [str(z)] for an [int]. *)
Definition str_int (z : Z) : string := NilZero.string_of_int (Z.to_int z).

End PyNum.

(* ===================================================================== *)
(** ** Python objects, exceptions and results *)
(* ===================================================================== *)

(** The enumerations whose members are schema defaults.  [TimecodeFormat] is
    declared in this module, the two others are imported. *)
Inductive EnumClass : Type :=
| FlashFilter_Mode
| Interpolation
| TimecodeFormat.

(** [ContentDetector.Components], a named tuple of four floats. *)
Record Components : Type := mkComponents {
  delta_hue : PyFloat;
  delta_sat : PyFloat;
  delta_lum : PyFloat;
  delta_edges : PyFloat
}.

(** The objects a configuration value can be.  The last four constructors
    are the instances of the [ValidatedValue] subclasses, with the private
    attributes their [__init__] stores. *)
Inductive Value : Type :=
| VNone
| VBool (b : bool)
| VInt (z : Z)
| VFloat (f : PyFloat)
| VStr (s : string)
| VEnum (cls : EnumClass) (name : string)
| VComponents (c : Components)
| VTimecode (_value : Value)
| VRange (_value _min_val _max_val : Number)
| VScoreWeights (_value : Components)
| VKernelSize (_value : option Z).

Definition of_number (n : Number) : Value :=
  match n with NInt z => VInt z | NFloat f => VFloat f end.

(** [issubclass(type(v), ValidatedValue)]. *)
Definition is_ValidatedValue (v : Value) : bool :=
  match v with
  | VTimecode _ | VRange _ _ _ | VScoreWeights _ | VKernelSize _ => true
  | _ => false
  end.

(** The [value] property of the four validators; other objects have none. *)
Definition dot_value (v : Value) : Value :=
  match v with
  | VTimecode x => x
  | VRange x _ _ => of_number x
  | VScoreWeights c => VComponents c
  | VKernelSize (Some z) => VInt z
  | VKernelSize None => VNone
  | _ => v
  end.

(** An entry of the initialization log: [(logging level, message)]. *)
Definition LogEntry : Type := (Z * string)%type.

Module logging.
Definition DEBUG : Z := 10.
Definition INFO : Z := 20.
Definition ERROR : Z := 40.
End logging.

(** The exception classes that occur.  [OptionParseFailure] and
    [ConfigLoadFailure] carry the attributes their [__init__] sets; the
    [reason] of a load failure is kept as its [str()].  The last three are
    the errors of the interpolation that a [ConfigParser] applies to a value
    when it is read, and the two after them what it raises for a section
    or an option it does not have. *)
Inductive Exn : Type :=
| ValueError
| TypeError
| KeyError (key : string)
| AssertionError
| AttributeError
| OptionParseFailure (error : string)
| ConfigLoadFailure (init_log : list LogEntry) (reason : option string)
| InterpolationSyntaxError
| InterpolationMissingOptionError (reference : string)
| InterpolationDepthError
| NoSectionError (section : string)
| NoOptionError (option : string).

Inductive Res (A : Type) : Type :=
| Return (a : A)
| Raise (e : Exn).

Arguments Return {A} a.
Arguments Raise {A} e.

Definition bind {A B : Type} (r : Res A) (k : A -> Res B) : Res B :=
  match r with
  | Return a => k a
  | Raise e => Raise e
  end.

Notation "x <- r ;; k" := (bind r (fun x => k))
  (at level 61, r at next level, right associativity).

(** [try: body  except <class>: handler]: [catches] tells the class. *)
Definition try_except {A : Type} (body : Res A) (catches : Exn -> bool)
    (handler : Exn -> Res A) : Res A :=
  match body with
  | Return a => Return a
  | Raise e => if catches e then handler e else Raise e
  end.

Definition is_ValueError (e : Exn) : bool :=
  match e with ValueError => true | _ => false end.

Definition is_TypeError (e : Exn) : bool :=
  match e with TypeError => true | _ => false end.

Definition is_OptionParseFailure (e : Exn) : bool :=
  match e with OptionParseFailure _ => true | _ => false end.

Definition is_ConfigLoadFailure (e : Exn) : bool :=
  match e with ConfigLoadFailure _ _ => true | _ => false end.

(** A builtin reader that raises [ValueError] where it has no result. *)
Definition or_ValueError {A : Type} (o : option A) : Res A :=
  match o with Some a => Return a | None => Raise ValueError end.

(* ===================================================================== *)
(** ** What the module imports *)
(* ===================================================================== *)

(** Names that [config.py] imports from other modules and whose definitions
    are outside this file, together with [str()] of a float, which the model
    of numbers leaves open.  [FrameTimecode_accepts v] tells whether
    [FrameTimecode(timecode=v, fps=100.0)] constructs.  When it does not,
    the model has it raise [ValueError], the exception that
    [TimecodeValue.from_config] handles; this is an assumption on
    [FrameTimecode], whose code is in another module: an exception of
    another class would leave [from_config] and the parser. *)
Record Imports : Type := mkImports {
  FrameTimecode_accepts : Value -> bool;
  DEFAULT_FFMPEG_ARGS : string;
  FlashFilter_Mode_names : list string;
  Interpolation_names : list string;
  DEFAULT_COMPONENT_WEIGHTS : Components;
  CONFIG_FILE_PATH : string;
  float_str : PyFloat -> string
}.

(* ===================================================================== *)
(** ** The validators *)
(* ===================================================================== *)

Definition str_number (imp : Imports) (n : Number) : string :=
  match n with
  | NInt z => PyNum.str_int z
  | NFloat f => float_str imp f
  end.

Module TimecodeValue.

Definition __init__ (imp : Imports) (value : Value) : Res Value :=
  (* Ensure value is a valid timecode. *)
  _ <- (if FrameTimecode_accepts imp value then Return tt else Raise ValueError) ;;
  Return (VTimecode value).

Definition from_config (imp : Imports) (config_value : string) (default : Value)
  : Res Value :=
  try_except (__init__ imp (VStr config_value)) is_ValueError
    (fun _ => Raise (OptionParseFailure
       "Timecodes must be in seconds (100.0), frames (100), or HH:MM:SS.")).

End TimecodeValue.

Module RangeValue.

Definition __init__ (value min_val max_val : Number) : Res Value :=
  if PyNum.lt value min_val || PyNum.gt value max_val then
    (* min and max are inclusive. *)
    Raise ValueError
  else Return (VRange value min_val max_val).

Definition from_config (imp : Imports) (config_value : string) (default : Value)
  : Res Value :=
  match default with
  | VRange dvalue dmin dmax =>
      try_except
        (value <- (if PyNum.is_int dvalue
                   then z <- or_ValueError (PyNum.int config_value) ;; Return (NInt z)
                   else f <- or_ValueError (PyNum.float config_value) ;; Return (NFloat f)) ;;
         __init__ value dmin dmax)
        is_ValueError
        (fun _ => Raise (OptionParseFailure
           ("Value must be between " ++ str_number imp dmin ++ " and "
              ++ str_number imp dmax ++ ".")))
  | _ => Raise AttributeError
  end.

End RangeValue.

Module ScoreWeightsValue.

(** Characters to ignore. *)
Definition _IGNORE_CHARS : list ascii := [","; "/"; "("; ")"]%char.

(** [value.translate(table)] for the table sending each ignored character
    to a space. *)
Definition translate (s : string) : string :=
  PyStr.map (fun c => if existsb (Ascii.eqb c) _IGNORE_CHARS then " "%char else c) s.

Fixpoint floats (values : list string) : Res (list PyFloat) :=
  match values with
  | [] => Return []
  | v :: rest =>
      f <- or_ValueError (PyNum.float v) ;;
      fs <- floats rest ;;
      Return (f :: fs)
  end.

Definition __init__ (value : Value) : Res Value :=
  match value with
  | VComponents c => Return (VScoreWeights c)
  | VStr s =>
      let values := PyStr.split (translate s) in
      if negb (Nat.eqb (length values) 4) then Raise ValueError
      else
        fs <- floats values ;;
        match fs with
        | [a; b; c; d] => Return (VScoreWeights (mkComponents a b c d))
        | _ => Raise TypeError
        end
  | _ => Raise AttributeError
  end.

Definition from_config (config_value : string) (default : Value) : Res Value :=
  try_except (__init__ (VStr config_value)) is_ValueError
    (fun _ => Raise (OptionParseFailure
       ("Score weights must be specified as four numbers in the form (H,S,L,E),"
          ++ " e.g. (0.9, 0.2, 2.0, 0.5). Commas/brackets/slashes are ignored."))).

End ScoreWeightsValue.

Module KernelSizeValue.

Definition __init__ (value : Z) : Res Value :=
  if value =? -1 then
    (* Downscale factor of -1 maps to None internally for auto downscale. *)
    Return (VKernelSize None)
  else if value <? 0 then
    (* Disallow other negative values. *)
    Raise ValueError
  else if value mod 2 =? 0 then
    (* Disallow even values. *)
    Raise ValueError
  else Return (VKernelSize (Some value)).

Definition from_config (config_value : string) (default : Value) : Res Value :=
  try_except
    (z <- or_ValueError (PyNum.int config_value) ;; __init__ z)
    is_ValueError
    (fun _ => Raise (OptionParseFailure
       "Value must be an odd integer greater than 1, or set to -1 for auto kernel size.")).

End KernelSizeValue.

(** [option_type.from_config(config_value=..., default=...)] where
    [option_type = type(default)]. *)
Definition from_config (imp : Imports) (config_value : string) (default : Value)
  : Res Value :=
  match default with
  | VTimecode _ => TimecodeValue.from_config imp config_value default
  | VRange _ _ _ => RangeValue.from_config imp config_value default
  | VScoreWeights _ => ScoreWeightsValue.from_config config_value default
  | VKernelSize _ => KernelSizeValue.from_config config_value default
  | _ => Raise AttributeError
  end.

Example kernel_ex :
  map KernelSizeValue.__init__ [-1; 0; -2; 4; 3; 5; 1]
  = [Return (VKernelSize None); Raise ValueError; Raise ValueError; Raise ValueError;
     Return (VKernelSize (Some 3)); Return (VKernelSize (Some 5));
     Return (VKernelSize (Some 1))].
Proof. reflexivity. Qed.

Example weights_ex :
  ScoreWeightsValue.from_config "(0.5, 1/2.0 4)" VNone
  = Return (VScoreWeights (mkComponents (FFin (1 # 2)) (FFin 1) (FFin 2) (FFin 4))).
Proof. vm_compute. reflexivity. Qed.

(* ===================================================================== *)
(** ** Dictionaries *)
(* ===================================================================== *)

(** A [dict] with string keys, in insertion order. *)
Definition Dict (A : Type) : Type := list (string * A).

Module dict.

Fixpoint get {A : Type} (k : string) (d : Dict A) : option A :=
  match d with
  | [] => None
  | (k', v) :: r => if String.eqb k k' then Some v else get k r
  end.

(** [k in d]. *)
Definition has {A : Type} (k : string) (d : Dict A) : bool :=
  match get k d with Some _ => true | None => false end.

Definition keys {A : Type} (d : Dict A) : list string := map fst d.

(** [d[k] = v]: a present key keeps its place, a new one goes last. *)
Fixpoint set {A : Type} (k : string) (v : A) (d : Dict A) : Dict A :=
  match d with
  | [] => [(k, v)]
  | (k', v') :: r =>
      if String.eqb k k' then (k', v) :: r else (k', v') :: set k v r
  end.

End dict.

Definition ConfigDict : Type := Dict (Dict Value).

(** [l.append(x)]. *)
Definition list_append {A : Type} (x : A) (l : list A) : list A := (l ++ [x])%list.

(** [d[command][option]], where both keys are known to be present. *)
Definition get2 {A : Type} (command option : string) (d : Dict (Dict A))
  : Datatypes.option A :=
  match dict.get command d with
  | Some sec => dict.get option sec
  | None => None
  end.

(** [command in d and option in d[command]]. *)
Definition has2 {A : Type} (command option : string) (d : Dict (Dict A)) : bool :=
  match dict.get command d with
  | Some sec => dict.has option sec
  | None => false
  end.

(** [d[command][option] = v], for a [command] that is a key of [d]. *)
Definition set2 {A : Type} (command option : string) (v : A) (d : Dict (Dict A))
  : Dict (Dict A) :=
  match dict.get command d with
  | Some sec => dict.set command (dict.set option v sec) d
  | None => d
  end.

(* ===================================================================== *)
(** ** The parsed file *)
(* ===================================================================== *)

(** The view of a [ConfigParser] after [read_string]: for each section of
    [config.sections()], in order, the pairs of [config.items(section)],
    the options of [[DEFAULT]] among them and every value interpolated.
    A parser has a view when every value of it can be read ([RawParser.view]);
    [items] and [get] on a view are total, because the reads that can raise
    have been made. *)
Definition RawConfig : Type := Dict (Dict string).

Module ConfigParser.

Definition sections (config : RawConfig) : list string := dict.keys config.

Definition items (config : RawConfig) (section : string) : Dict string :=
  match dict.get section config with Some its => its | None => [] end.

(** [option in config[command]], for a section [command] of the file. *)
Definition has_option (config : RawConfig) (command option : string) : bool :=
  has2 command option config.

(** [config.get(command, option)], for an option the file has. *)
Definition get (config : RawConfig) (command option : string) : string :=
  match get2 command option config with Some raw => raw | None => "" end.

Definition BOOLEAN_STATES : Dict bool :=
  [("1", true); ("yes", true); ("true", true); ("on", true);
   ("0", false); ("no", false); ("false", false); ("off", false)].

Definition getboolean (config : RawConfig) (command option : string) : Res bool :=
  or_ValueError (dict.get (PyStr.lower (get config command option)) BOOLEAN_STATES).

Definition getint (config : RawConfig) (command option : string) : Res Z :=
  or_ValueError (PyNum.int (get config command option)).

Definition getfloat (config : RawConfig) (command option : string) : Res PyFloat :=
  or_ValueError (PyNum.float (get config command option)).

End ConfigParser.

(* ===================================================================== *)
(** ** The parser behind the parsed file *)
(* ===================================================================== *)

(** The two attributes of a [ConfigParser] after [read_string]: the options
    of the [[DEFAULT]] section, and the other sections with their options, in
    file order.  Texts are as written: interpolation happens on reading. *)
Record ParserData : Type := mkParserData {
  _defaults : Dict string;
  _sections : Dict (Dict string)
}.

Module RawParser.

(** [config.sections()]: the [[DEFAULT]] section is never listed. *)
Definition sections (p : ParserData) : list string := dict.keys (_sections p).

Definition has_section (p : ParserData) (section : string) : bool :=
  dict.has section (_sections p).

(** [d.update(other)]. *)
Definition update {A : Type} (d other : Dict A) : Dict A :=
  fold_left (fun acc entry => dict.set (fst entry) (snd entry) acc) other d.

(** [d = self._defaults.copy(); d.update(self._sections[section])]: what a
    section shows, its own options and those it inherits from [[DEFAULT]]. *)
Definition unify_values (p : ParserData) (section : string) : Dict string :=
  update (_defaults p)
    match dict.get section (_sections p) with Some own => own | None => [] end.

Definition MAX_INTERPOLATION_DEPTH : nat := 10.

Fixpoint contains (c : ascii) (s : string) : bool :=
  match s with
  | EmptyString => false
  | String c' r => Ascii.eqb c c' || contains c r
  end.

(** Where a scan of a value stands: in plain text, after a [%], inside the
    name of [%(name)s], or after its closing bracket. *)
Inductive Scan : Type :=
| Plain
| Percent
| Name (acc : string)
| Closed (name : string).

(** [BasicInterpolation._interpolate_some], with [fuel] for the depths that
    remain: [%%] is a percent sign, [%(name)s] the value of [name] in [map],
    itself interpolated when it has a [%], and any other [%] is an error. *)
Fixpoint _interpolate_some (fuel : nat) (map : Dict string) (rest : string)
  : Res string :=
  match fuel with
  | O => Raise InterpolationDepthError
  | S fuel' =>
      (fix scan (state : Scan) (rest : string) : Res string :=
         match rest with
         | EmptyString =>
             match state with
             | Plain => Return EmptyString
             | _ => Raise InterpolationSyntaxError
             end
         | String c r =>
             match state with
             | Plain =>
                 if Ascii.eqb c "%"%char then scan Percent r
                 else t <- scan Plain r ;; Return (String c t)
             | Percent =>
                 if Ascii.eqb c "%"%char then
                   t <- scan Plain r ;; Return (String "%"%char t)
                 else if Ascii.eqb c "("%char then scan (Name EmptyString) r
                 else Raise InterpolationSyntaxError
             | Name acc =>
                 if Ascii.eqb c ")"%char then
                   match acc with
                   | EmptyString => Raise InterpolationSyntaxError
                   | _ => scan (Closed acc) r
                   end
                 else scan (Name (acc ++ String c EmptyString)) r
             | Closed name =>
                 if Ascii.eqb c "s"%char then
                   let var := PyStr.lower name in
                   match dict.get var map with
                   | None => Raise (InterpolationMissingOptionError var)
                   | Some v =>
                       head <- (if contains "%"%char v
                                then _interpolate_some fuel' map v
                                else Return v) ;;
                       t <- scan Plain r ;;
                       Return (head ++ t)
                   end
                 else Raise InterpolationSyntaxError
             end
         end) Plain rest
  end.

(** [BasicInterpolation.before_get]. *)
Definition before_get (map : Dict string) (value : string) : Res string :=
  _interpolate_some MAX_INTERPOLATION_DEPTH map value.

Fixpoint interpolate_all (map : Dict string) (entries : Dict string)
  : Res (Dict string) :=
  match entries with
  | [] => Return []
  | (option, value) :: rest =>
      text <- before_get map value ;;
      texts <- interpolate_all map rest ;;
      Return ((option, text) :: texts)
  end.

(** [config.items(section)]: the options that the section shows, each with
    its value interpolated; the first value that does not interpolate ends
    the call with its exception. *)
Definition items (p : ParserData) (section : string) : Res (Dict string) :=
  if has_section p section then
    let d := unify_values p section in interpolate_all d d
  else Raise (NoSectionError section).

(** [option in config[section]], for a section of the file. *)
Definition has_option (p : ParserData) (section option : string) : bool :=
  dict.has (PyStr.lower option) (unify_values p section).

(** [config.get(section, option)]. *)
Definition get (p : ParserData) (section option : string) : Res string :=
  if has_section p section then
    let d := unify_values p section in
    match dict.get (PyStr.lower option) d with
    | Some value => before_get d value
    | None => Raise (NoOptionError option)
    end
  else Raise (NoSectionError section).

Fixpoint read_sections (p : ParserData) (sections : list string) : Res RawConfig :=
  match sections with
  | [] => Return []
  | section :: rest =>
      its <- items p section ;;
      config <- read_sections p rest ;;
      Return ((section, its) :: config)
  end.

(** The parsed file as the rest of the development has it: what [items]
    returns for each section, when every value interpolates. *)
Definition view (p : ParserData) : Res RawConfig := read_sections p (sections p).

End RawParser.

Example interpolation_ex :
  map (RawParser.before_get [("home", "/srv"); ("dir", "%(home)s/out"); ("loop", "%(loop)s")])
      ["plain"; "100%%"; "50%"; "%(DIR)s/a"; "%(nope)s"; "%(dir)"; "%()s"; "%(loop)s"; "%x"]
  = [Return "plain"; Return "100%"; Raise InterpolationSyntaxError;
     Return "/srv/out/a"; Raise (InterpolationMissingOptionError "nope");
     Raise InterpolationSyntaxError; Raise InterpolationSyntaxError;
     Raise InterpolationDepthError; Raise InterpolationSyntaxError].
Proof. vm_compute. reflexivity. Qed.

(* ===================================================================== *)
(** ** The schema *)
(* ===================================================================== *)

Definition PYAV_THREADING_MODES : list string := ["NONE"; "SLICE"; "FRAME"; "AUTO"].

(** The member names of an enumeration, in definition order.  The imported
    enumerations are taken without aliases. *)
Definition member_names (imp : Imports) (cls : EnumClass) : list string :=
  match cls with
  | FlashFilter_Mode => FlashFilter_Mode_names imp
  | Interpolation => Interpolation_names imp
  | TimecodeFormat => ["FRAMES"; "TIMECODE"; "SECONDS"]
  end.

(** [cls[name]]: the member called [name], or [KeyError]. *)
Definition enum_getitem (imp : Imports) (cls : EnumClass) (name : string) : Res Value :=
  if PyStr.mem name (member_names imp cls) then Return (VEnum cls name)
  else Raise (KeyError name).

Definition _PLACEHOLDER : Z := 0.
Definition DEFAULT_JPG_QUALITY : Z := 95.
Definition DEFAULT_WEBP_QUALITY : Z := 100.

Definition flt_0_395 : PyFloat := Eval vm_compute in PyNum.lit "0.395".
Definition flt_0_05 : PyFloat := Eval vm_compute in PyNum.lit "0.05".

(** [RangeValue(v, min_val=lo, max_val=hi)] with float arguments. *)
Definition frange (v lo hi : PyFloat) : Value := VRange (NFloat v) (NFloat lo) (NFloat hi).
Definition irange (v lo hi : Z) : Value := VRange (NInt v) (NInt lo) (NInt hi).

Definition CONFIG_MAP (imp : Imports) : ConfigDict :=
  [ ("backend-opencv",
      [ ("max-decode-attempts", VInt 5) ]);
    ("backend-pyav",
      [ ("suppress-output", VBool false);
        ("threading-mode", VStr "auto") ]);
    ("detect-adaptive",
      [ ("frame-window", VInt 2);
        ("kernel-size", VKernelSize None);
        ("luma-only", VBool false);
        ("min-content-val", frange (FFin 15) (FFin 0) (FFin 255));
        ("min-delta-hsv", frange (FFin 15) (FFin 0) (FFin 255));
        ("min-scene-len", VTimecode (VInt 0));
        ("threshold", frange (FFin 3) (FFin 0) (FFin 255));
        ("weights", VScoreWeights (DEFAULT_COMPONENT_WEIGHTS imp)) ]);
    ("detect-content",
      [ ("filter-mode", VEnum FlashFilter_Mode "MERGE");
        ("kernel-size", VKernelSize None);
        ("luma-only", VBool false);
        ("min-scene-len", VTimecode (VInt 0));
        ("threshold", frange (FFin 27) (FFin 0) (FFin 255));
        ("weights", VScoreWeights (DEFAULT_COMPONENT_WEIGHTS imp)) ]);
    ("detect-hash",
      [ ("min-scene-len", VTimecode (VInt 0));
        ("lowpass", irange 2 1 256);
        ("size", irange 16 1 256);
        ("threshold", frange flt_0_395 (FFin 0) (FFin 1)) ]);
    ("detect-hist",
      [ ("min-scene-len", VTimecode (VInt 0));
        ("threshold", frange flt_0_05 (FFin 0) (FFin 1));
        ("bins", irange 256 1 256) ]);
    ("detect-threshold",
      [ ("add-last-scene", VBool true);
        ("fade-bias", VRange (NInt 0) (NFloat (FFin (-100))) (NFloat (FFin 100)));
        ("min-scene-len", VTimecode (VInt 0));
        ("threshold", frange (FFin 12) (FFin 0) (FFin 255)) ]);
    ("load-scenes",
      [ ("start-col-name", VStr "Start Frame") ]);
    ("export-html",
      [ ("filename", VStr "$VIDEO_NAME-Scenes.html");
        ("image-height", VInt 0);
        ("image-width", VInt 0);
        ("no-images", VBool false);
        ("show", VBool false) ]);
    ("list-scenes",
      [ ("cut-format", VEnum TimecodeFormat "TIMECODE");
        ("display-cuts", VBool true);
        ("display-scenes", VBool true);
        ("filename", VStr "$VIDEO_NAME-Scenes.csv");
        ("output", VNone);
        ("no-output-file", VBool false);
        ("quiet", VBool false);
        ("skip-cuts", VBool false) ]);
    ("global",
      [ ("backend", VStr "opencv");
        ("default-detector", VStr "detect-adaptive");
        ("downscale", VInt 0);
        ("downscale-method", VEnum Interpolation "LINEAR");
        ("drop-short-scenes", VBool false);
        ("frame-skip", VInt 0);
        ("merge-last-scene", VBool false);
        ("min-scene-len", VTimecode (VStr "0.6s"));
        ("output", VNone);
        ("verbosity", VStr "info") ]);
    ("save-images",
      [ ("compression", irange 3 0 9);
        ("filename", VStr "$VIDEO_NAME-Scene-$SCENE_NUMBER-$IMAGE_NUMBER");
        ("format", VStr "jpeg");
        ("frame-margin", VInt 1);
        ("height", VInt 0);
        ("num-images", VInt 3);
        ("output", VNone);
        ("quality", irange _PLACEHOLDER 0 100);
        ("scale", VFloat (FFin 1));
        ("scale-method", VEnum Interpolation "LINEAR");
        ("width", VInt 0) ]);
    ("save-qp",
      [ ("disable-shift", VBool false);
        ("filename", VStr "$VIDEO_NAME.qp");
        ("output", VNone) ]);
    ("split-video",
      [ ("args", VStr (DEFAULT_FFMPEG_ARGS imp));
        ("copy", VBool false);
        ("filename", VStr "$VIDEO_NAME-Scene-$SCENE_NUMBER");
        ("high-quality", VBool false);
        ("mkvmerge", VBool false);
        ("output", VNone);
        ("preset", VStr "veryfast");
        ("quiet", VBool false);
        ("rate-factor", irange 22 0 100) ]) ].

Definition CHOICE_MAP (imp : Imports) : Dict (Dict (list string)) :=
  [ ("backend-pyav",
      [ ("threading_mode", map PyStr.lower PYAV_THREADING_MODES) ]);
    ("detect-content",
      [ ("filter-mode", map PyStr.lower (member_names imp FlashFilter_Mode)) ]);
    ("global",
      [ ("backend", ["opencv"; "pyav"; "moviepy"]);
        ("default-detector",
          ["detect-adaptive"; "detect-content"; "detect-threshold"; "detect-hash";
           "detect-hist"]);
        ("downscale-method", map PyStr.lower (member_names imp Interpolation));
        ("verbosity", ["debug"; "info"; "warning"; "error"; "none"]) ]);
    ("list-scenes",
      [ ("cut-format", map PyStr.lower (member_names imp TimecodeFormat)) ]);
    ("save-images",
      [ ("format", ["jpeg"; "png"; "webp"]);
        ("scale-method", map PyStr.lower (member_names imp Interpolation)) ]);
    ("split-video",
      [ ("preset",
          ["ultrafast"; "superfast"; "veryfast"; "faster"; "fast"; "medium"; "slow";
           "slower"; "veryslow"]) ]) ].

(* ===================================================================== *)
(** ** Validation of a parsed file *)
(* ===================================================================== *)

Section Validation.

Variable imp : Imports.

(** *** [_validate_structure] *)

(** The inner loop: [for option_name, _ in config.items(section)]. *)
Fixpoint validate_options (section : string) (schema : Dict Value)
    (items : Dict string) (errors : list string) : list string :=
  match items with
  | [] => errors
  | (option_name, _) :: rest =>
      validate_options section schema rest
        (if negb (dict.has option_name schema) then
           list_append ("Unsupported config option in [" ++ section ++ "]: " ++ option_name)
             errors
         else errors)
  end.

(** The outer loop: [for section in config.sections()]. *)
Fixpoint validate_sections (config : RawConfig) (sections : list string)
    (errors : list string) : list string :=
  match sections with
  | [] => errors
  | section :: rest =>
      validate_sections config rest
        match dict.get section (CONFIG_MAP imp) with
        | None => list_append ("Unsupported config section: [" ++ section ++ "]") errors
        | Some schema =>
            validate_options section schema (ConfigParser.items config section) errors
        end
  end.

Definition _validate_structure (config : RawConfig) : list string :=
  validate_sections config (ConfigParser.sections config) [].

(** *** [_parse_config] *)

(** The two locals the loops update: [(out_map, errors)]. *)
Definition ParseState : Type := (ConfigDict * list string)%type.

Definition store (command option : string) (v : Value) (st : ParseState) : ParseState :=
  (set2 command option v (fst st), snd st).

Definition append_error (msg : string) (st : ParseState) : ParseState :=
  (fst st, list_append msg (snd st)).

(** How the first [try] block of an iteration ends when it does not raise:
    with [continue], or by falling out of the [if]/[elif] chain. *)
Inductive Flow : Type :=
| Continue (st : ParseState)
| FallThrough.

(** The local [value_type] once the chain has chosen its branch. *)
Definition value_type_of (default : Value) : Datatypes.option string :=
  match default with
  | VBool _ => Some "yes/no value"
  | VInt _ => Some "integer"
  | VFloat _ => Some "number"
  | _ => None
  end.

Definition str_opt (o : Datatypes.option string) : string :=
  match o with Some s => s | None => "None" end.

Definition must_be_one_of (config : RawConfig) (command option : string)
    (choices : list string) : string :=
  "Invalid [" ++ command ++ "] value for " ++ option ++ ": "
    ++ ConfigParser.get config command option
    ++ ". Must be one of: " ++ PyStr.join ", " choices ++ ".".

Definition not_a_valid (config : RawConfig) (command option : string)
    (value_type : Datatypes.option string) : string :=
  "Invalid [" ++ command ++ "] value for " ++ option ++ ": "
    ++ ConfigParser.get config command option
    ++ " is not a valid " ++ str_opt value_type ++ ".".

Definition failed_validation (command option config_value error : string) : string :=
  "Invalid [" ++ command ++ "] value for " ++ option ++ ":" ++ PyStr.nl ++ "  "
    ++ config_value ++ PyStr.nl ++ error.

(** [CHOICE_MAP[command][option]]. *)
Definition choices_of (command option : string) : Res (list string) :=
  match dict.get command (CHOICE_MAP imp) with
  | None => Raise (KeyError command)
  | Some sec =>
      match dict.get option sec with
      | None => Raise (KeyError option)
      | Some choices => Return choices
      end
  end.

(** The body of the first [try]: the [isinstance] chain on the default. *)
Definition coerce (config : RawConfig) (command option : string) (default : Value)
    (st : ParseState) : Res Flow :=
  match default with
  | VBool _ =>
      b <- ConfigParser.getboolean config command option ;;
      Return (Continue (store command option (VBool b) st))
  | VInt _ =>
      z <- ConfigParser.getint config command option ;;
      Return (Continue (store command option (VInt z) st))
  | VFloat _ =>
      f <- ConfigParser.getfloat config command option ;;
      Return (Continue (store command option (VFloat f) st))
  | VEnum cls _ =>
      let config_value :=
        PyStr.upper (PyStr.strip
          (PyStr.replace_char PyStr.newline " " (ConfigParser.get config command option))) in
      st' <- try_except
               (parsed <- enum_getitem imp cls config_value ;;
                Return (store command option parsed st))
               is_TypeError
               (fun _ =>
                  choices <- choices_of command option ;;
                  Return (append_error (must_be_one_of config command option choices) st)) ;;
      Return (Continue st')
  | _ => Return FallThrough
  end.

(** One iteration of the inner loop, for the schema entry [option] of
    [command], whose default is [default = CONFIG_MAP[command][option]]. *)
Definition parse_option (config : RawConfig) (command option : string)
    (default : Value) (st : ParseState) : Res ParseState :=
  if dict.has command config && ConfigParser.has_option config command option then
    flow <- try_except (coerce config command option default st) is_ValueError
              (fun _ =>
                 Return (Continue
                   (append_error
                      (not_a_valid config command option (value_type_of default)) st))) ;;
    match flow with
    | Continue st' => Return st'
    | FallThrough =>
        (* Handle custom validation types. *)
        let config_value := ConfigParser.get config command option in
        if is_ValidatedValue default then
          try_except
            (v <- from_config imp config_value default ;;
             Return (store command option v st))
            is_OptionParseFailure
            (fun ex =>
               match ex with
               | OptionParseFailure error =>
                   Return (append_error
                             (failed_validation command option config_value error) st)
               | _ => Raise ex
               end)
        else
          match value_type_of default with
          | None =>
              let config_value :=
                PyStr.strip (PyStr.replace_char PyStr.newline " "
                               (ConfigParser.get config command option)) in
              if has2 command option (CHOICE_MAP imp) then
                choices <- choices_of command option ;;
                if negb (PyStr.mem (PyStr.lower config_value) choices) then
                  Return (append_error
                            (must_be_one_of config command option choices) st)
                else Return (store command option (VStr config_value) st)
              else Return (store command option (VStr config_value) st)
          | Some _ => Return st
          end
    end
  else Return st.

(** [for option in CONFIG_MAP[command]]. *)
Fixpoint parse_options (config : RawConfig) (command : string)
    (schema : Dict Value) (st : ParseState) : Res ParseState :=
  match schema with
  | [] => Return st
  | (option, default) :: rest =>
      st' <- parse_option config command option default st ;;
      parse_options config command rest st'
  end.

(** [for command in CONFIG_MAP], starting with [out_map[command] = {}]. *)
Fixpoint parse_commands (config : RawConfig) (schema : ConfigDict)
    (st : ParseState) : Res ParseState :=
  match schema with
  | [] => Return st
  | (command, options) :: rest =>
      st' <- parse_options config command options
               (dict.set command [] (fst st), snd st) ;;
      parse_commands config rest st'
  end.

Definition _parse_config (config : RawConfig) : Res (ConfigDict * list string) :=
  parse_commands config (CONFIG_MAP imp) ([], []).

End Validation.

(** *** [_validate_structure], on the parser

    The same two loops with [config.sections()] and [config.items(section)]
    as the parser answers them: [items] builds its whole list before the
    inner loop starts, and a value that does not interpolate ends the
    validator with the parser's exception instead of a list. *)
Module OnParser.

Section Validator.

Variable imp : Imports.

Fixpoint validate_sections (config : ParserData) (sections : list string)
    (errors : list string) : Res (list string) :=
  match sections with
  | [] => Return errors
  | section :: rest =>
      match dict.get section (CONFIG_MAP imp) with
      | None =>
          validate_sections config rest
            (list_append ("Unsupported config section: [" ++ section ++ "]") errors)
      | Some schema =>
          items <- RawParser.items config section ;;
          validate_sections config rest (validate_options section schema items errors)
      end
  end.

Definition _validate_structure (config : ParserData) : Res (list string) :=
  validate_sections config (RawParser.sections config) [].

End Validator.

End OnParser.

(* ===================================================================== *)
(** ** The registry *)
(* ===================================================================== *)

(** What [open(path).read()] followed by [config.read_string] gives for a
    path: one of the two exceptions [_load_from_disk] handles (kept as their
    [str()]), or the parsed file.  Exceptions of other classes, which
    [_load_from_disk] would let through, are not part of the model. *)
Inductive ReadResult : Type :=
| ParsingError (msg : string)
| OSError (msg : string)
| Parsed (config : RawConfig).

(** The file system as the loader sees it. *)
Record World : Type := mkWorld {
  os_path_exists : string -> bool;
  read_config : string -> ReadResult
}.

(** The attributes of a [ConfigRegistry]. *)
Record ConfigRegistry : Type := mkRegistry {
  _config : ConfigDict;          (* Options set in the loaded config file. *)
  _init_log : list LogEntry;
  _initialized : bool
}.

Module ConfigRegistry.

Section Methods.

Variable imp : Imports.
Variable world : World.

Definition _log (log_level : Z) (log_str : string) (self : ConfigRegistry)
  : ConfigRegistry :=
  mkRegistry (_config self) (list_append (log_level, log_str) (_init_log self))
    (_initialized self).

Definition set_config (c : ConfigDict) (self : ConfigRegistry) : ConfigRegistry :=
  mkRegistry c (_init_log self) (_initialized self).

Definition set_init_log (l : list LogEntry) (self : ConfigRegistry) : ConfigRegistry :=
  mkRegistry (_config self) l (_initialized self).

Definition set_initialized (b : bool) (self : ConfigRegistry) : ConfigRegistry :=
  mkRegistry (_config self) (_init_log self) b.

(** [for log_str in errors: self._init_log.append((logging.ERROR, log_str))]. *)
Fixpoint log_errors (errors : list string) (self : ConfigRegistry) : ConfigRegistry :=
  match errors with
  | [] => self
  | log_str :: rest => log_errors rest (_log logging.ERROR log_str self)
  end.

(** The truth value of [path]: neither [None] nor the empty string. *)
Definition given (path : Datatypes.option string) : Datatypes.option string :=
  match path with
  | Some "" => None
  | _ => path
  end.

(** The first part of [_load_from_disk]: the path to read, or [None] when
    the method returns because there is no user config file. *)
Definition locate (path : Datatypes.option string) (self : ConfigRegistry)
  : ConfigRegistry * Res (Datatypes.option string) :=
  match given path with
  | Some path =>
      let self :=
        _log logging.INFO ("Loading config from file:" ++ PyStr.nl ++ "  " ++ path) self in
      if negb (os_path_exists world path) then
        let self := _log logging.ERROR ("File not found: " ++ path) self in
        (self, Raise (ConfigLoadFailure (_init_log self) None))
      else (self, Return (Some path))
  | None =>
      (* Gracefully handle the case where there isn't a user config file. *)
      if negb (os_path_exists world (CONFIG_FILE_PATH imp)) then
        (_log logging.DEBUG "User config file not found." self, Return None)
      else
        let path := CONFIG_FILE_PATH imp in
        (_log logging.INFO ("Loading user config file:" ++ PyStr.nl ++ "  " ++ path) self,
         Return (Some path))
  end.

(** The last part of [_load_from_disk], once the file syntax is correct. *)
Definition validate (config : RawConfig) (self : ConfigRegistry)
  : ConfigRegistry * Res unit :=
  let errors := _validate_structure imp config in
  let step :=
    match errors with
    | [] =>
        match _parse_config imp config with
        | Return (out_map, errors) => (set_config out_map self, Return errors)
        | Raise e => (self, Raise e)
        end
    | _ :: _ => (self, Return errors)
    end in
  match step with
  | (self, Raise e) => (self, Raise e)
  | (self, Return []) => (self, Return tt)
  | (self, Return errors) =>
      let self := log_errors errors self in
      (self, Raise (ConfigLoadFailure (_init_log self) None))
  end.

Definition _load_from_disk (path : Datatypes.option string) (self : ConfigRegistry)
  : ConfigRegistry * Res unit :=
  match locate path self with
  | (self, Raise e) => (self, Raise e)
  | (self, Return None) => (self, Return tt)
  | (self, Return (Some path)) =>
      (* Try to load and parse the config file at `path`. *)
      match read_config world path with
      | ParsingError ex => (self, Raise (ConfigLoadFailure (_init_log self) (Some ex)))
      | OSError ex => (self, Raise (ConfigLoadFailure (_init_log self) (Some ex)))
      | Parsed config => validate config self
      end
  end.

(** [ConfigRegistry(path, throw_exception)]: the new object, or the
    exception that leaves the constructor. *)
Definition __init__ (path : Datatypes.option string) (throw_exception : bool)
  : Res ConfigRegistry :=
  let self := mkRegistry [] [] false in
  match _load_from_disk path self with
  | (self, Return _) => Return (set_initialized true self)
  | (self, Raise (ConfigLoadFailure init_log reason)) =>
      if throw_exception then Raise (ConfigLoadFailure init_log reason)
      else
        let self := set_init_log init_log self in
        let self :=
          match reason with
          | Some reason =>
              _log logging.ERROR
                ("Error: " ++ PyStr.replace_char PyStr.tab "  " reason) self
          | None => self
          end in
        Return (set_initialized false self)
  | (_, Raise e) => Raise e
  end.

(** Current configuration options that are set for each command. *)
Definition config_dict (self : ConfigRegistry) : ConfigDict := _config self.

(** True if the ConfigRegistry was constructed without errors. *)
Definition initialized (self : ConfigRegistry) : bool := _initialized self.

(** Get initialization log.  Consumes the log. *)
Definition get_init_log (self : ConfigRegistry) : list LogEntry * ConfigRegistry :=
  (_init_log self, set_init_log [] self).

Definition is_default (self : ConfigRegistry) (command option : string) : bool :=
  negb (has2 command option (_config self)).

(** [get_value(command, option, override)]; [override] is [VNone] when it
    is not given.  The lookup [get2] answers [Some] exactly when
    [command in self._config and option in self._config[command]]. *)
Definition get_value (self : ConfigRegistry) (command option : string)
    (override : Value) : Res Value :=
  if negb (has2 command option (CONFIG_MAP imp)) then Raise AssertionError
  else
    match override with
    | VNone =>
        let value :=
          match get2 command option (_config self) with
          | Some v => v
          | None =>
              match get2 command option (CONFIG_MAP imp) with
              | Some v => v
              | None => VNone
              end
          end in
        if is_ValidatedValue value then Return (dot_value value) else Return value
    | _ => Return override
    end.

End Methods.

End ConfigRegistry.

(* ===================================================================== *)
(** ** A concrete environment *)
(* ===================================================================== *)

(** An instance of [Imports] and a file system built from a list of parsed
    files, on which the model runs. *)
Module Sample.

Definition nonneg (f : PyFloat) : bool :=
  match f with
  | FFin q => Qle_bool 0 q
  | _ => false
  end.

Fixpoint split_colon (s cur : string) : list string :=
  match s with
  | EmptyString => [PyStr.rev cur]
  | String c r =>
      if Ascii.eqb c ":"%char then PyStr.rev cur :: split_colon r ""
      else split_colon r (String c cur)
  end.

Definition seconds (s : string) : bool :=
  match PyNum.float s with Some f => nonneg f | None => false end.

(** Modelled from the spec: the syntax check of [FrameTimecode], whose
    definition is outside this file.  A timecode is a frame count, a number
    of seconds (also written with a trailing [s]), or [HH:MM:SS[.fff]]. *)
Definition accepts (v : Value) : bool :=
  match v with
  | VInt z => 0 <=? z
  | VFloat f => nonneg f
  | VStr s =>
      match split_colon s "" with
      | [x] =>
          match PyStr.rev x with
          | String "s"%char r => seconds (PyStr.rev r)
          | _ => seconds x
          end
      | [h; m; sec] =>
          match PyNum.int h, PyNum.int m with
          | Some hh, Some mm => (0 <=? hh) && (0 <=? mm) && (mm <? 60) && seconds sec
          | _, _ => false
          end
      | _ => false
      end
  | _ => false
  end.

(** [str()] of a float with an integral value; the bounds of the schema
    are all of this kind. *)
Definition repr_float (f : PyFloat) : string :=
  match f with
  | FNaN => "nan"
  | FInf true => "-inf"
  | FInf false => "inf"
  | FFin q => PyNum.str_int (Qnum q / Zpos (Qden q)) ++ ".0"
  end.

(** The imported names with the values the other modules give them. *)
Definition imports : Imports :=
  {| FrameTimecode_accepts := accepts;
     DEFAULT_FFMPEG_ARGS :=
       "-map 0:v:0 -map 0:a? -map 0:s? -c:v libx264 -preset veryfast -crf 22 -c:a aac";
     FlashFilter_Mode_names := ["MERGE"; "SUPPRESS"];
     Interpolation_names := ["NEAREST"; "LINEAR"; "CUBIC"; "AREA"; "LANCZOS4"];
     DEFAULT_COMPONENT_WEIGHTS := mkComponents (FFin 1) (FFin 1) (FFin 1) (FFin 0);
     CONFIG_FILE_PATH := "/home/user/.config/PySceneDetect/scenedetect.cfg";
     float_str := repr_float |}.

(** A file system holding the given parsed files and nothing else. *)
Definition disk (files : Dict RawConfig) : World :=
  {| os_path_exists := fun path => dict.has path files;
     read_config := fun path =>
       match dict.get path files with
       | Some config => Parsed config
       | None => OSError ("[Errno 2] No such file or directory: '" ++ path ++ "'")
       end |}.

Definition empty_disk : World := disk [].

End Sample.

(* ===================================================================== *)
(** * Properties *)
(* ===================================================================== *)

(** ** The order on numbers *)

Module PyNumFacts.

Import PyNum.

Lemma lt_as_float (x y : Number) : lt x y = flt (as_float x) (as_float y).
Proof.
  destruct x as [a | f], y as [b | g]; try reflexivity.
  simpl. unfold Qcompare. simpl. rewrite !Z.mul_1_r.
  unfold Z.ltb. destruct (a ?= b); reflexivity.
Qed.

Lemma eq_as_float (x y : Number) : eq x y = feq (as_float x) (as_float y).
Proof.
  destruct x as [a | f], y as [b | g]; try reflexivity.
  simpl. unfold Qeq_bool. simpl. rewrite !Z.mul_1_r. reflexivity.
Qed.

Lemma flt_fin (p q : Q) : flt (FFin p) (FFin q) = true <-> (p < q)%Q.
Proof.
  simpl. rewrite Qlt_alt. destruct (p ?= q)%Q; intuition congruence.
Qed.

Lemma feq_fin (p q : Q) : feq (FFin p) (FFin q) = true <-> (p == q)%Q.
Proof. simpl. apply Qeq_bool_iff. Qed.

(** Equal floats are not ordered. *)
Lemma feq_not_flt (x y : PyFloat) : feq x y = true -> flt x y = false.
Proof.
  destruct x as [ | [ | ] | p], y as [ | [ | ] | q]; simpl; try congruence.
  intros H. apply Qeq_bool_iff in H.
  destruct (p ?= q)%Q eqn:E; try reflexivity.
  apply Qlt_alt in E. lra.
Qed.

Lemma feq_sym (x y : PyFloat) : feq x y = true -> feq y x = true.
Proof.
  destruct x as [ | [ | ] | p], y as [ | [ | ] | q]; simpl; try congruence.
  rewrite !Qeq_bool_iff. intros H. symmetry. exact H.
Qed.

Lemma flt_asym (x y : PyFloat) : flt x y = true -> flt y x = false.
Proof.
  destruct x as [ | [ | ] | p], y as [ | [ | ] | q]; simpl; try congruence.
  destruct (p ?= q)%Q eqn:E; try congruence. intros _.
  apply Qlt_alt in E.
  destruct (q ?= p)%Q eqn:E'; try reflexivity.
  apply Qlt_alt in E'. lra.
Qed.

(** A value equal to one end of a non-empty interval is below neither the
    lower end nor above the upper end. *)
Lemma feq_lower_inside (v lo hi : PyFloat) :
  flt lo hi || feq lo hi = true -> feq v lo = true ->
  flt v lo = false /\ flt hi v = false.
Proof.
  intros Hle Heq. split; [apply feq_not_flt; exact Heq | ].
  destruct v as [ | [ | ] | p], lo as [ | [ | ] | q], hi as [ | [ | ] | r];
    simpl in *; try congruence; try reflexivity.
  apply Qeq_bool_iff in Heq.
  destruct (r ?= p)%Q eqn:E; try reflexivity.
  apply Qlt_alt in E. apply orb_true_iff in Hle.
  destruct Hle as [H | H].
  - destruct (q ?= r)%Q eqn:E'; try congruence. apply Qlt_alt in E'. lra.
  - apply Qeq_bool_iff in H. lra.
Qed.

Lemma feq_upper_inside (v lo hi : PyFloat) :
  flt lo hi || feq lo hi = true -> feq v hi = true ->
  flt v lo = false /\ flt hi v = false.
Proof.
  intros Hle Heq. split; [ | apply feq_not_flt, feq_sym; exact Heq].
  destruct v as [ | [ | ] | p], lo as [ | [ | ] | q], hi as [ | [ | ] | r];
    simpl in *; try congruence; try reflexivity.
  apply Qeq_bool_iff in Heq.
  destruct (p ?= q)%Q eqn:E; try reflexivity.
  apply Qlt_alt in E. apply orb_true_iff in Hle.
  destruct Hle as [H | H].
  - destruct (q ?= r)%Q eqn:E'; try congruence. apply Qlt_alt in E'. lra.
  - apply Qeq_bool_iff in H. lra.
Qed.

Lemma le_as_float (x y : Number) :
  le x y = flt (as_float x) (as_float y) || feq (as_float x) (as_float y).
Proof. unfold le. rewrite lt_as_float, eq_as_float. reflexivity. Qed.

Definition fnan (x : PyFloat) : bool :=
  match x with FNaN => true | _ => false end.

(** Away from NaN the order is total: [x < y] fails exactly when [y <= x]. *)
Lemma flt_false_iff (x y : PyFloat) :
  fnan x = false -> fnan y = false ->
  (flt x y = false <-> flt y x || feq y x = true).
Proof.
  destruct x as [ | [ | ] | p], y as [ | [ | ] | q]; simpl; try discriminate;
    intros _ _; try (split; [reflexivity | reflexivity]);
    try (split; discriminate).
  rewrite orb_true_iff, Qeq_bool_iff.
  destruct (p ?= q)%Q eqn:E.
  - apply Qeq_alt in E. split; [intros _; right; symmetry; exact E | reflexivity].
  - apply Qlt_alt in E. split; [discriminate | ].
    intros [H | H].
    + destruct (q ?= p)%Q eqn:E'; try discriminate. apply Qlt_alt in E'. lra.
    + lra.
  - apply Qgt_alt in E. split; [ | reflexivity].
    intros _. left. destruct (q ?= p)%Q eqn:E'; try reflexivity.
    + apply Qeq_alt in E'. lra.
    + apply Qgt_alt in E'. lra.
Qed.

Lemma lt_false_iff (x y : Number) :
  is_nan x = false -> is_nan y = false ->
  (lt x y = false <-> le y x = true).
Proof.
  intros Hx Hy. rewrite lt_as_float, le_as_float. apply flt_false_iff.
  - destruct x as [a | [ | b | q]]; try reflexivity. discriminate Hx.
  - destruct y as [a | [ | b | q]]; try reflexivity. discriminate Hy.
Qed.

(** NaN is on neither side of any bound. *)
Lemma nan_unordered (x : Number) :
  lt (NFloat FNaN) x = false /\ gt (NFloat FNaN) x = false.
Proof.
  unfold gt. rewrite !lt_as_float. simpl.
  destruct (as_float x) as [ | [ | ] | q]; split; reflexivity.
Qed.

End PyNumFacts.

(** ** Facts about dictionaries and the schema *)

Lemma dict_get_In {A : Type} (k : string) (d : Dict A) (v : A) :
  dict.get k d = Some v -> In (k, v) d.
Proof.
  induction d as [ | [k' v'] r IH]; simpl; [discriminate | ].
  destruct (String.eqb_spec k k') as [-> | _].
  - intros [= ->]. left. reflexivity.
  - intros H. right. apply IH, H.
Qed.

(** Every default of the schema, section after section. *)
Definition schema_defaults (imp : Imports) : list Value :=
  flat_map (fun sec => map snd (snd sec)) (CONFIG_MAP imp).

Lemma get2_schema_default (imp : Imports) (command option : string) (v : Value) :
  get2 command option (CONFIG_MAP imp) = Some v -> In v (schema_defaults imp).
Proof.
  unfold get2, schema_defaults. intros H.
  destruct (dict.get command (CONFIG_MAP imp)) as [sec | ] eqn:E; [ | discriminate].
  apply dict_get_In in E. apply dict_get_In in H.
  apply in_flat_map. exists (command, sec). split; [exact E | ].
  simpl. apply in_map_iff. exists (option, v). split; [reflexivity | exact H].
Qed.

(** A range default has [min_val <= max_val] and lies between them. *)
Definition range_ok (v : Value) : bool :=
  match v with
  | VRange value min_val max_val =>
      PyNum.le min_val max_val
      && negb (PyNum.lt value min_val) && negb (PyNum.gt value max_val)
  | _ => true
  end.

Lemma schema_ranges_ok (imp : Imports) : forallb range_ok (schema_defaults imp) = true.
Proof. vm_compute. reflexivity. Qed.

Lemma schema_range_nonempty (imp : Imports) (command option : string)
    (value min_val max_val : Number) :
  get2 command option (CONFIG_MAP imp) = Some (VRange value min_val max_val) ->
  PyNum.le min_val max_val = true.
Proof.
  intros H. apply get2_schema_default in H.
  pose proof (schema_ranges_ok imp) as Hall.
  rewrite forallb_forall in Hall. specialize (Hall _ H). simpl in Hall.
  apply andb_true_iff in Hall. destruct Hall as [Hall _].
  apply andb_true_iff in Hall. apply Hall.
Qed.

(** ** Range values *)

Lemma RangeValue_init_raises (value min_val max_val : Number) :
  RangeValue.__init__ value min_val max_val = Raise ValueError <->
  PyNum.lt value min_val = true \/ PyNum.gt value max_val = true.
Proof.
  unfold RangeValue.__init__.
  destruct (PyNum.lt value min_val || PyNum.gt value max_val) eqn:E.
  - apply orb_true_iff in E. tauto.
  - apply orb_false_iff in E. destruct E as [E1 E2]. rewrite E1, E2.
    split; [discriminate | intros [H | H]; discriminate].
Qed.

Lemma RangeValue_init_inside (value min_val max_val : Number) :
  PyNum.lt value min_val = false -> PyNum.gt value max_val = false ->
  RangeValue.__init__ value min_val max_val = Return (VRange value min_val max_val).
Proof. unfold RangeValue.__init__. intros -> ->. reflexivity. Qed.

Lemma RangeValue_init_boundary (value min_val max_val : Number) :
  PyNum.le min_val max_val = true ->
  PyNum.eq value min_val = true \/ PyNum.eq value max_val = true ->
  RangeValue.__init__ value min_val max_val = Return (VRange value min_val max_val).
Proof.
  intros Hle Heq. rewrite PyNumFacts.le_as_float in Hle.
  rewrite !PyNumFacts.eq_as_float in Heq.
  assert (PyNum.flt (PyNum.as_float value) (PyNum.as_float min_val) = false
          /\ PyNum.flt (PyNum.as_float max_val) (PyNum.as_float value) = false) as [H1 H2].
  { destruct Heq as [Heq | Heq].
    - apply (PyNumFacts.feq_lower_inside _ _ _ Hle Heq).
    - apply (PyNumFacts.feq_upper_inside _ _ _ Hle Heq). }
  apply RangeValue_init_inside; unfold PyNum.gt; rewrite PyNumFacts.lt_as_float; assumption.
Qed.

(** Away from NaN, a value is accepted exactly when it is in the interval. *)
Lemma RangeValue_init_interval (value min_val max_val : Number) :
  PyNum.is_nan value = false -> PyNum.is_nan min_val = false ->
  PyNum.is_nan max_val = false ->
  (RangeValue.__init__ value min_val max_val = Return (VRange value min_val max_val) <->
   PyNum.le min_val value = true /\ PyNum.le value max_val = true).
Proof.
  intros Hv Hlo Hhi.
  rewrite <- (PyNumFacts.lt_false_iff value min_val Hv Hlo).
  rewrite <- (PyNumFacts.lt_false_iff max_val value Hhi Hv).
  unfold RangeValue.__init__, PyNum.gt.
  destruct (PyNum.lt value min_val), (PyNum.lt max_val value); simpl;
    split; intros H; try discriminate H; try (destruct H; discriminate);
    try reflexivity; split; reflexivity.
Qed.

(** The reader [from_config] chooses from the default's value. *)
Definition range_reader (dvalue : Number) (config_value : string)
  : Datatypes.option Number :=
  if PyNum.is_int dvalue then option_map NInt (PyNum.int config_value)
  else option_map NFloat (PyNum.float config_value).

Definition range_message (imp : Imports) (min_val max_val : Number) : string :=
  "Value must be between " ++ str_number imp min_val ++ " and "
    ++ str_number imp max_val ++ ".".

Lemma RangeValue_from_config_spec (imp : Imports) (config_value : string)
    (dvalue min_val max_val : Number) :
  RangeValue.from_config imp config_value (VRange dvalue min_val max_val) =
    match range_reader dvalue config_value with
    | Some value =>
        if PyNum.lt value min_val || PyNum.gt value max_val
        then Raise (OptionParseFailure (range_message imp min_val max_val))
        else Return (VRange value min_val max_val)
    | None => Raise (OptionParseFailure (range_message imp min_val max_val))
    end.
Proof.
  unfold RangeValue.from_config, range_reader, RangeValue.__init__.
  destruct (PyNum.is_int dvalue).
  - destruct (PyNum.int config_value) as [z | ];
      cbv [or_ValueError bind option_map]; [ | reflexivity].
    destruct (PyNum.lt (NInt z) min_val || PyNum.gt (NInt z) max_val); reflexivity.
  - destruct (PyNum.float config_value) as [f | ];
      cbv [or_ValueError bind option_map]; [ | reflexivity].
    destruct (PyNum.lt (NFloat f) min_val || PyNum.gt (NFloat f) max_val); reflexivity.
Qed.

(** What holds of a range.  Constructing a [RangeValue] raises exactly
    when the value is strictly below [min_val] or strictly above [max_val],
    which for numbers other than NaN is exactly when it is not in
    [[min_val, max_val]]; for every range option of the schema a value equal
    to [min_val] or to [max_val] is accepted; and [from_config] reads the
    text with [int] when the default's value is an [int] and with [float]
    otherwise, failing exactly when the reader fails or the value read is
    strictly below or strictly above the bounds of the default. *)
Theorem RangeValue_inclusive_bounds (imp : Imports) :
  (forall value min_val max_val,
      RangeValue.__init__ value min_val max_val = Raise ValueError <->
      PyNum.lt value min_val = true \/ PyNum.gt value max_val = true)
  /\ (forall value min_val max_val,
      PyNum.lt value min_val = false -> PyNum.gt value max_val = false ->
      RangeValue.__init__ value min_val max_val = Return (VRange value min_val max_val))
  /\ (forall value min_val max_val,
      PyNum.is_nan value = false -> PyNum.is_nan min_val = false ->
      PyNum.is_nan max_val = false ->
      (RangeValue.__init__ value min_val max_val = Return (VRange value min_val max_val) <->
       PyNum.le min_val value = true /\ PyNum.le value max_val = true))
  /\ (forall command option dvalue min_val max_val value,
      get2 command option (CONFIG_MAP imp) = Some (VRange dvalue min_val max_val) ->
      PyNum.eq value min_val = true \/ PyNum.eq value max_val = true ->
      RangeValue.__init__ value min_val max_val = Return (VRange value min_val max_val))
  /\ (forall config_value dvalue min_val max_val,
      RangeValue.from_config imp config_value (VRange dvalue min_val max_val) =
        match range_reader dvalue config_value with
        | Some value =>
            if PyNum.lt value min_val || PyNum.gt value max_val
            then Raise (OptionParseFailure (range_message imp min_val max_val))
            else Return (VRange value min_val max_val)
        | None => Raise (OptionParseFailure (range_message imp min_val max_val))
        end).
Proof.
  split; [exact RangeValue_init_raises | ].
  split; [exact RangeValue_init_inside | ].
  split; [exact RangeValue_init_interval | ].
  split; [ | exact (RangeValue_from_config_spec imp)].
  intros command option dvalue min_val max_val value Hschema Heq.
  apply RangeValue_init_boundary; [ | exact Heq].
  exact (schema_range_nonempty _ _ _ _ _ _ Hschema).
Qed.

Lemma RangeValue_inclusive_bounds_witness :
  RangeValue.__init__ (NInt 256) (NInt 1) (NInt 256)
  = Return (VRange (NInt 256) (NInt 1) (NInt 256))
  /\ RangeValue.__init__ (NFloat (FFin 0)) (NFloat (FFin 0)) (NFloat (FFin 255))
     = Return (VRange (NFloat (FFin 0)) (NFloat (FFin 0)) (NFloat (FFin 255))).
Proof.
  destruct (RangeValue_inclusive_bounds Sample.imports) as (_ & Hin & _ & Hbound & _).
  split.
  - apply (Hbound "detect-hash" "size" (NInt 16)); [reflexivity | right; reflexivity].
  - apply Hin; reflexivity.
Defined.

(** A NaN read from the file is stored: it is not below the minimum and not
    above the maximum. *)
Lemma RangeValue_nan (imp : Imports) (min_val max_val : Number) :
  RangeValue.from_config imp "nan" (VRange (NFloat (FFin 0)) min_val max_val)
  = Return (VRange (NFloat FNaN) min_val max_val).
Proof.
  rewrite RangeValue_from_config_spec.
  change (range_reader (NFloat (FFin 0)) "nan") with (Some (NFloat FNaN)).
  destruct (PyNumFacts.nan_unordered min_val) as [H1 _].
  destruct (PyNumFacts.nan_unordered max_val) as [_ H2].
  rewrite H1, H2. reflexivity.
Qed.

Lemma nan_in_no_interval (x : Number) :
  PyNum.le x (NFloat FNaN) = false /\ PyNum.le (NFloat FNaN) x = false.
Proof.
  unfold PyNum.le. rewrite !PyNumFacts.lt_as_float, !PyNumFacts.eq_as_float. simpl.
  destruct (PyNum.as_float x) as [ | [ | ] | q]; split; reflexivity.
Qed.

(** C6.  The code does not do what the claim says of a NaN.  A NaN is
    in no interval: it is neither at least [min_val] nor at most [max_val].
    Yet for every range whose default is a float, constructing a
    [RangeValue] with a NaN returns, and so does [from_config] on the text
    [nan], which [float] reads as a NaN: the test
    [value < min_val or value > max_val] is false of it. *)
Theorem RangeValue_accepts_nan (imp : Imports) (dvalue min_val max_val : Number) :
  PyNum.is_int dvalue = false ->
  PyNum.le min_val (NFloat FNaN) = false
  /\ PyNum.le (NFloat FNaN) max_val = false
  /\ RangeValue.__init__ (NFloat FNaN) min_val max_val
     = Return (VRange (NFloat FNaN) min_val max_val)
  /\ RangeValue.from_config imp "nan" (VRange dvalue min_val max_val)
     = Return (VRange (NFloat FNaN) min_val max_val)
  /\ RangeValue.from_config imp " NaN " (VRange dvalue min_val max_val)
     = Return (VRange (NFloat FNaN) min_val max_val).
Proof.
  intros Hfloat.
  destruct (nan_in_no_interval min_val) as [Hlo _].
  destruct (nan_in_no_interval max_val) as [_ Hhi].
  destruct (PyNumFacts.nan_unordered min_val) as [H1 _].
  destruct (PyNumFacts.nan_unordered max_val) as [_ H2].
  split; [exact Hlo | ]. split; [exact Hhi | ].
  split; [apply RangeValue_init_inside; assumption | ].
  split; rewrite RangeValue_from_config_spec.
  - replace (range_reader dvalue "nan") with (Some (NFloat FNaN))
      by (unfold range_reader; rewrite Hfloat; reflexivity).
    rewrite H1, H2. reflexivity.
  - replace (range_reader dvalue " NaN ") with (Some (NFloat FNaN))
      by (unfold range_reader; rewrite Hfloat; reflexivity).
    rewrite H1, H2. reflexivity.
Qed.

(** The threshold of [detect-content], a float between 0 and 255. *)
Lemma RangeValue_accepts_nan_witness :
  get2 "detect-content" "threshold" (CONFIG_MAP Sample.imports)
  = Some (frange (FFin 27) (FFin 0) (FFin 255))
  /\ RangeValue.from_config Sample.imports "nan" (frange (FFin 27) (FFin 0) (FFin 255))
     = Return (VRange (NFloat FNaN) (NFloat (FFin 0)) (NFloat (FFin 255))).
Proof.
  split; [reflexivity | ].
  apply (RangeValue_accepts_nan Sample.imports
           (NFloat (FFin 27)) (NFloat (FFin 0)) (NFloat (FFin 255)) eq_refl).
Defined.

Definition nan_file : RawConfig := [("detect-content", [("threshold", "nan")])].

(** A file that sets the threshold to [nan] loads without an error, and
    the registry answers with the NaN. *)
Lemma nan_threshold_loads :
  match ConfigRegistry.__init__ Sample.imports (Sample.disk [("nan.cfg", nan_file)])
          (Some "nan.cfg") true with
  | Return self =>
      ConfigRegistry.initialized self = true
      /\ ConfigRegistry.get_value Sample.imports self "detect-content" "threshold" VNone
         = Return (VFloat FNaN)
      /\ _init_log self
         = [(logging.INFO, "Loading config from file:" ++ PyStr.nl ++ "  nan.cfg")]
  | Raise _ => False
  end.
Proof. vm_compute. repeat split. Qed.

Example range_ex :
  map (fun s => RangeValue.from_config Sample.imports s (irange 3 0 9))
      ["0"; "9"; "10"; "-1"; "4.5"]
  = [Return (irange 0 0 9); Return (irange 9 0 9);
     Raise (OptionParseFailure "Value must be between 0 and 9.");
     Raise (OptionParseFailure "Value must be between 0 and 9.");
     Raise (OptionParseFailure "Value must be between 0 and 9.")].
Proof. vm_compute. reflexivity. Qed.

(** ** Kernel sizes *)

Definition kernel_message : string :=
  "Value must be an odd integer greater than 1, or set to -1 for auto kernel size.".

Lemma KernelSizeValue_init_cases (value : Z) :
  KernelSizeValue.__init__ value =
    if value =? -1 then Return (VKernelSize None)
    else if (value <? 0) || Z.even value then Raise ValueError
    else Return (VKernelSize (Some value)).
Proof.
  unfold KernelSizeValue.__init__. rewrite Zmod_even.
  destruct (value =? -1); [reflexivity | ].
  destruct (value <? 0); [reflexivity | ].
  destruct (Z.even value); reflexivity.
Qed.

(** C7.  [KernelSizeValue(-1)] holds the "auto" sentinel [None]; every other
    negative input and every even input raises; every positive odd input is
    stored unchanged.  [from_config] reads the text with [int] and reports
    each of these failures as an [OptionParseFailure]. *)
Theorem KernelSizeValue_construction :
  KernelSizeValue.__init__ (-1) = Return (VKernelSize None)
  /\ (forall value, value < 0 -> value <> -1 ->
        KernelSizeValue.__init__ value = Raise ValueError)
  /\ (forall value, Z.even value = true ->
        KernelSizeValue.__init__ value = Raise ValueError)
  /\ (forall value, 0 < value -> Z.odd value = true ->
        KernelSizeValue.__init__ value = Return (VKernelSize (Some value)))
  /\ map KernelSizeValue.__init__ [0; -2; 4; 3; 5]
     = [Raise ValueError; Raise ValueError; Raise ValueError;
        Return (VKernelSize (Some 3)); Return (VKernelSize (Some 5))]
  /\ (forall config_value default,
        KernelSizeValue.from_config config_value default =
          match PyNum.int config_value with
          | Some value =>
              match KernelSizeValue.__init__ value with
              | Return v => Return v
              | Raise _ => Raise (OptionParseFailure kernel_message)
              end
          | None => Raise (OptionParseFailure kernel_message)
          end).
Proof.
  split; [reflexivity | ].
  split.
  { intros value Hneg Hne. rewrite KernelSizeValue_init_cases.
    destruct (Z.eqb_spec value (-1)) as [E | _]; [contradiction | ].
    destruct (Z.ltb_spec value 0) as [_ | Hge]; [reflexivity | lia]. }
  split.
  { intros value Heven. rewrite KernelSizeValue_init_cases.
    destruct (Z.eqb_spec value (-1)) as [E | _].
    - subst value. discriminate Heven.
    - rewrite Heven, orb_true_r. reflexivity. }
  split.
  { intros value Hpos Hodd. rewrite KernelSizeValue_init_cases.
    destruct (Z.eqb_spec value (-1)) as [E | _]; [lia | ].
    destruct (Z.ltb_spec value 0) as [Hlt | _]; [lia | ].
    rewrite <- Z.negb_odd, Hodd. reflexivity. }
  split; [reflexivity | ].
  intros config_value default. unfold KernelSizeValue.from_config.
  destruct (PyNum.int config_value) as [value | ];
    cbv [or_ValueError bind]; [ | reflexivity].
  rewrite KernelSizeValue_init_cases.
  destruct (value =? -1); [reflexivity | ].
  destruct ((value <? 0) || Z.even value); reflexivity.
Qed.

Lemma KernelSizeValue_construction_witness :
  KernelSizeValue.__init__ (-3) = Raise ValueError
  /\ KernelSizeValue.__init__ 6 = Raise ValueError
  /\ KernelSizeValue.__init__ 7 = Return (VKernelSize (Some 7)).
Proof.
  destruct KernelSizeValue_construction as (_ & Hneg & Heven & Hodd & _).
  split; [apply Hneg; lia | ].
  split; [apply Heven; reflexivity | apply Hodd; [lia | reflexivity]].
Defined.

(** ** Loading without a user config file *)

(** C9.  With no path given, or an empty one, and no file at
    [CONFIG_FILE_PATH], the constructor returns an initialized registry whose
    [config_dict] is empty and whose log is the single debug entry. *)
Theorem init_without_user_config (imp : Imports) (world : World)
    (path : Datatypes.option string) (throw_exception : bool) :
  ConfigRegistry.given path = None ->
  os_path_exists world (CONFIG_FILE_PATH imp) = false ->
  exists self,
    ConfigRegistry.__init__ imp world path throw_exception = Return self
    /\ ConfigRegistry.initialized self = true
    /\ ConfigRegistry.config_dict self = []
    /\ _init_log self = [(logging.DEBUG, "User config file not found.")]
    /\ length (_init_log self) = 1%nat.
Proof.
  intros Hpath Hmissing.
  exists (mkRegistry [] [(logging.DEBUG, "User config file not found.")] true).
  unfold ConfigRegistry.__init__, ConfigRegistry._load_from_disk, ConfigRegistry.locate.
  rewrite Hpath, Hmissing. simpl.
  repeat split.
Qed.

Lemma init_without_user_config_witness :
  exists self,
    ConfigRegistry.__init__ Sample.imports Sample.empty_disk None true = Return self
    /\ ConfigRegistry.initialized self = true
    /\ ConfigRegistry.config_dict self = []
    /\ _init_log self = [(logging.DEBUG, "User config file not found.")]
    /\ length (_init_log self) = 1%nat.
Proof.
  apply (init_without_user_config Sample.imports Sample.empty_disk None true);
    reflexivity.
Defined.

(** ** Resolution of a value *)

Lemma has2_get2 {A : Type} (command option : string) (d : Dict (Dict A)) :
  has2 command option d = true <-> exists v, get2 command option d = Some v.
Proof.
  unfold has2, get2, dict.has.
  destruct (dict.get command d) as [sec | ].
  - destruct (dict.get option sec) as [v | ].
    + split; [intros _; exists v; reflexivity | reflexivity].
    + split; [discriminate | intros [v H]; discriminate].
  - split; [discriminate | intros [v H]; discriminate].
Qed.

Lemma has2_false_get2 {A : Type} (command option : string) (d : Dict (Dict A)) :
  has2 command option d = false <-> get2 command option d = None.
Proof.
  unfold has2, get2, dict.has.
  destruct (dict.get command d) as [sec | ]; [ | tauto].
  destruct (dict.get option sec) as [v | ]; split; congruence.
Qed.

(** What [get_value] makes of a stored object: the payload of a validator,
    any other object as it is. *)
Definition unwrap (v : Value) : Value :=
  if is_ValidatedValue v then dot_value v else v.

(** C8.  For an option of the schema, [get_value] returns an override that
    is not [None] whatever the file and the default are.  Without one, what
    it finds is the entry of the resolved map when the file set the option
    and the schema default otherwise, and it answers with what it found,
    except that of a validator it answers with the payload and not with the
    validator: of a timecode the text or number it holds, of a range its
    number, of score weights the four components, of a kernel size the
    size, [None] for the automatic one. *)
Theorem get_value_resolution (imp : Imports) (self : ConfigRegistry)
    (command option : string) :
  has2 command option (CONFIG_MAP imp) = true ->
  (forall override, override <> VNone ->
      ConfigRegistry.get_value imp self command option override = Return override)
  /\ exists found,
       (forall stored, get2 command option (_config self) = Some stored -> found = stored)
       /\ (get2 command option (_config self) = None ->
           get2 command option (CONFIG_MAP imp) = Some found)
       /\ (ConfigRegistry.is_default self command option = true <->
           get2 command option (_config self) = None)
       /\ ConfigRegistry.get_value imp self command option VNone
          = Return match found with
                   | VTimecode value => value
                   | VRange (NInt value) _ _ => VInt value
                   | VRange (NFloat value) _ _ => VFloat value
                   | VScoreWeights components => VComponents components
                   | VKernelSize (Some size) => VInt size
                   | VKernelSize None => VNone
                   | VNone => VNone
                   | VBool b => VBool b
                   | VInt z => VInt z
                   | VFloat f => VFloat f
                   | VStr text => VStr text
                   | VEnum cls name => VEnum cls name
                   | VComponents components => VComponents components
                   end.
Proof.
  intros Hschema. unfold ConfigRegistry.get_value. rewrite Hschema. simpl.
  split; [intros override Hover; destruct override; congruence | ].
  assert (Hdefault : ConfigRegistry.is_default self command option = true <->
                     get2 command option (_config self) = None).
  { unfold ConfigRegistry.is_default. rewrite negb_true_iff. apply has2_false_get2. }
  apply has2_get2 in Hschema. destruct Hschema as [default Hd].
  destruct (get2 command option (_config self)) as [stored | ].
  - exists stored. split; [intros stored' [= <-]; reflexivity | ].
    split; [discriminate | ]. split; [exact Hdefault | ].
    destruct stored as [ | | | | | | | | [ | ] | | [ | ]]; reflexivity.
  - exists default. split; [discriminate | ].
    split; [intros _; exact Hd | ]. split; [exact Hdefault | ].
    rewrite Hd.
    destruct default as [ | | | | | | | | [ | ] | | [ | ]]; reflexivity.
Qed.

Lemma get_value_resolution_witness :
  ConfigRegistry.get_value Sample.imports
    (mkRegistry [("detect-hash", [("size", irange 32 1 256)])] [] true)
    "detect-hash" "size" VNone = Return (VInt 32)
  /\ ConfigRegistry.get_value Sample.imports (mkRegistry [] [] true)
       "detect-hash" "size" (VInt 8) = Return (VInt 8).
Proof.
  split.
  - destruct (get_value_resolution Sample.imports
                (mkRegistry [("detect-hash", [("size", irange 32 1 256)])] [] true)
                "detect-hash" "size" eq_refl) as (_ & found & Hstored & _ & _ & Hanswer).
    rewrite Hanswer, (Hstored (irange 32 1 256) eq_refl). reflexivity.
  - destruct (get_value_resolution Sample.imports (mkRegistry [] [] true)
                "detect-hash" "size" eq_refl) as (Hoverride & _).
    apply Hoverride. discriminate.
Defined.

(** ** The structural validator *)

Definition unsupported_section (section : string) : string :=
  "Unsupported config section: [" ++ section ++ "]".

Definition unsupported_option (section option_name : string) : string :=
  "Unsupported config option in [" ++ section ++ "]: " ++ option_name.

(** The names among [items] that the schema of a section does not declare. *)
Definition unknown_options (schema : Dict Value) (items : Dict string) : list string :=
  filter (fun o => negb (dict.has o schema)) (dict.keys items).

(** What one section of the file contributes: one error for a section the
    schema does not have, whatever its options are; otherwise one error for
    each of its options the schema of the section does not declare. *)
Definition section_problems (imp : Imports) (config : RawConfig) (section : string)
  : list string :=
  match dict.get section (CONFIG_MAP imp) with
  | None => [unsupported_section section]
  | Some schema =>
      map (unsupported_option section)
        (unknown_options schema (ConfigParser.items config section))
  end.

Lemma validate_options_acc (section : string) (schema : Dict Value)
    (items : Dict string) (errors : list string) :
  validate_options section schema items errors
  = (errors ++ map (unsupported_option section) (unknown_options schema items))%list.
Proof.
  revert errors. induction items as [ | [option_name raw] rest IH]; intros errors.
  - simpl. rewrite app_nil_r. reflexivity.
  - simpl. rewrite IH. unfold unknown_options. simpl.
    destruct (dict.has option_name schema); simpl.
    + reflexivity.
    + unfold list_append. rewrite <- app_assoc. reflexivity.
Qed.

Lemma validate_sections_acc (imp : Imports) (config : RawConfig)
    (sections : list string) (errors : list string) :
  validate_sections imp config sections errors
  = (errors ++ flat_map (section_problems imp config) sections)%list.
Proof.
  revert errors. induction sections as [ | section rest IH]; intros errors.
  - simpl. rewrite app_nil_r. reflexivity.
  - cbn [validate_sections flat_map]. rewrite IH, app_assoc. f_equal.
    unfold section_problems.
    destruct (dict.get section (CONFIG_MAP imp)) as [schema | ];
      [apply validate_options_acc | reflexivity].
Qed.

(** The number of structural problems of a file. *)
Definition count_problems (imp : Imports) (config : RawConfig) : nat :=
  list_sum
    (map (fun section =>
            match dict.get section (CONFIG_MAP imp) with
            | None => 1%nat
            | Some schema =>
                length (unknown_options schema (ConfigParser.items config section))
            end)
         (ConfigParser.sections config)).

(** On the view of a file, the validator reports section after section,
    without stopping, the sections the schema does not have and the options
    of known sections that the schema does not declare. *)
Lemma _validate_structure_view (imp : Imports) (config : RawConfig) :
  _validate_structure imp config
  = flat_map (section_problems imp config) (ConfigParser.sections config).
Proof. unfold _validate_structure. rewrite validate_sections_acc. reflexivity. Qed.

Definition bogus_file : RawConfig :=
  [("bogus", [("threshold", "1"); ("nonsense", "2")]);
   ("global", [("verbosity", "debug"); ("colour", "red")])].

(** *** On the parser *)

Definition is_Return {A : Type} (r : Res A) : bool :=
  match r with Return _ => true | Raise _ => false end.

(** The options a section shows: those of [[DEFAULT]] and its own. *)
Definition shown_options (config : ParserData) (section : string) : list string :=
  dict.keys (RawParser.unify_values config section).

(** Every section of the file that the schema knows can be read: each value
    it shows interpolates. *)
Definition readable (imp : Imports) (config : ParserData) : bool :=
  forallb (fun section =>
             negb (dict.has section (CONFIG_MAP imp))
             || is_Return (RawParser.items config section))
          (RawParser.sections config).

(** What one listed section contributes. *)
Definition parser_problems (imp : Imports) (config : ParserData) (section : string)
  : list string :=
  match dict.get section (CONFIG_MAP imp) with
  | None => [unsupported_section section]
  | Some schema =>
      map (unsupported_option section)
        (filter (fun o => negb (dict.has o schema)) (shown_options config section))
  end.

Definition count_parser_problems (imp : Imports) (config : ParserData) : nat :=
  list_sum
    (map (fun section =>
            match dict.get section (CONFIG_MAP imp) with
            | None => 1%nat
            | Some schema =>
                length (filter (fun o => negb (dict.has o schema))
                          (shown_options config section))
            end)
         (RawParser.sections config)).

Lemma dict_keys_set {A : Type} (k k' : string) (v : A) (d : Dict A) :
  In k (dict.keys (dict.set k' v d)) <-> k = k' \/ In k (dict.keys d).
Proof.
  induction d as [ | [k0 v0] r IH]; simpl.
  - split; [intros [H | []]; left; symmetry; exact H | intros [H | []]; left; symmetry; exact H].
  - destruct (String.eqb_spec k' k0) as [Heq | Hne]; simpl.
    + subst k0. split; [intros H; right; exact H | intros [H | H]; [left; symmetry; exact H | exact H]].
    + rewrite IH. tauto.
Qed.

Lemma update_keys {A : Type} (k : string) (d other : Dict A) :
  In k (dict.keys (RawParser.update d other))
  <-> In k (dict.keys d) \/ In k (dict.keys other).
Proof.
  unfold RawParser.update. revert d.
  induction other as [ | [k0 v0] r IH]; intros d; simpl.
  - tauto.
  - rewrite IH, dict_keys_set. split.
    + intros [[H | H] | H]; [right; left; symmetry; exact H | left; exact H | right; right; exact H].
    + intros [H | [H | H]]; [left; right; exact H | left; left; symmetry; exact H | right; exact H].
Qed.

(** A section shows the options of [[DEFAULT]] next to its own. *)
Lemma shown_options_spec (config : ParserData) (section option_name : string) :
  In option_name (shown_options config section)
  <-> In option_name (dict.keys (_defaults config))
      \/ exists own, dict.get section (_sections config) = Some own
                     /\ In option_name (dict.keys own).
Proof.
  unfold shown_options, RawParser.unify_values. rewrite update_keys.
  destruct (dict.get section (_sections config)) as [own | ].
  - split; (intros [H | H]; [left; exact H | right]).
    + exists own. split; [reflexivity | exact H].
    + destruct H as (own' & Heq & H). injection Heq as <-. exact H.
  - split; (intros [H | H]; [left; exact H | ]).
    + destruct H.
    + destruct H as (own' & Heq & _). discriminate Heq.
Qed.

Lemma interpolate_all_keys (map entries texts : Dict string) :
  RawParser.interpolate_all map entries = Return texts ->
  dict.keys texts = dict.keys entries.
Proof.
  revert texts. induction entries as [ | [option_name value] rest IH]; intros texts; simpl.
  - intros [= <-]. reflexivity.
  - destruct (RawParser.before_get map value) as [text | e]; simpl; [ | discriminate].
    destruct (RawParser.interpolate_all map rest) as [texts' | e]; simpl; [ | discriminate].
    intros [= <-]. simpl. f_equal. apply IH. reflexivity.
Qed.

Lemma items_keys (config : ParserData) (section : string) (its : Dict string) :
  RawParser.items config section = Return its ->
  dict.keys its = shown_options config section.
Proof.
  unfold RawParser.items.
  destruct (RawParser.has_section config section); [ | discriminate].
  apply interpolate_all_keys.
Qed.

Lemma validate_sections_readable (imp : Imports) (config : ParserData)
    (sections : list string) (errors : list string) :
  forallb (fun section =>
             negb (dict.has section (CONFIG_MAP imp))
             || is_Return (RawParser.items config section)) sections = true ->
  OnParser.validate_sections imp config sections errors
  = Return (errors ++ flat_map (parser_problems imp config) sections)%list.
Proof.
  revert errors. induction sections as [ | section rest IH]; intros errors Hall.
  - simpl. rewrite app_nil_r. reflexivity.
  - cbn [forallb] in Hall. apply andb_true_iff in Hall. destruct Hall as [Hthis Hrest].
    cbn [OnParser.validate_sections flat_map]. unfold parser_problems at 1.
    unfold dict.has in Hthis.
    destruct (dict.get section (CONFIG_MAP imp)) as [schema | ].
    + simpl in Hthis.
      destruct (RawParser.items config section) as [its | e] eqn:Hitems;
        [ | discriminate].
      cbn [bind]. rewrite (IH _ Hrest), validate_options_acc, <- app_assoc.
      unfold unknown_options. rewrite (items_keys _ _ _ Hitems). reflexivity.
    + rewrite (IH _ Hrest). unfold list_append, unsupported_section.
      rewrite <- app_assoc. reflexivity.
Qed.

(** A known section with a value that does not interpolate ends the
    validator: the parser's exception leaves it, and no list is returned. *)
Lemma validate_sections_unreadable (imp : Imports) (config : ParserData)
    (sections : list string) (errors : list string) :
  forallb (fun section =>
             negb (dict.has section (CONFIG_MAP imp))
             || is_Return (RawParser.items config section)) sections = false ->
  exists section e,
    In section sections
    /\ dict.has section (CONFIG_MAP imp) = true
    /\ RawParser.items config section = Raise e
    /\ OnParser.validate_sections imp config sections errors = Raise e.
Proof.
  revert errors. induction sections as [ | section rest IH]; intros errors Hall.
  - discriminate Hall.
  - cbn [forallb] in Hall. cbn [OnParser.validate_sections].
    unfold dict.has in Hall |- *.
    destruct (dict.get section (CONFIG_MAP imp)) as [schema | ] eqn:Hschema.
    + destruct (RawParser.items config section) as [its | e] eqn:Hitems.
      * simpl in Hall.
        destruct (IH (validate_options section schema its errors) Hall)
          as (section' & e & Hin & Hknown & Hraise & Hresult).
        exists section', e. cbn [bind].
        split; [right; exact Hin | ]. split; [exact Hknown | ]. split; assumption.
      * exists section, e. split; [left; reflexivity | ].
        rewrite Hschema. split; [reflexivity | ]. split; [exact Hitems | reflexivity].
    + simpl in Hall.
      destruct (IH (list_append ("Unsupported config section: [" ++ section ++ "]") errors)
                  Hall)
        as (section' & e & Hin & Hknown & Hraise & Hresult).
      exists section', e.
      split; [right; exact Hin | ]. split; [exact Hknown | ]. split; assumption.
Qed.

Lemma _validate_structure_unreadable (imp : Imports) (config : ParserData) :
  readable imp config = false ->
  exists section e,
    In section (RawParser.sections config)
    /\ dict.has section (CONFIG_MAP imp) = true
    /\ RawParser.items config section = Raise e
    /\ OnParser._validate_structure imp config = Raise e.
Proof. apply validate_sections_unreadable. Qed.

(** The view of a file that can be read whole gives the validator the same
    list as the parser does. *)
Lemma read_sections_get (config : ParserData) (sections : list string)
    (raw : RawConfig) :
  RawParser.read_sections config sections = Return raw ->
  dict.keys raw = sections
  /\ forall section, In section sections ->
       exists its, RawParser.items config section = Return its
                   /\ dict.get section raw = Some its.
Proof.
  revert raw. induction sections as [ | section rest IH]; intros raw; simpl.
  - intros [= <-]. split; [reflexivity | intros section []].
  - destruct (RawParser.items config section) as [its | e] eqn:Hitems; simpl;
      [ | discriminate].
    destruct (RawParser.read_sections config rest) as [raw' | e]; simpl; [ | discriminate].
    intros [= <-]. destruct (IH raw' eq_refl) as [Hkeys Hget].
    split; [simpl; f_equal; exact Hkeys | ].
    intros s Hin. simpl.
    destruct (String.eqb_spec s section) as [-> | Hne].
    + exists its. split; [exact Hitems | reflexivity].
    + destruct Hin as [Heq | Hin]; [symmetry in Heq; contradiction | ].
      apply Hget. exact Hin.
Qed.

Lemma validate_sections_on_view (imp : Imports) (config : ParserData)
    (raw : RawConfig) (sections : list string) (errors : list string) :
  (forall section, In section sections ->
     exists its, RawParser.items config section = Return its
                 /\ dict.get section raw = Some its) ->
  OnParser.validate_sections imp config sections errors
  = Return (validate_sections imp raw sections errors).
Proof.
  revert errors. induction sections as [ | section rest IH]; intros errors Hget.
  - reflexivity.
  - cbn [OnParser.validate_sections validate_sections].
    assert (Hrest : forall s, In s rest ->
              exists its, RawParser.items config s = Return its
                          /\ dict.get s raw = Some its).
    { intros s Hin. apply Hget. right. exact Hin. }
    destruct (dict.get section (CONFIG_MAP imp)) as [schema | ].
    + destruct (Hget section (or_introl eq_refl)) as (its & Hitems & Hraw).
      rewrite Hitems. cbn [bind]. unfold ConfigParser.items. rewrite Hraw.
      apply IH. exact Hrest.
    + apply IH. exact Hrest.
Qed.

Lemma _validate_structure_on_view (imp : Imports) (config : ParserData)
    (raw : RawConfig) :
  RawParser.view config = Return raw ->
  OnParser._validate_structure imp config = Return (_validate_structure imp raw).
Proof.
  intros Hview. destruct (read_sections_get _ _ _ Hview) as [Hkeys Hget].
  unfold OnParser._validate_structure, _validate_structure, ConfigParser.sections.
  rewrite Hkeys. apply validate_sections_on_view. exact Hget.
Qed.

(** A value with a lone percent sign in a known section, and a [[DEFAULT]]
    section with an option no schema declares. *)
Definition percent_file : ParserData :=
  mkParserData [] [("global", [("output", "50%")]); ("bogus", [("threshold", "1")])].

Definition inherited_file : ParserData :=
  mkParserData [("colour", "red")] [("global", []); ("detect-hash", [("size", "16")])].

(** C4, as first stated, does not hold of the code.  For a file whose
    [[global]] section sets [output = 50%] the validator returns no list: the
    parser's [InterpolationSyntaxError] leaves it before the section after is
    looked at.  And an option of the [[DEFAULT]] section that no schema
    declares is reported once for every known section of the file, which
    shows it as its own, while [[DEFAULT]] itself is never reported. *)
Lemma _validate_structure_percent_and_DEFAULT :
  OnParser._validate_structure Sample.imports percent_file = Raise InterpolationSyntaxError
  /\ RawParser.sections percent_file = ["global"; "bogus"]
  /\ OnParser._validate_structure Sample.imports inherited_file
     = Return ["Unsupported config option in [global]: colour";
               "Unsupported config option in [detect-hash]: colour"]
  /\ RawParser.sections inherited_file = ["global"; "detect-hash"]
  /\ dict.get "global" (_sections inherited_file) = Some [].
Proof. vm_compute. repeat split; reflexivity. Qed.

(** C4, amended.  For a file in which the values of every known section
    can be read, the structural validator returns a list: section after
    listed section of the file and without stopping, one "unsupported
    section" error for each section the schema does not have (its options
    are not looked at, and need not be readable), and one "unsupported
    option" error for each option that a known section shows, its own or
    one of [[DEFAULT]], that the section's schema does not declare.  It is a
    function of the parser alone: it reads no registry and changes none. *)
Theorem _validate_structure_reports (imp : Imports) (config : ParserData) :
  readable imp config = true ->
  exists errors,
    OnParser._validate_structure imp config = Return errors
    /\ errors = flat_map (parser_problems imp config) (RawParser.sections config)
    /\ length errors = count_parser_problems imp config
    /\ (forall section,
          In section (RawParser.sections config) ->
          dict.get section (CONFIG_MAP imp) = None ->
          parser_problems imp config section = [unsupported_section section]
          /\ In (unsupported_section section) errors)
    /\ (forall section option_name,
          In section (RawParser.sections config) ->
          dict.has section (CONFIG_MAP imp) = true ->
          (In option_name (dict.keys (_defaults config))
           \/ exists own, dict.get section (_sections config) = Some own
                          /\ In option_name (dict.keys own)) ->
          has2 section option_name (CONFIG_MAP imp) = false ->
          In (unsupported_option section option_name) errors)
    /\ (forall error,
          In error errors ->
          exists section,
            In section (RawParser.sections config)
            /\ (dict.get section (CONFIG_MAP imp) = None
                /\ error = unsupported_section section
                \/ exists option_name,
                     dict.has section (CONFIG_MAP imp) = true
                     /\ In option_name (shown_options config section)
                     /\ has2 section option_name (CONFIG_MAP imp) = false
                     /\ error = unsupported_option section option_name)).
Proof.
  intros Hreadable.
  exists (flat_map (parser_problems imp config) (RawParser.sections config)).
  split.
  { unfold OnParser._validate_structure.
    rewrite (validate_sections_readable _ _ _ _ Hreadable). reflexivity. }
  split; [reflexivity | ].
  split.
  { unfold count_parser_problems.
    induction (RawParser.sections config) as [ | section rest IH]; [reflexivity | ].
    cbn [map list_sum flat_map fold_right]. rewrite length_app, IH.
    unfold parser_problems at 1.
    destruct (dict.get section (CONFIG_MAP imp)); [rewrite length_map | ]; reflexivity. }
  split.
  { intros section Hin Hunknown.
    assert (Hone : parser_problems imp config section = [unsupported_section section]).
    { unfold parser_problems. rewrite Hunknown. reflexivity. }
    split; [exact Hone | ].
    apply in_flat_map. exists section. split; [exact Hin | ].
    rewrite Hone. left. reflexivity. }
  split.
  { intros section option_name Hin Hknown Hitem Hundeclared.
    apply shown_options_spec in Hitem.
    apply in_flat_map. exists section. split; [exact Hin | ].
    unfold parser_problems. unfold has2 in Hundeclared. unfold dict.has in Hknown.
    destruct (dict.get section (CONFIG_MAP imp)) as [schema | ]; [ | discriminate].
    apply in_map. apply filter_In.
    split; [exact Hitem | ]. rewrite Hundeclared. reflexivity. }
  intros error Hin. apply in_flat_map in Hin. destruct Hin as (section & Hsec & Hin).
  exists section. split; [exact Hsec | ].
  unfold parser_problems in Hin. unfold has2, dict.has.
  destruct (dict.get section (CONFIG_MAP imp)) as [schema | ].
  - right. apply in_map_iff in Hin. destruct Hin as (option_name & <- & Hin).
    apply filter_In in Hin. destruct Hin as [Hshown Hundeclared].
    exists option_name. split; [reflexivity | ]. split; [exact Hshown | ].
    split; [ | reflexivity].
    unfold dict.has in Hundeclared.
    destruct (dict.get option_name schema); [discriminate Hundeclared | reflexivity].
  - left. destruct Hin as [<- | []]. split; reflexivity.
Qed.

(** An unknown section with a value that does not interpolate, a known one
    with an option of its own and one of [[DEFAULT]] that no schema has. *)
Definition bogus_parser : ParserData :=
  mkParserData [("shade", "dark")]
    [("bogus", [("threshold", "1"); ("nonsense", "50%")]);
     ("global", [("verbosity", "debug"); ("colour", "red")])].

Lemma _validate_structure_reports_witness :
  readable Sample.imports bogus_parser = true
  /\ OnParser._validate_structure Sample.imports bogus_parser
     = Return ["Unsupported config section: [bogus]";
               "Unsupported config option in [global]: shade";
               "Unsupported config option in [global]: colour"].
Proof.
  split; [reflexivity | ].
  destruct (_validate_structure_reports Sample.imports bogus_parser eq_refl)
    as (errors & Hreturn & Herrors & _).
  rewrite Hreturn, Herrors. reflexivity.
Defined.

(** ** The value parser as a function of the file *)

(** What the parser does with one option of the schema: nothing when the
    file does not set it, an entry of the map, or one error. *)
Inductive Outcome : Type :=
| Absent
| Stored (v : Value)
| Rejected (msg : string).

Definition apply_outcome (command option : string) (oc : Outcome) (st : ParseState)
  : ParseState :=
  match oc with
  | Absent => st
  | Stored v => store command option v st
  | Rejected msg => append_error msg st
  end.

(** The raw text with line breaks turned into spaces, stripped. *)
Definition normalized (config : RawConfig) (command option : string) : string :=
  PyStr.strip (PyStr.replace_char PyStr.newline " " (ConfigParser.get config command option)).

Definition classify (imp : Imports) (config : RawConfig) (command option : string)
    (default : Value) : Res Outcome :=
  if dict.has command config && ConfigParser.has_option config command option then
    let raw := ConfigParser.get config command option in
    match default with
    | VBool _ =>
        Return match dict.get (PyStr.lower raw) ConfigParser.BOOLEAN_STATES with
               | Some b => Stored (VBool b)
               | None => Rejected (not_a_valid config command option (Some "yes/no value"))
               end
    | VInt _ =>
        Return match PyNum.int raw with
               | Some z => Stored (VInt z)
               | None => Rejected (not_a_valid config command option (Some "integer"))
               end
    | VFloat _ =>
        Return match PyNum.float raw with
               | Some f => Stored (VFloat f)
               | None => Rejected (not_a_valid config command option (Some "number"))
               end
    | VEnum cls _ =>
        parsed <- enum_getitem imp cls (PyStr.upper (normalized config command option)) ;;
        Return (Stored parsed)
    | VTimecode _ | VRange _ _ _ | VScoreWeights _ | VKernelSize _ =>
        match from_config imp raw default with
        | Return v => Return (Stored v)
        | Raise (OptionParseFailure error) =>
            Return (Rejected (failed_validation command option raw error))
        | Raise e => Raise e
        end
    | VNone | VStr _ | VComponents _ =>
        let config_value := normalized config command option in
        match get2 command option (CHOICE_MAP imp) with
        | Some choices =>
            if negb (PyStr.mem (PyStr.lower config_value) choices)
            then Return (Rejected (must_be_one_of config command option choices))
            else Return (Stored (VStr config_value))
        | None => Return (Stored (VStr config_value))
        end
    end
  else Return Absent.

Lemma choices_of_get2 (imp : Imports) (command option : string) :
  has2 command option (CHOICE_MAP imp) = true ->
  exists choices,
    get2 command option (CHOICE_MAP imp) = Some choices
    /\ choices_of imp command option = Return choices.
Proof.
  unfold has2, get2, choices_of, dict.has.
  destruct (dict.get command (CHOICE_MAP imp)) as [sec | ]; [ | discriminate].
  destruct (dict.get option sec) as [choices | ]; [ | discriminate].
  intros _. exists choices. split; reflexivity.
Qed.

(** One iteration of the loop decides an outcome from the file and the
    schema alone, and applies it to the two locals. *)
Lemma parse_option_classify (imp : Imports) (config : RawConfig)
    (command option : string) (default : Value) (st : ParseState) :
  parse_option imp config command option default st
  = (oc <- classify imp config command option default ;;
     Return (apply_outcome command option oc st)).
Proof.
  unfold parse_option, classify.
  destruct (dict.has command config && ConfigParser.has_option config command option);
    [ | reflexivity].
  destruct default; cbn [coerce value_type_of is_ValidatedValue try_except bind].
  - (* None *)
    fold (normalized config command option).
    destruct (has2 command option (CHOICE_MAP imp)) eqn:Hc.
    + destruct (choices_of_get2 imp command option Hc) as (choices & -> & ->).
      cbn [bind]. destruct (negb (PyStr.mem _ choices)); reflexivity.
    + apply has2_false_get2 in Hc. rewrite Hc. reflexivity.
  - (* bool *)
    unfold ConfigParser.getboolean.
    destruct (dict.get _ ConfigParser.BOOLEAN_STATES); reflexivity.
  - (* int *)
    unfold ConfigParser.getint.
    destruct (PyNum.int _); reflexivity.
  - (* float *)
    unfold ConfigParser.getfloat.
    destruct (PyNum.float _); reflexivity.
  - (* str *)
    fold (normalized config command option).
    destruct (has2 command option (CHOICE_MAP imp)) eqn:Hc.
    + destruct (choices_of_get2 imp command option Hc) as (choices & -> & ->).
      cbn [bind]. destruct (negb (PyStr.mem _ choices)); reflexivity.
    + apply has2_false_get2 in Hc. rewrite Hc. reflexivity.
  - (* Enum *)
    fold (normalized config command option).
    unfold enum_getitem.
    destruct (PyStr.mem _ (member_names imp cls)); reflexivity.
  - (* Components *)
    fold (normalized config command option).
    destruct (has2 command option (CHOICE_MAP imp)) eqn:Hc.
    + destruct (choices_of_get2 imp command option Hc) as (choices & -> & ->).
      cbn [bind]. destruct (negb (PyStr.mem _ choices)); reflexivity.
    + apply has2_false_get2 in Hc. rewrite Hc. reflexivity.
  - destruct (from_config imp _ _) as [v | []]; reflexivity.
  - destruct (from_config imp _ _) as [v | []]; reflexivity.
  - destruct (from_config imp _ _) as [v | []]; reflexivity.
  - destruct (from_config imp _ _) as [v | []]; reflexivity.
Qed.

(** *** Updates of a dictionary *)

Lemma dict_get_set_same {A : Type} (k : string) (v : A) (d : Dict A) :
  dict.get k (dict.set k v d) = Some v.
Proof.
  induction d as [ | [k' v'] r IH]; simpl.
  - rewrite String.eqb_refl. reflexivity.
  - destruct (String.eqb k k') eqn:E; simpl; rewrite E; [reflexivity | exact IH].
Qed.

Lemma dict_get_set_other {A : Type} (k k' : string) (v : A) (d : Dict A) :
  k <> k' -> dict.get k' (dict.set k v d) = dict.get k' d.
Proof.
  intros Hne. induction d as [ | [k0 v0] r IH]; simpl.
  - destruct (String.eqb_spec k' k); [congruence | reflexivity].
  - destruct (String.eqb_spec k k0) as [-> | _]; simpl.
    + destruct (String.eqb_spec k' k0); [congruence | reflexivity].
    + rewrite IH. reflexivity.
Qed.

Lemma dict_has_In {A : Type} (k : string) (d : Dict A) :
  dict.has k d = true <-> In k (dict.keys d).
Proof.
  unfold dict.has. induction d as [ | [k' v'] r IH]; simpl.
  - split; [discriminate | tauto].
  - destruct (String.eqb_spec k k') as [-> | Hne].
    + split; [left; reflexivity | reflexivity].
    + rewrite IH. split; [tauto | intros [H | H]; [congruence | exact H]].
Qed.

Lemma dict_set_absent {A : Type} (k : string) (v : A) (d : Dict A) :
  dict.has k d = false -> dict.set k v d = (d ++ [(k, v)])%list.
Proof.
  unfold dict.has. induction d as [ | [k' v'] r IH]; simpl; [reflexivity | ].
  destruct (String.eqb k k'); [discriminate | ].
  intros H. rewrite IH by exact H. reflexivity.
Qed.

Lemma dict_set_set {A : Type} (k : string) (v v' : A) (d : Dict A) :
  dict.set k v (dict.set k v' d) = dict.set k v d.
Proof.
  induction d as [ | [k0 v0] r IH]; simpl.
  - rewrite String.eqb_refl. reflexivity.
  - destruct (String.eqb k k0) eqn:E; simpl; rewrite E; [reflexivity | ].
    rewrite IH. reflexivity.
Qed.

Lemma dict_set_get {A : Type} (k : string) (v : A) (d : Dict A) :
  dict.get k d = Some v -> dict.set k v d = d.
Proof.
  induction d as [ | [k' v'] r IH]; simpl; [discriminate | ].
  destruct (String.eqb k k').
  - intros [= ->]. reflexivity.
  - intros H. rewrite IH by exact H. reflexivity.
Qed.

(** Setting the key that was appended last to a dictionary without it. *)
Lemma dict_set_last {A : Type} (k : string) (v v' : A) (d : Dict A) :
  dict.has k d = false ->
  dict.set k v (d ++ [(k, v')])%list = (d ++ [(k, v)])%list.
Proof.
  intros H. rewrite <- (dict_set_absent k v' d H), dict_set_set.
  apply dict_set_absent, H.
Qed.

Lemma dict_has_app {A : Type} (k : string) (d e : Dict A) :
  dict.has k (d ++ e)%list = dict.has k d || dict.has k e.
Proof.
  unfold dict.has. induction d as [ | [k' v'] r IH]; simpl; [reflexivity | ].
  destruct (String.eqb k k'); [reflexivity | exact IH].
Qed.

(** *** The loops *)

(** The entries and the errors that the options of one section give, in
    schema order; an exception raised for an option ends the pass. *)
Fixpoint classify_options (imp : Imports) (config : RawConfig) (command : string)
    (schema : Dict Value) : Res (Dict Value * list string) :=
  match schema with
  | [] => Return ([], [])
  | (option, default) :: rest =>
      oc <- classify imp config command option default ;;
      r <- classify_options imp config command rest ;;
      Return match oc with
             | Absent => r
             | Stored v => ((option, v) :: fst r, snd r)
             | Rejected msg => (fst r, msg :: snd r)
             end
  end.

Fixpoint classify_commands (imp : Imports) (config : RawConfig) (schema : ConfigDict)
  : Res (ConfigDict * list string) :=
  match schema with
  | [] => Return ([], [])
  | (command, options) :: rest =>
      r1 <- classify_options imp config command options ;;
      r2 <- classify_commands imp config rest ;;
      Return ((command, fst r1) :: fst r2, (snd r1 ++ snd r2)%list)
  end.

(** A section's options have distinct names, and none is in [sec] yet. *)
Lemma parse_options_spec (imp : Imports) (config : RawConfig) (command : string)
    (schema : Dict Value) :
  NoDup (dict.keys schema) ->
  forall (out_map : ConfigDict) (errors : list string) (sec : Dict Value),
    dict.get command out_map = Some sec ->
    (forall option, In option (dict.keys schema) -> dict.has option sec = false) ->
    parse_options imp config command schema (out_map, errors)
    = (r <- classify_options imp config command schema ;;
       Return (@dict.set (Dict Value) command (sec ++ fst r)%list out_map,
               (errors ++ snd r)%list)).
Proof.
  induction schema as [ | [option default] rest IH];
    intros Hnodup out_map errors sec Hsec Hfresh.
  - cbn [parse_options classify_options bind fst snd]. rewrite !app_nil_r.
    f_equal. f_equal. symmetry. apply dict_set_get. exact Hsec.
  - cbn [parse_options classify_options]. rewrite parse_option_classify.
    inversion Hnodup as [ | ? ? Hnotin Hnodup']; subst.
    destruct (classify imp config command option default) as [oc | e];
      cbn [bind]; [ | reflexivity].
    assert (Hrest : forall o, In o (dict.keys rest) -> dict.has o sec = false).
    { intros o Ho. apply Hfresh. right. exact Ho. }
    destruct oc as [ | v | msg]; cbn [apply_outcome].
    + rewrite (IH Hnodup' out_map errors sec Hsec Hrest).
      destruct (classify_options imp config command rest); reflexivity.
    + unfold store, set2. cbn [fst snd]. rewrite Hsec.
      rewrite (dict_set_absent option v sec) by (apply Hfresh; left; reflexivity).
      rewrite (IH Hnodup' _ errors (sec ++ [(option, v)])%list).
      * destruct (classify_options imp config command rest) as [r | e];
          cbn [bind fst snd]; [ | reflexivity].
        rewrite dict_set_set, <- app_assoc. reflexivity.
      * apply dict_get_set_same.
      * intros o Ho. rewrite dict_has_app, (Hrest o Ho). simpl.
        unfold dict.has. simpl.
        destruct (String.eqb_spec o option) as [-> | _]; [contradiction | reflexivity].
    + unfold append_error, list_append. cbn [fst snd].
      rewrite (IH Hnodup' out_map _ sec Hsec Hrest).
      destruct (classify_options imp config command rest) as [r | e];
        cbn [bind fst snd]; [ | reflexivity].
      rewrite <- app_assoc. reflexivity.
Qed.

Lemma parse_commands_spec (imp : Imports) (config : RawConfig) (schema : ConfigDict) :
  NoDup (dict.keys schema) ->
  Forall (fun sec => NoDup (dict.keys (snd sec))) schema ->
  forall (out_map : ConfigDict) (errors : list string),
    (forall command, In command (dict.keys schema) -> dict.has command out_map = false) ->
    parse_commands imp config schema (out_map, errors)
    = (r <- classify_commands imp config schema ;;
       Return ((out_map ++ fst r)%list, (errors ++ snd r)%list)).
Proof.
  induction schema as [ | [command options] rest IH];
    intros Hnodup Hsecs out_map errors Hfresh.
  - cbn [parse_commands classify_commands bind fst snd]. rewrite !app_nil_r. reflexivity.
  - cbn [parse_commands classify_commands fst snd].
    inversion Hnodup as [ | ? ? Hnotin Hnodup']; subst.
    inversion Hsecs as [ | ? ? Hopts Hsecs']; subst. simpl in Hopts.
    assert (Habsent : dict.has command out_map = false)
      by (apply Hfresh; left; reflexivity).
    rewrite (dict_set_absent command [] out_map Habsent).
    rewrite (parse_options_spec imp config command options Hopts _ errors []).
    + destruct (classify_options imp config command options) as [r1 | e];
        cbn [bind fst snd app]; [ | reflexivity].
      match goal with
      | |- parse_commands _ _ _ (?m, _) = _ =>
          replace m with (out_map ++ [(command, fst r1)])%list
            by (symmetry; apply dict_set_last; exact Habsent)
      end.
      rewrite (IH Hnodup' Hsecs').
      * destruct (classify_commands imp config rest) as [r2 | e];
          cbn [bind fst snd]; [ | reflexivity].
        rewrite <- !app_assoc. reflexivity.
      * intros c Hc. rewrite dict_has_app, (Hfresh c (or_intror Hc)). simpl.
        unfold dict.has. simpl.
        destruct (String.eqb_spec c command) as [-> | _]; [contradiction | reflexivity].
    + rewrite <- (dict_set_absent command [] out_map Habsent). apply dict_get_set_same.
    + reflexivity.
Qed.

(** *** The schema has no duplicate key *)

Fixpoint nodupb (l : list string) : bool :=
  match l with
  | [] => true
  | x :: r => negb (PyStr.mem x r) && nodupb r
  end.

Lemma nodupb_NoDup (l : list string) : nodupb l = true -> NoDup l.
Proof.
  induction l as [ | x r IH]; simpl; intros H; constructor.
  - apply andb_true_iff in H. destruct H as [H _].
    apply negb_true_iff in H. intros Hin.
    assert (PyStr.mem x r = true) as Hmem; [ | congruence].
    unfold PyStr.mem. apply existsb_exists. exists x.
    split; [exact Hin | apply String.eqb_refl].
  - apply IH. apply andb_true_iff in H. apply H.
Qed.

Lemma CONFIG_MAP_sections_NoDup (imp : Imports) : NoDup (dict.keys (CONFIG_MAP imp)).
Proof. apply nodupb_NoDup. vm_compute. reflexivity. Qed.

Lemma CONFIG_MAP_options_NoDup (imp : Imports) :
  Forall (fun sec => NoDup (dict.keys (snd sec))) (CONFIG_MAP imp).
Proof.
  apply Forall_forall. intros sec Hin. apply nodupb_NoDup.
  assert (H : forallb (fun sec => nodupb (dict.keys (snd sec))) (CONFIG_MAP imp) = true)
    by (vm_compute; reflexivity).
  rewrite forallb_forall in H. apply (H sec Hin).
Qed.

(** The parser computes, for each section of the schema in order, the
    entries and the errors of its options. *)
Lemma _parse_config_spec (imp : Imports) (config : RawConfig) :
  _parse_config imp config = classify_commands imp config (CONFIG_MAP imp).
Proof.
  unfold _parse_config. etransitivity.
  - apply (parse_commands_spec imp config (CONFIG_MAP imp)
             (CONFIG_MAP_sections_NoDup imp) (CONFIG_MAP_options_NoDup imp) [] []).
    reflexivity.
  - destruct (classify_commands imp config (CONFIG_MAP imp)) as [[out_map errors] | e];
      reflexivity.
Qed.

(** *** What the outcomes say *)

(** The condition of the loop body: the file sets the option. *)
Definition file_sets (config : RawConfig) (command option : string) : bool :=
  dict.has command config && ConfigParser.has_option config command option.

Lemma classify_absent (imp : Imports) (config : RawConfig) (command option : string)
    (default : Value) :
  file_sets config command option = false ->
  classify imp config command option default = Return Absent.
Proof. unfold classify, file_sets. intros ->. reflexivity. Qed.

Lemma classify_present (imp : Imports) (config : RawConfig) (command option : string)
    (default : Value) :
  file_sets config command option = true ->
  classify imp config command option default <> Return Absent.
Proof.
  unfold classify, file_sets. intros ->.
  destruct default; unfold bind, enum_getitem;
    repeat match goal with
           | |- context [match ?x with _ => _ end] => destruct x
           | |- context [if ?x then _ else _] => destruct x
           end; discriminate.
Qed.

(** The options of a section that the file sets. *)
Definition options_set (config : RawConfig) (command : string) (schema : Dict Value)
  : list string :=
  filter (file_sets config command) (dict.keys schema).

(** Each option that the file sets gives one entry or one error. *)
Lemma classify_options_count (imp : Imports) (config : RawConfig) (command : string)
    (schema : Dict Value) (r : Dict Value * list string) :
  classify_options imp config command schema = Return r ->
  (length (fst r) + length (snd r) = length (options_set config command schema))%nat.
Proof.
  revert r. induction schema as [ | [option default] rest IH]; intros r.
  - intros [= <-]. reflexivity.
  - cbn [classify_options]. unfold options_set. cbn [dict.keys map fst filter].
    fold (dict.keys rest). fold (options_set config command rest).
    destruct (file_sets config command option) eqn:Hset.
    + pose proof (classify_present imp config command option default Hset) as Hne.
      destruct (classify imp config command option default) as [[ | v | msg] | e];
        cbn [bind]; try discriminate; try congruence;
        destruct (classify_options imp config command rest) as [r' | e'];
        cbn [bind]; try discriminate;
        intros [= <-]; specialize (IH r' eq_refl); cbn [fst snd length]; lia.
    + rewrite (classify_absent imp config command option default Hset). cbn [bind].
      destruct (classify_options imp config command rest) as [r' | e'];
        cbn [bind]; [ | discriminate].
      intros [= <-]. apply IH. reflexivity.
Qed.

Lemma classify_options_none (imp : Imports) (config : RawConfig) (command : string)
    (schema : Dict Value) :
  dict.has command config = false ->
  classify_options imp config command schema = Return ([], []).
Proof.
  intros Habsent. induction schema as [ | [option default] rest IH]; [reflexivity | ].
  cbn [classify_options]. rewrite classify_absent, IH; [reflexivity | ].
  unfold file_sets. rewrite Habsent. reflexivity.
Qed.

(** An entry of a section comes from an option that the file sets. *)
Lemma classify_options_entry (imp : Imports) (config : RawConfig) (command : string)
    (schema : Dict Value) (r : Dict Value * list string) (option : string) (v : Value) :
  classify_options imp config command schema = Return r ->
  In (option, v) (fst r) ->
  exists default,
    In (option, default) schema
    /\ classify imp config command option default = Return (Stored v)
    /\ file_sets config command option = true.
Proof.
  revert r. induction schema as [ | [o default] rest IH]; intros r.
  - intros [= <-] [].
  - cbn [classify_options].
    destruct (classify imp config command o default) as [oc | e] eqn:Hoc;
      cbn [bind]; [ | discriminate].
    destruct (classify_options imp config command rest) as [r' | e'];
      cbn [bind]; [ | discriminate].
    assert (Hrest : In (option, v) (fst r') ->
                    exists default0, In (option, default0) ((o, default) :: rest)
                      /\ classify imp config command option default0 = Return (Stored v)
                      /\ file_sets config command option = true).
    { intros Hin. destruct (IH r' eq_refl Hin) as (d & Hd & Hc & Hs).
      exists d. split; [right; exact Hd | split; assumption]. }
    destruct oc as [ | v' | msg]; intros [= <-]; cbn [fst]; try exact Hrest.
    intros [[= <- <-] | Hin]; [ | exact (Hrest Hin)].
    exists default. split; [left; reflexivity | split; [exact Hoc | ]].
    destruct (file_sets config command o) eqn:Hset; [reflexivity | ].
    rewrite (classify_absent imp config command o default Hset) in Hoc. discriminate.
Qed.

(** The total number of entries of a map. *)
Definition entries {A : Type} (d : Dict (Dict A)) : nat :=
  list_sum (map (fun sec => length (snd sec)) d).

(** The number of schema options that the file sets. *)
Definition count_set (config : RawConfig) (schema : ConfigDict) : nat :=
  list_sum (map (fun sec => length (options_set config (fst sec) (snd sec))) schema).

Lemma classify_commands_facts (imp : Imports) (config : RawConfig) (schema : ConfigDict)
    (r : ConfigDict * list string) :
  classify_commands imp config schema = Return r ->
  dict.keys (fst r) = dict.keys schema
  /\ (entries (fst r) + length (snd r) = count_set config schema)%nat
  /\ (forall command, dict.has command schema = true ->
        dict.has command config = false -> dict.get command (fst r) = Some [])
  /\ (forall command option v,
        get2 command option (fst r) = Some v ->
        has2 command option schema = true /\ file_sets config command option = true).
Proof.
  revert r. induction schema as [ | [command options] rest IH]; intros r.
  - intros [= <-]. repeat split; try reflexivity; try discriminate.
  - cbn [classify_commands].
    destruct (classify_options imp config command options) as [r1 | e] eqn:H1;
      cbn [bind]; [ | discriminate].
    destruct (classify_commands imp config rest) as [r2 | e];
      cbn [bind]; [ | discriminate].
    intros [= <-]. destruct (IH r2 eq_refl) as (Hkeys & Hcount & Hempty & Hsub).
    cbn [fst snd]. split; [ | split; [ | split]].
    + simpl. rewrite <- Hkeys. reflexivity.
    + unfold entries, count_set in *. cbn [map list_sum fold_right fst snd].
      rewrite length_app.
      pose proof (classify_options_count imp config command options r1 H1).
      unfold list_sum in Hcount. lia.
    + intros c Hc Habsent. unfold dict.has in Hc. simpl in Hc. simpl.
      destruct (String.eqb_spec c command) as [Heq | Hne].
      * subst c.
        rewrite (classify_options_none imp config command options Habsent) in H1.
        injection H1 as <-. reflexivity.
      * apply Hempty; assumption.
    + intros c o v. unfold get2, has2. simpl.
      destruct (String.eqb_spec c command) as [Heq | Hne].
      * subst c. intros Hget. apply dict_get_In in Hget.
        destruct (classify_options_entry imp config command options r1 o v H1 Hget)
          as (d & Hd & _ & Hset).
        split; [ | exact Hset].
        apply dict_has_In. apply in_map_iff. exists (o, d). split; [reflexivity | exact Hd].
      * apply Hsub.
Qed.

(** ** The load *)

Definition error_entries (errors : list string) : list LogEntry :=
  map (pair logging.ERROR) errors.

Lemma log_errors_spec (errors : list string) (self : ConfigRegistry) :
  ConfigRegistry.log_errors errors self
  = mkRegistry (_config self) (_init_log self ++ error_entries errors) (_initialized self).
Proof.
  revert self. induction errors as [ | e rest IH]; intros [c l i].
  - simpl. rewrite app_nil_r. reflexivity.
  - cbn [ConfigRegistry.log_errors]. rewrite IH. unfold ConfigRegistry._log, list_append. simpl.
    rewrite <- app_assoc. reflexivity.
Qed.

(** A registry that is being constructed and has a file to read: nothing is
    stored yet and the log holds the "Loading ..." entry. *)
Lemma locate_file (imp : Imports) (world : World) (path : Datatypes.option string)
    (self : ConfigRegistry) (p : string) :
  ConfigRegistry.locate imp world path (mkRegistry [] [] false) = (self, Return (Some p)) ->
  _config self = [] /\ _initialized self = false
  /\ exists msg, _init_log self = [(logging.INFO, msg)].
Proof.
  unfold ConfigRegistry.locate.
  destruct (ConfigRegistry.given path) as [q | ].
  - destruct (os_path_exists world q); simpl; [ | discriminate].
    intros [= <- _]. repeat split. eexists. reflexivity.
  - destruct (os_path_exists world (CONFIG_FILE_PATH imp)); simpl; [ | discriminate].
    intros [= <- _]. repeat split. eexists. reflexivity.
Qed.

(** The three ways [validate] ends once the parser has returned. *)
Lemma validate_structural (imp : Imports) (config : RawConfig) (self : ConfigRegistry) :
  _validate_structure imp config <> [] ->
  ConfigRegistry.validate imp config self
  = (ConfigRegistry.log_errors (_validate_structure imp config) self,
     Raise (ConfigLoadFailure
              (_init_log (ConfigRegistry.log_errors (_validate_structure imp config) self)) None)).
Proof.
  unfold ConfigRegistry.validate. destruct (_validate_structure imp config) as [ | e rest];
    [congruence | reflexivity].
Qed.

Lemma validate_parsed (imp : Imports) (config : RawConfig) (self : ConfigRegistry)
    (out_map : ConfigDict) (errors : list string) :
  _validate_structure imp config = [] ->
  _parse_config imp config = Return (out_map, errors) ->
  ConfigRegistry.validate imp config self
  = match errors with
    | [] => (ConfigRegistry.set_config out_map self, Return tt)
    | _ :: _ =>
        (ConfigRegistry.log_errors errors (ConfigRegistry.set_config out_map self),
         Raise (ConfigLoadFailure
                  (_init_log (ConfigRegistry.log_errors errors
                                (ConfigRegistry.set_config out_map self))) None))
    end.
Proof.
  unfold ConfigRegistry.validate. intros -> ->. destruct errors; reflexivity.
Qed.

Lemma validate_escapes (imp : Imports) (config : RawConfig) (self : ConfigRegistry)
    (e : Exn) :
  _validate_structure imp config = [] ->
  _parse_config imp config = Raise e ->
  ConfigRegistry.validate imp config self = (self, Raise e).
Proof. unfold ConfigRegistry.validate. intros -> ->. reflexivity. Qed.

Lemma _load_from_disk_file (imp : Imports) (world : World)
    (path : Datatypes.option string) (self : ConfigRegistry) (p : string)
    (config : RawConfig) :
  ConfigRegistry.locate imp world path (mkRegistry [] [] false) = (self, Return (Some p)) ->
  read_config world p = Parsed config ->
  ConfigRegistry._load_from_disk imp world path (mkRegistry [] [] false)
  = ConfigRegistry.validate imp config self.
Proof. unfold ConfigRegistry._load_from_disk. intros -> ->. reflexivity. Qed.

Lemma _validate_structure_length (imp : Imports) (config : RawConfig) :
  length (_validate_structure imp config) = count_problems imp config.
Proof.
  unfold _validate_structure, count_problems. rewrite validate_sections_acc.
  cbn [app]. induction (ConfigParser.sections config) as [ | section rest IH];
    [reflexivity | ].
  cbn [map list_sum fold_right flat_map]. rewrite length_app, IH.
  unfold section_problems at 1.
  destruct (dict.get section (CONFIG_MAP imp)); [rewrite length_map | ]; reflexivity.
Qed.

(** C5.  When the structural validator reports an error for the file that
    is read, the value parser does not run: the load raises
    [ConfigLoadFailure] with the log of the "Loading ..." entry followed by
    one error entry for each structural problem and nothing else, whatever
    the parser would have answered, and no value is stored.  With
    [throw_exception] false the registry is left uninitialized. *)
Theorem structural_errors_skip_parser (imp : Imports) (world : World)
    (path : Datatypes.option string) (self : ConfigRegistry) (p : string)
    (config : RawConfig) :
  ConfigRegistry.locate imp world path (mkRegistry [] [] false) = (self, Return (Some p)) ->
  read_config world p = Parsed config ->
  _validate_structure imp config <> [] ->
  let log := (_init_log self ++ error_entries (_validate_structure imp config))%list in
  ConfigRegistry._load_from_disk imp world path (mkRegistry [] [] false)
  = (mkRegistry [] log false, Raise (ConfigLoadFailure log None))
  /\ ConfigRegistry.__init__ imp world path true = Raise (ConfigLoadFailure log None)
  /\ ConfigRegistry.__init__ imp world path false = Return (mkRegistry [] log false)
  /\ length (error_entries (_validate_structure imp config)) = count_problems imp config
  /\ exists msg, _init_log self = [(logging.INFO, msg)].
Proof.
  intros Hlocate Hread Herrors log.
  destruct (locate_file imp world path self p Hlocate) as (Hconfig & Hinit & Hlog).
  assert (Hload : ConfigRegistry._load_from_disk imp world path (mkRegistry [] [] false)
                  = (mkRegistry [] log false, Raise (ConfigLoadFailure log None))).
  { rewrite (_load_from_disk_file imp world path self p config Hlocate Hread).
    rewrite (validate_structural imp config self Herrors), log_errors_spec.
    rewrite Hconfig, Hinit. reflexivity. }
  split; [exact Hload | ].
  unfold ConfigRegistry.__init__. rewrite Hload.
  cbn [ConfigRegistry.set_init_log ConfigRegistry.set_initialized _config _init_log].
  split; [reflexivity | ]. split; [reflexivity | ].
  split; [ | exact Hlog].
  unfold error_entries. rewrite length_map. apply _validate_structure_length.
Qed.

Definition bogus_disk : World := Sample.disk [("bogus.cfg", bogus_file)].

Lemma structural_errors_skip_parser_witness :
  ConfigRegistry.__init__ Sample.imports bogus_disk (Some "bogus.cfg") false
  = Return (mkRegistry []
              [(logging.INFO, "Loading config from file:" ++ PyStr.nl ++ "  bogus.cfg");
               (logging.ERROR, "Unsupported config section: [bogus]");
               (logging.ERROR, "Unsupported config option in [global]: colour")]
              false).
Proof.
  apply (structural_errors_skip_parser Sample.imports bogus_disk (Some "bogus.cfg")
           (mkRegistry []
              [(logging.INFO, "Loading config from file:" ++ PyStr.nl ++ "  bogus.cfg")]
              false)
           "bogus.cfg" bogus_file);
    [reflexivity | reflexivity | discriminate].
Defined.

(** A file on which the parser, had it run, would have ended with an
    exception: the load reports the structural error and nothing else. *)
Definition bogus_and_bad_enum_file : RawConfig :=
  [("bogus", [("threshold", "1")]); ("list-scenes", [("cut-format", "bogus")])].

Example structural_error_hides_parser (imp : Imports) :
  _parse_config imp bogus_and_bad_enum_file = Raise (KeyError "BOGUS")
  /\ ConfigRegistry.__init__ imp (Sample.disk [("b.cfg", bogus_and_bad_enum_file)])
       (Some "b.cfg") false
     = Return (mkRegistry []
                 [(logging.INFO, "Loading config from file:" ++ PyStr.nl ++ "  b.cfg");
                  (logging.ERROR, "Unsupported config section: [bogus]")]
                 false).
Proof. split; reflexivity. Qed.

(** A load that ends with an initialized registry went through both passes
    without an error, and the registry holds the parser's map. *)
Lemma init_success_inv (imp : Imports) (world : World) (path : Datatypes.option string)
    (throw_exception : bool) (self1 : ConfigRegistry) (p : string) (config : RawConfig)
    (self : ConfigRegistry) :
  ConfigRegistry.locate imp world path (mkRegistry [] [] false) = (self1, Return (Some p)) ->
  read_config world p = Parsed config ->
  ConfigRegistry.__init__ imp world path throw_exception = Return self ->
  ConfigRegistry.initialized self = true ->
  _validate_structure imp config = []
  /\ _parse_config imp config = Return (ConfigRegistry.config_dict self, []).
Proof.
  intros Hlocate Hread Hinit Hflag. unfold ConfigRegistry.__init__ in Hinit.
  rewrite (_load_from_disk_file imp world path self1 p config Hlocate Hread) in Hinit.
  destruct (_validate_structure imp config) as [ | e rest] eqn:Hstruct.
  - split; [reflexivity | ].
    destruct (_parse_config imp config) as [[out_map errors] | e] eqn:Hparse.
    + rewrite (validate_parsed imp config self1 out_map errors Hstruct Hparse) in Hinit.
      destruct errors as [ | e rest].
      * injection Hinit as <-. reflexivity.
      * destruct throw_exception; [discriminate | ].
        injection Hinit as <-. discriminate Hflag.
    + rewrite (validate_escapes imp config self1 e Hstruct Hparse) in Hinit.
      destruct e; try discriminate.
      destruct throw_exception; [discriminate | ].
      destruct reason; injection Hinit as <-; discriminate Hflag.
  - rewrite validate_structural in Hinit by (rewrite Hstruct; discriminate).
    destruct throw_exception; [discriminate | ].
    injection Hinit as <-. discriminate Hflag.
Qed.

(** C10.  After a successful load of a file, [config_dict] has one key for
    every section of the schema, in schema order; a section that the file
    does not have is mapped to the empty dictionary; and an option has an
    entry only if the schema declares it and the file sets it. *)
Theorem config_dict_has_every_section (imp : Imports) (world : World)
    (path : Datatypes.option string) (throw_exception : bool)
    (self1 : ConfigRegistry) (p : string) (config : RawConfig) (self : ConfigRegistry) :
  ConfigRegistry.locate imp world path (mkRegistry [] [] false) = (self1, Return (Some p)) ->
  read_config world p = Parsed config ->
  ConfigRegistry.__init__ imp world path throw_exception = Return self ->
  ConfigRegistry.initialized self = true ->
  dict.keys (ConfigRegistry.config_dict self) = dict.keys (CONFIG_MAP imp)
  /\ (forall section,
        dict.has section (CONFIG_MAP imp) = true ->
        dict.has section config = false ->
        dict.get section (ConfigRegistry.config_dict self) = Some [])
  /\ (forall command option v,
        get2 command option (ConfigRegistry.config_dict self) = Some v ->
        has2 command option (CONFIG_MAP imp) = true
        /\ file_sets config command option = true).
Proof.
  intros Hlocate Hread Hinit Hflag.
  destruct (init_success_inv imp world path throw_exception self1 p config self
              Hlocate Hread Hinit Hflag) as [_ Hparse].
  rewrite _parse_config_spec in Hparse.
  destruct (classify_commands_facts imp config (CONFIG_MAP imp) _ Hparse)
    as (Hkeys & _ & Hempty & Hsub).
  split; [exact Hkeys | split; [exact Hempty | exact Hsub]].
Qed.

Definition small_file : RawConfig :=
  [("detect-hash", [("size", "32")]); ("global", [("verbosity", "debug")])].

Definition small_disk : World := Sample.disk [("small.cfg", small_file)].

Definition small_registry : ConfigRegistry :=
  match ConfigRegistry.__init__ Sample.imports small_disk (Some "small.cfg") true with
  | Return self => self
  | Raise _ => mkRegistry [] [] false
  end.

Lemma config_dict_has_every_section_witness :
  dict.keys (ConfigRegistry.config_dict small_registry) = dict.keys (CONFIG_MAP Sample.imports)
  /\ length (ConfigRegistry.config_dict small_registry) = 14%nat
  /\ dict.get "save-qp" (ConfigRegistry.config_dict small_registry) = Some []
  /\ dict.get "global" (ConfigRegistry.config_dict small_registry)
     = Some [("verbosity", VStr "debug")].
Proof.
  destruct (config_dict_has_every_section Sample.imports small_disk (Some "small.cfg") true
              (mkRegistry []
                 [(logging.INFO, "Loading config from file:" ++ PyStr.nl ++ "  small.cfg")]
                 false)
              "small.cfg" small_file small_registry
              eq_refl eq_refl eq_refl eq_refl) as (Hkeys & Hempty & _).
  split; [exact Hkeys | ].
  split; [reflexivity | ].
  split; [apply Hempty; reflexivity | reflexivity].
Defined.

(** ** Exceptions that leave the parser *)

Lemma floats_length (values : list string) (fs : list PyFloat) :
  ScoreWeightsValue.floats values = Return fs -> length fs = length values.
Proof.
  revert fs. induction values as [ | v rest IH]; intros fs.
  - intros [= <-]. reflexivity.
  - cbn [ScoreWeightsValue.floats].
    destruct (PyNum.float v) as [f | ]; cbn [or_ValueError bind]; [ | discriminate].
    destruct (ScoreWeightsValue.floats rest) as [fs' | e]; cbn [bind]; [ | discriminate].
    intros [= <-]. simpl. rewrite (IH fs' eq_refl). reflexivity.
Qed.

Lemma floats_raises (values : list string) (e : Exn) :
  ScoreWeightsValue.floats values = Raise e -> e = ValueError.
Proof.
  induction values as [ | v rest IH]; [discriminate | ].
  cbn [ScoreWeightsValue.floats].
  destruct (PyNum.float v) as [f | ]; cbn [or_ValueError bind]; [ | congruence].
  destruct (ScoreWeightsValue.floats rest) as [fs' | e']; cbn [bind]; [discriminate | ].
  intros [= <-]. apply IH. reflexivity.
Qed.

(** The contract of [from_config]: the only exception a validator lets out
    is [OptionParseFailure]. *)
Lemma from_config_raises (imp : Imports) (config_value : string) (default : Value)
    (e : Exn) :
  is_ValidatedValue default = true ->
  from_config imp config_value default = Raise e ->
  exists error, e = OptionParseFailure error.
Proof.
  destruct default; try discriminate; intros _; cbn [from_config].
  - unfold TimecodeValue.from_config, TimecodeValue.__init__.
    destruct (FrameTimecode_accepts imp (VStr config_value)); simpl; [discriminate | ].
    intros [= <-]. eexists. reflexivity.
  - rewrite RangeValue_from_config_spec.
    destruct (range_reader _value config_value) as [value | ].
    + destruct (PyNum.lt value _min_val || PyNum.gt value _max_val); [ | discriminate].
      intros [= <-]. eexists. reflexivity.
    + intros [= <-]. eexists. reflexivity.
  - unfold ScoreWeightsValue.from_config, ScoreWeightsValue.__init__.
    destruct (negb (Nat.eqb (length (PyStr.split (ScoreWeightsValue.translate config_value))) 4))
      eqn:Hlen.
    + simpl. intros [= <-]. eexists. reflexivity.
    + apply negb_false_iff, Nat.eqb_eq in Hlen.
      destruct (ScoreWeightsValue.floats _) as [fs | e'] eqn:Hfs.
      * apply floats_length in Hfs. rewrite Hlen in Hfs.
        destruct fs as [ | a [ | b [ | c [ | d [ | x fs]]]]]; try discriminate Hfs.
        simpl. discriminate.
      * apply floats_raises in Hfs. subst e'. simpl.
        intros [= <-]. eexists. reflexivity.
  - unfold KernelSizeValue.from_config.
    destruct (PyNum.int config_value) as [z | ]; cbn [or_ValueError bind].
    + rewrite KernelSizeValue_init_cases.
      destruct (z =? -1); [discriminate | ].
      destruct ((z <? 0) || Z.even z); [ | discriminate].
      simpl. intros [= <-]. eexists. reflexivity.
    + simpl. intros [= <-]. eexists. reflexivity.
Qed.

(** The only exception an option lets out of the loop body is the
    [KeyError] of the lookup of a label in an enumeration. *)
Lemma classify_raises (imp : Imports) (config : RawConfig) (command option : string)
    (default : Value) (e : Exn) :
  classify imp config command option default = Raise e ->
  exists cls name,
    default = VEnum cls name
    /\ file_sets config command option = true
    /\ PyStr.mem (PyStr.upper (normalized config command option)) (member_names imp cls)
       = false
    /\ e = KeyError (PyStr.upper (normalized config command option)).
Proof.
  unfold classify. fold (file_sets config command option).
  destruct (file_sets config command option); [ | discriminate].
  destruct default; try discriminate;
    try (destruct (get2 command option (CHOICE_MAP imp)) as [choices | ];
         [destruct (negb (PyStr.mem _ choices)) | ]; discriminate);
    try (destruct (from_config imp _ _) as [v | e'] eqn:Hfc; [discriminate | ];
         apply from_config_raises in Hfc; [ | reflexivity];
         destruct Hfc as [error ->]; discriminate).
  unfold enum_getitem.
  destruct (PyStr.mem _ (member_names imp cls)) eqn:Hmem; cbn [bind]; [discriminate | ].
  intros [= <-]. exists cls, name. repeat split. exact Hmem.
Qed.

Lemma classify_enum_mismatch (imp : Imports) (config : RawConfig)
    (command option : string) (cls : EnumClass) (name : string) :
  file_sets config command option = true ->
  PyStr.mem (PyStr.upper (normalized config command option)) (member_names imp cls)
  = false ->
  classify imp config command option (VEnum cls name)
  = Raise (KeyError (PyStr.upper (normalized config command option))).
Proof.
  unfold classify. fold (file_sets config command option). intros -> Hmem.
  unfold enum_getitem. rewrite Hmem. reflexivity.
Qed.

(** An exception for one option ends the pass over its section, and over
    the schema, with an exception. *)
Lemma classify_options_escape (imp : Imports) (config : RawConfig) (command : string)
    (schema : Dict Value) (option : string) (default : Value) (e : Exn) :
  In (option, default) schema ->
  classify imp config command option default = Raise e ->
  exists e' option' default',
    classify_options imp config command schema = Raise e'
    /\ In (option', default') schema
    /\ classify imp config command option' default' = Raise e'.
Proof.
  induction schema as [ | [o d] rest IH]; intros Hin Hraise; [contradiction | ].
  cbn [classify_options].
  destruct (classify imp config command o d) as [oc | e0] eqn:Hoc.
  - destruct Hin as [[= -> ->] | Hin]; [congruence | ].
    destruct (IH Hin Hraise) as (e' & o' & d' & Hrest & Hin' & Hc').
    exists e', o', d'. rewrite Hrest. split; [reflexivity | ].
    split; [right; exact Hin' | exact Hc'].
  - exists e0, o, d. split; [reflexivity | ]. split; [left; reflexivity | exact Hoc].
Qed.

Lemma classify_commands_escape (imp : Imports) (config : RawConfig) (schema : ConfigDict)
    (command : string) (options : Dict Value) (option : string) (default : Value)
    (e : Exn) :
  In (command, options) schema ->
  In (option, default) options ->
  classify imp config command option default = Raise e ->
  exists e' command' option' default',
    classify_commands imp config schema = Raise e'
    /\ classify imp config command' option' default' = Raise e'.
Proof.
  induction schema as [ | [c opts] rest IH]; intros Hin Hopt Hraise; [contradiction | ].
  cbn [classify_commands].
  destruct (classify_options imp config c opts) as [r1 | e1] eqn:H1.
  - destruct Hin as [[= -> ->] | Hin].
    + destruct (classify_options_escape imp config command options option default e
                  Hopt Hraise) as (e' & _ & _ & Hesc & _).
      congruence.
    + destruct (IH Hin Hopt Hraise) as (e' & c' & o' & d' & Hrest & Hc').
      exists e', c', o', d'. rewrite Hrest. split; [reflexivity | exact Hc'].
  - assert (Hsome : exists o d, In (o, d) opts /\ classify imp config c o d = Raise e1).
    { clear - H1. revert H1. induction opts as [ | [o d] r IHr]; [discriminate | ].
      cbn [classify_options].
      destruct (classify imp config c o d) as [oc | e0] eqn:Hoc; cbn [bind].
      - destruct (classify_options imp config c r) as [r' | e'];
          cbn [bind]; [discriminate | ].
        intros [= <-]. destruct (IHr eq_refl) as (o' & d' & Hin' & Hc').
        exists o', d'. split; [right; exact Hin' | exact Hc'].
      - intros [= <-]. exists o, d. split; [left; reflexivity | exact Hoc]. }
    destruct Hsome as (o & d & _ & Hc).
    exists e1, c, o, d. split; [reflexivity | exact Hc].
Qed.

(** C2, as the code has it.  When the file sets an option whose schema
    default is a member of an enumeration and the raw value, normalized and
    uppercased, is not a label of that enumeration, the lookup raises
    [KeyError]; the handler of the lookup is for [TypeError] and the outer
    one for [ValueError], so no "Must be one of" error is recorded and the
    exception leaves [_parse_config]: the remaining options are not examined
    and no error list is returned. *)
Theorem enum_mismatch_raises_KeyError (imp : Imports) (config : RawConfig)
    (command option : string) (cls : EnumClass) (name : string) :
  get2 command option (CONFIG_MAP imp) = Some (VEnum cls name) ->
  file_sets config command option = true ->
  PyStr.mem (PyStr.upper (normalized config command option)) (member_names imp cls)
  = false ->
  (forall st, parse_option imp config command option (VEnum cls name) st
              = Raise (KeyError (PyStr.upper (normalized config command option))))
  /\ exists key, _parse_config imp config = Raise (KeyError key).
Proof.
  intros Hschema Hset Hmem.
  pose proof (classify_enum_mismatch imp config command option cls name Hset Hmem)
    as Hraise.
  split.
  - intros st. rewrite parse_option_classify, Hraise. reflexivity.
  - unfold get2 in Hschema.
    destruct (dict.get command (CONFIG_MAP imp)) as [options | ] eqn:Hsec;
      [ | discriminate].
    apply dict_get_In in Hsec. apply dict_get_In in Hschema.
    destruct (classify_commands_escape imp config (CONFIG_MAP imp) command options
                option (VEnum cls name) _ Hsec Hschema Hraise)
      as (e' & c' & o' & d' & Hesc & Hc').
    destruct (classify_raises imp config c' o' d' e' Hc') as (_ & _ & _ & _ & _ & ->).
    eexists. rewrite _parse_config_spec. exact Hesc.
Qed.

Definition bad_enum_file : RawConfig := [("list-scenes", [("cut-format", "bogus")])].

Lemma enum_mismatch_raises_KeyError_witness :
  exists key, _parse_config Sample.imports bad_enum_file = Raise (KeyError key).
Proof.
  apply (enum_mismatch_raises_KeyError Sample.imports bad_enum_file
           "list-scenes" "cut-format" TimecodeFormat "TIMECODE");
    reflexivity.
Defined.

(** The same file under any imports: the label set of [TimecodeFormat] is
    declared in this module.  The exception also leaves the constructor,
    whether or not it is told to suppress a load failure. *)
Lemma bad_enum_file_escapes (imp : Imports) (throw_exception : bool) :
  _validate_structure imp bad_enum_file = []
  /\ _parse_config imp bad_enum_file = Raise (KeyError "BOGUS")
  /\ ConfigRegistry.__init__ imp (Sample.disk [("bad.cfg", bad_enum_file)])
       (Some "bad.cfg") throw_exception
     = Raise (KeyError "BOGUS").
Proof.
  split; [reflexivity | ]. split; [reflexivity | ].
  destruct throw_exception; reflexivity.
Qed.

(** ** Accumulation of value errors *)

(** The error, if any, that one option contributes when no exception
    leaves the pass. *)
Definition rejection (imp : Imports) (config : RawConfig) (command : string)
    (entry : string * Value) : list string :=
  match classify imp config command (fst entry) (snd entry) with
  | Return (Rejected msg) => [msg]
  | _ => []
  end.

Definition all_rejections (imp : Imports) (config : RawConfig) (schema : ConfigDict)
  : list string :=
  flat_map (fun sec => flat_map (rejection imp config (fst sec)) (snd sec)) schema.

Lemma classify_options_errors (imp : Imports) (config : RawConfig) (command : string)
    (schema : Dict Value) (r : Dict Value * list string) :
  classify_options imp config command schema = Return r ->
  snd r = flat_map (rejection imp config command) schema.
Proof.
  revert r. induction schema as [ | [option default] rest IH]; intros r.
  - intros [= <-]. reflexivity.
  - cbn [classify_options flat_map]. unfold rejection at 1. cbn [fst snd].
    destruct (classify imp config command option default) as [oc | e];
      cbn [bind]; [ | discriminate].
    destruct (classify_options imp config command rest) as [r' | e'];
      cbn [bind]; [ | discriminate].
    specialize (IH r' eq_refl).
    destruct oc; intros [= <-]; cbn [fst snd app]; rewrite <- IH; reflexivity.
Qed.

Lemma classify_commands_errors (imp : Imports) (config : RawConfig) (schema : ConfigDict)
    (r : ConfigDict * list string) :
  classify_commands imp config schema = Return r ->
  snd r = all_rejections imp config schema.
Proof.
  revert r. induction schema as [ | [command options] rest IH]; intros r.
  - intros [= <-]. reflexivity.
  - cbn [classify_commands]. unfold all_rejections. cbn [flat_map fst snd].
    destruct (classify_options imp config command options) as [r1 | e] eqn:H1;
      cbn [bind]; [ | discriminate].
    destruct (classify_commands imp config rest) as [r2 | e];
      cbn [bind]; [ | discriminate].
    intros [= <-]. cbn [snd].
    rewrite (classify_options_errors imp config command options r1 H1), (IH r2 eq_refl).
    reflexivity.
Qed.

(** When the parser returns, it has examined every option of the schema:
    each one that the file sets gave either an entry of the map or one
    error, in schema order, and the others gave nothing. *)
Lemma _parse_config_accumulates (imp : Imports) (config : RawConfig)
    (out_map : ConfigDict) (errors : list string) :
  _parse_config imp config = Return (out_map, errors) ->
  errors = all_rejections imp config (CONFIG_MAP imp)
  /\ (entries out_map + length errors = count_set config (CONFIG_MAP imp))%nat
  /\ dict.keys out_map = dict.keys (CONFIG_MAP imp).
Proof.
  rewrite _parse_config_spec. intros H.
  pose proof (classify_commands_errors imp config (CONFIG_MAP imp) _ H) as Herr.
  destruct (classify_commands_facts imp config (CONFIG_MAP imp) _ H)
    as (Hkeys & Hcount & _).
  split; [exact Herr | split; [exact Hcount | exact Hkeys]].
Qed.

(** The parser returns unless a label of an enumeration fails to match. *)
Lemma _parse_config_returns (imp : Imports) (config : RawConfig) :
  (forall command option cls name,
      get2 command option (CONFIG_MAP imp) = Some (VEnum cls name) ->
      file_sets config command option = true ->
      PyStr.mem (PyStr.upper (normalized config command option)) (member_names imp cls)
      = true) ->
  exists out_map errors, _parse_config imp config = Return (out_map, errors).
Proof.
  intros Henum. rewrite _parse_config_spec.
  pose proof (CONFIG_MAP_sections_NoDup imp) as Hnd.
  pose proof (CONFIG_MAP_options_NoDup imp) as Hnds.
  assert (Hall : forall command options option default,
             In (command, options) (CONFIG_MAP imp) -> In (option, default) options ->
             exists oc, classify imp config command option default = Return oc).
  { intros command options option default Hsec Hopt.
    destruct (classify imp config command option default) as [oc | e] eqn:Hc;
      [exists oc; reflexivity | ].
    destruct (classify_raises imp config command option default e Hc)
      as (cls & name & -> & Hset & Hmem & _).
    rewrite Henum with (name := name) in Hmem; [discriminate | | exact Hset].
    unfold get2.
    assert (Hget : dict.get command (CONFIG_MAP imp) = Some options).
    { clear - Hsec Hnd. induction (CONFIG_MAP imp) as [ | [c o] r IH]; [contradiction | ].
      simpl in *. inversion Hnd as [ | ? ? Hnotin Hnd']; subst.
      destruct Hsec as [[= -> ->] | Hin].
      - rewrite String.eqb_refl. reflexivity.
      - destruct (String.eqb_spec command c) as [-> | _]; [ | apply IH; assumption].
        exfalso. apply Hnotin. apply in_map_iff. exists (c, options). split; auto. }
    rewrite Hget.
    rewrite Forall_forall in Hnds. specialize (Hnds _ Hsec). cbn [snd] in Hnds.
    clear - Hopt Hnds. induction options as [ | [o d] r IH]; [contradiction | ].
    simpl in *. inversion Hnds as [ | ? ? Hnotin Hnd']; subst.
    destruct Hopt as [[= -> ->] | Hin].
    - rewrite String.eqb_refl. reflexivity.
    - destruct (String.eqb_spec option o) as [-> | _]; [ | apply IH; assumption].
      exfalso. apply Hnotin. apply in_map_iff. exists (o, VEnum cls name). split; auto. }
  clear Henum Hnd Hnds. induction (CONFIG_MAP imp) as [ | [command options] rest IH].
  - exists [], []. reflexivity.
  - cbn [classify_commands].
    assert (H1 : exists r1, classify_options imp config command options = Return r1).
    { assert (Hopts : forall option default, In (option, default) options ->
                 exists oc, classify imp config command option default = Return oc).
      { intros o d Hin. apply (Hall command options o d); [left; reflexivity | exact Hin]. }
      clear - Hopts. induction options as [ | [o d] r IHr]; [eexists; reflexivity | ].
      cbn [classify_options].
      destruct (Hopts o d (or_introl eq_refl)) as [oc ->].
      destruct IHr as [r1 ->]; [intros; apply Hopts; right; assumption | ].
      eexists. reflexivity. }
    destruct H1 as [r1 ->].
    destruct IH as (out_map & errors & ->).
    { intros c opts o d Hin. apply (Hall c opts o d). right. exact Hin. }
    eexists. eexists. reflexivity.
Qed.

(** The example of two independent bad options: an out-of-range threshold
    in one section and a malformed boolean in another give two errors. *)
Definition two_bad_file : RawConfig :=
  [("detect-content", [("threshold", "300")]);
   ("global", [("drop-short-scenes", "maybe"); ("frame-skip", "2")])].

Lemma two_bad_file_two_errors (imp : Imports) :
  _validate_structure imp two_bad_file = []
  /\ match _parse_config imp two_bad_file with
     | Return (out_map, errors) =>
         length errors = 2%nat /\ get2 "global" "frame-skip" out_map = Some (VInt 2)
     | Raise _ => False
     end.
Proof. split; [reflexivity | vm_compute; split; reflexivity]. Qed.

(** Two independent bad options, one of them a label of an enumeration. *)
Definition bad_enum_and_choice_file : RawConfig :=
  [("list-scenes", [("cut-format", "bogus")]); ("global", [("verbosity", "loud")])].

(** C3, where the code departs from it.  The file passes structural
    validation and has two options with invalid values.  The lookup of the
    label [BOGUS] raises [KeyError], which no handler of the parser catches:
    the parser returns no error list at all, the option of [global] is not
    examined, and the exception leaves the constructor, so the load attempt
    logs no error entry instead of two. *)
Theorem bad_enum_stops_accumulation (imp : Imports) (throw_exception : bool) :
  _validate_structure imp bad_enum_and_choice_file = []
  /\ _parse_config imp bad_enum_and_choice_file = Raise (KeyError "BOGUS")
  /\ classify imp bad_enum_and_choice_file "global" "verbosity" (VStr "info")
     = Return (Rejected
         "Invalid [global] value for verbosity: loud. Must be one of: debug, info, warning, error, none.")
  /\ ConfigRegistry.__init__ imp (Sample.disk [("two.cfg", bad_enum_and_choice_file)])
       (Some "two.cfg")
       throw_exception
     = Raise (KeyError "BOGUS").
Proof.
  split; [reflexivity | ]. split; [reflexivity | ]. split; [reflexivity | ].
  destruct throw_exception; reflexivity.
Qed.

(** ** Looking an option up in the parser's map *)

Lemma dict_get_absent {A : Type} (k : string) (d : Dict A) :
  ~ In k (dict.keys d) -> dict.get k d = None.
Proof.
  intros Hnot. destruct (dict.get k d) as [v | ] eqn:E; [ | reflexivity].
  exfalso. apply Hnot. apply dict_has_In. unfold dict.has. rewrite E. reflexivity.
Qed.

Lemma dict_In_get {A : Type} (k : string) (v : A) (d : Dict A) :
  NoDup (dict.keys d) -> In (k, v) d -> dict.get k d = Some v.
Proof.
  induction d as [ | [k' v'] r IH]; intros Hnd Hin; [contradiction | ].
  simpl in *. inversion Hnd as [ | ? ? Hnotin Hnd']; subst.
  destruct Hin as [[= -> ->] | Hin].
  - rewrite String.eqb_refl. reflexivity.
  - destruct (String.eqb_spec k k') as [-> | _]; [ | apply IH; assumption].
    exfalso. apply Hnotin. apply in_map_iff. exists (k', v). split; auto.
Qed.

(** The schema read as a list of pairs and as a nested dictionary. *)
Lemma schema_In_get2 (imp : Imports) (command option : string) (options : Dict Value)
    (default : Value) :
  In (command, options) (CONFIG_MAP imp) -> In (option, default) options ->
  get2 command option (CONFIG_MAP imp) = Some default.
Proof.
  intros Hsec Hopt. unfold get2.
  rewrite (dict_In_get command options _ (CONFIG_MAP_sections_NoDup imp) Hsec).
  apply dict_In_get; [ | exact Hopt].
  pose proof (CONFIG_MAP_options_NoDup imp) as H. rewrite Forall_forall in H.
  apply (H _ Hsec).
Qed.

Lemma schema_get2_In (imp : Imports) (command option : string) (default : Value) :
  get2 command option (CONFIG_MAP imp) = Some default ->
  exists options,
    In (command, options) (CONFIG_MAP imp) /\ In (option, default) options
    /\ NoDup (dict.keys options).
Proof.
  unfold get2. destruct (dict.get command (CONFIG_MAP imp)) as [options | ] eqn:E;
    [ | discriminate].
  intros H. exists options. apply dict_get_In in E. apply dict_get_In in H.
  split; [exact E | split; [exact H | ]].
  pose proof (CONFIG_MAP_options_NoDup imp) as Hnd. rewrite Forall_forall in Hnd.
  apply (Hnd _ E).
Qed.

Lemma classify_options_get (imp : Imports) (config : RawConfig) (command : string)
    (schema : Dict Value) (r : Dict Value * list string) (option : string)
    (default : Value) :
  NoDup (dict.keys schema) ->
  classify_options imp config command schema = Return r ->
  In (option, default) schema ->
  dict.get option (fst r)
  = match classify imp config command option default with
    | Return (Stored v) => Some v
    | _ => None
    end.
Proof.
  revert r. induction schema as [ | [o d] rest IH]; intros r Hnd Hr Hin; [contradiction | ].
  cbn [classify_options] in Hr. simpl in Hnd.
  inversion Hnd as [ | ? ? Hnotin Hnd']; subst.
  destruct (classify imp config command o d) as [oc | e] eqn:Hoc;
    cbn [bind] in Hr; [ | discriminate].
  destruct (classify_options imp config command rest) as [r' | e'] eqn:Hrest;
    cbn [bind] in Hr; [ | discriminate].
  assert (Hkeys : forall k, In k (dict.keys (fst r')) -> In k (dict.keys rest)).
  { intros k Hk. apply in_map_iff in Hk. destruct Hk as ([k' v] & <- & Hkv).
    destruct (classify_options_entry imp config command rest r' k' v Hrest Hkv)
      as (d' & Hd' & _).
    apply in_map_iff. exists (k', d'). split; [reflexivity | exact Hd']. }
  destruct Hin as [[= -> ->] | Hin].
  - rewrite Hoc.
    assert (Hnone : dict.get option (fst r') = None).
    { apply dict_get_absent. intros Hk. apply Hnotin, Hkeys, Hk. }
    destruct oc; injection Hr as <-; cbn [fst dict.get];
      rewrite ?String.eqb_refl; auto.
  - assert (Hne : option <> o).
    { intros ->. apply Hnotin. apply in_map_iff. exists (o, default). split; auto. }
    rewrite <- (IH r' Hnd' eq_refl Hin).
    destruct oc; injection Hr as <-; cbn [fst dict.get]; try reflexivity.
    destruct (String.eqb_spec option o); [contradiction | reflexivity].
Qed.

Lemma classify_commands_get (imp : Imports) (config : RawConfig) (schema : ConfigDict)
    (r : ConfigDict * list string) (command : string) (options : Dict Value) :
  NoDup (dict.keys schema) ->
  classify_commands imp config schema = Return r ->
  In (command, options) schema ->
  exists r1,
    classify_options imp config command options = Return r1
    /\ dict.get command (fst r) = Some (fst r1)
    /\ (forall msg, In msg (snd r1) -> In msg (snd r)).
Proof.
  revert r. induction schema as [ | [c opts] rest IH]; intros r Hnd Hr Hin; [contradiction | ].
  cbn [classify_commands] in Hr. simpl in Hnd.
  inversion Hnd as [ | ? ? Hnotin Hnd']; subst.
  destruct (classify_options imp config c opts) as [r1 | e] eqn:H1;
    cbn [bind] in Hr; [ | discriminate].
  destruct (classify_commands imp config rest) as [r2 | e] eqn:H2;
    cbn [bind] in Hr; [ | discriminate].
  injection Hr as <-. cbn [fst snd dict.get].
  destruct Hin as [[= -> ->] | Hin].
  - exists r1. rewrite String.eqb_refl. split; [exact H1 | split; [reflexivity | ]].
    intros msg Hmsg. apply in_or_app. left. exact Hmsg.
  - destruct (IH r2 Hnd' eq_refl Hin) as (r1' & Hr1' & Hget & Hmsgs).
    exists r1'. split; [exact Hr1' | ]. split.
    + destruct (String.eqb_spec command c) as [-> | _]; [ | exact Hget].
      exfalso. apply Hnotin. apply in_map_iff. exists (c, options). split; auto.
    + intros msg Hmsg. apply in_or_app. right. apply Hmsgs, Hmsg.
Qed.

Lemma classify_options_rejected (imp : Imports) (config : RawConfig) (command : string)
    (schema : Dict Value) (r : Dict Value * list string) (option : string)
    (default : Value) (msg : string) :
  classify_options imp config command schema = Return r ->
  In (option, default) schema ->
  classify imp config command option default = Return (Rejected msg) ->
  In msg (snd r).
Proof.
  intros Hr Hin Hc. rewrite (classify_options_errors imp config command schema r Hr).
  apply in_flat_map. exists (option, default). split; [exact Hin | ].
  unfold rejection. cbn [fst snd]. rewrite Hc. left. reflexivity.
Qed.

(** When the parser returns, what it did for an option of the schema can be
    read off its result. *)
Lemma _parse_config_lookup (imp : Imports) (config : RawConfig) (out_map : ConfigDict)
    (errors : list string) (command option : string) (default : Value) :
  _parse_config imp config = Return (out_map, errors) ->
  get2 command option (CONFIG_MAP imp) = Some default ->
  exists oc,
    classify imp config command option default = Return oc
    /\ get2 command option out_map = match oc with Stored v => Some v | _ => None end
    /\ (forall msg, oc = Rejected msg -> In msg errors).
Proof.
  rewrite _parse_config_spec. intros Hr Hschema.
  destruct (schema_get2_In imp command option default Hschema)
    as (options & Hsec & Hopt & Hnd).
  destruct (classify_commands_get imp config (CONFIG_MAP imp) _ command options
              (CONFIG_MAP_sections_NoDup imp) Hr Hsec) as (r1 & Hr1 & Hget & Hmsgs).
  pose proof (classify_options_get imp config command options r1 option default
                Hnd Hr1 Hopt) as Hentry.
  destruct (classify imp config command option default) as [oc | e] eqn:Hc.
  - exists oc. split; [reflexivity | ]. split.
    + unfold get2. cbn [fst] in Hget. rewrite Hget, Hentry. reflexivity.
    + intros msg ->. apply Hmsgs.
      apply (classify_options_rejected imp config command options r1 option default msg
               Hr1 Hopt Hc).
  - exfalso.
    destruct (classify_options_escape imp config command options option default e Hopt Hc)
      as (e' & _ & _ & Hesc & _).
    congruence.
Qed.

(** The loop body stores [v] for an option, or rejects it with [msg],
    whatever the two locals hold when it runs. *)
Definition stores (imp : Imports) (config : RawConfig) (command option : string)
    (default v : Value) : Prop :=
  forall st, parse_option imp config command option default st
             = Return (store command option v st).

Definition rejects (imp : Imports) (config : RawConfig) (command option : string)
    (default : Value) (msg : string) : Prop :=
  forall st, parse_option imp config command option default st
             = Return (append_error msg st).

(** The two locals when the loop body runs first for a section. *)
Definition fresh_state (command : string) : ParseState := ([(command, [])], []).

Lemma store_fresh (command option : string) (v : Value) :
  store command option v (fresh_state command) = ([(command, [(option, v)])], []).
Proof.
  unfold store, set2, fresh_state. cbn [fst snd dict.get]. rewrite String.eqb_refl.
  cbn [dict.set]. rewrite String.eqb_refl. reflexivity.
Qed.

Lemma stores_iff (imp : Imports) (config : RawConfig) (command option : string)
    (default v : Value) :
  stores imp config command option default v
  <-> classify imp config command option default = Return (Stored v).
Proof.
  unfold stores. split.
  - intros H. specialize (H (fresh_state command)).
    rewrite parse_option_classify, store_fresh in H.
    destruct (classify imp config command option default) as [[ | v' | msg] | e];
      cbn [bind apply_outcome] in H; rewrite ?store_fresh in H;
      unfold append_error, list_append, fresh_state in H; cbn [fst snd app] in H;
      congruence.
  - intros H st. rewrite parse_option_classify, H. reflexivity.
Qed.

Lemma rejects_iff (imp : Imports) (config : RawConfig) (command option : string)
    (default : Value) (msg : string) :
  rejects imp config command option default msg
  <-> classify imp config command option default = Return (Rejected msg).
Proof.
  unfold rejects. split.
  - intros H. specialize (H (fresh_state command)).
    rewrite parse_option_classify in H.
    destruct (classify imp config command option default) as [[ | v' | msg'] | e];
      cbn [bind apply_outcome] in H; rewrite ?store_fresh in H;
      unfold append_error, list_append, fresh_state in H; cbn [fst snd app] in H;
      congruence.
  - intros H st. rewrite parse_option_classify, H. reflexivity.
Qed.

Lemma classify_stored_set (imp : Imports) (config : RawConfig) (command option : string)
    (default : Value) (oc : Outcome) :
  classify imp config command option default = Return oc ->
  file_sets config command option = match oc with Absent => false | _ => true end.
Proof.
  intros Hc. destruct (file_sets config command option) eqn:Hset.
  - pose proof (classify_present imp config command option default Hset) as Hne.
    destruct oc; [congruence | reflexivity | reflexivity].
  - rewrite (classify_absent imp config command option default Hset) in Hc.
    injection Hc as <-. reflexivity.
Qed.

(** ** What a failed load leaves in the registry *)

(** A file with one malformed integer and one well-formed one. *)
Definition half_valid_file : RawConfig :=
  [("global", [("downscale", "abc"); ("frame-skip", "2")])].

Definition half_valid_disk : World := Sample.disk [("half.cfg", half_valid_file)].

(** C1 fails as stated: the load below has a value error and the exception
    is suppressed, yet [config_dict] is not empty and [get_value] answers
    with the value of the file, [2], where the schema default is [0]. *)
Lemma failed_load_adopts_values :
  match ConfigRegistry.__init__ Sample.imports half_valid_disk (Some "half.cfg") false with
  | Return self =>
      ConfigRegistry.initialized self = false
      /\ ConfigRegistry.config_dict self <> []
      /\ ConfigRegistry.is_default self "global" "frame-skip" = false
      /\ ConfigRegistry.get_value Sample.imports self "global" "frame-skip" VNone = Return (VInt 2)
      /\ get2 "global" "frame-skip" (CONFIG_MAP Sample.imports) = Some (VInt 0)
      /\ _init_log self
         = [(logging.INFO, "Loading config from file:" ++ PyStr.nl ++ "  half.cfg");
            (logging.ERROR,
             "Invalid [global] value for downscale: abc is not a valid integer.")]
  | Raise _ => False
  end.
Proof. vm_compute. repeat split. discriminate. Qed.

(** What [get_value] answers without an override, for an option of the
    schema. *)
Lemma get_value_lookup (imp : Imports) (self : ConfigRegistry)
    (command option : string) (default : Value) :
  get2 command option (CONFIG_MAP imp) = Some default ->
  ConfigRegistry.get_value imp self command option VNone
  = Return (unwrap match get2 command option (_config self) with
                   | Some v => v
                   | None => default
                   end).
Proof.
  intros Hdefault. unfold ConfigRegistry.get_value.
  assert (Hhas : has2 command option (CONFIG_MAP imp) = true)
    by (apply has2_get2; exists default; exact Hdefault).
  rewrite Hhas, Hdefault. cbn [negb]. unfold unwrap.
  destruct (get2 command option (_config self)) as [v | ];
    [destruct (is_ValidatedValue v) | destruct (is_ValidatedValue default)]; reflexivity.
Qed.

(** C1, as the code has it.  For a file that is read, with the exception
    suppressed: when the structural validator reports an error the registry
    is uninitialized, [config_dict] is empty and every accessor answers with
    the schema default; when the structural validator reports nothing and the
    parser returns with value errors, the registry is uninitialized as well
    but [config_dict] is the map the parser returned, with a key for every
    section of the schema.  Of an option of the schema that map has the
    entry [v] exactly when the file sets the option and the loop body stores
    [v] for it; an option that the loop body rejects has its message among
    the errors and no entry, and the accessors answer for it with the schema
    default, as they do for an option the file does not set; for an option
    with an entry [is_default] is false and [get_value] answers with the
    entry. *)
Theorem failed_load_config_dict (imp : Imports) (world : World)
    (path : Datatypes.option string) (self1 : ConfigRegistry) (p : string)
    (config : RawConfig) :
  ConfigRegistry.locate imp world path (mkRegistry [] [] false) = (self1, Return (Some p)) ->
  read_config world p = Parsed config ->
  (_validate_structure imp config <> [] ->
   exists self,
     ConfigRegistry.__init__ imp world path false = Return self
     /\ ConfigRegistry.initialized self = false
     /\ ConfigRegistry.config_dict self = []
     /\ forall command option default,
          get2 command option (CONFIG_MAP imp) = Some default ->
          ConfigRegistry.is_default self command option = true
          /\ ConfigRegistry.get_value imp self command option VNone = Return (unwrap default))
  /\ (forall out_map errors,
        _validate_structure imp config = [] ->
        _parse_config imp config = Return (out_map, errors) ->
        errors <> [] ->
        exists self,
          ConfigRegistry.__init__ imp world path false = Return self
          /\ ConfigRegistry.initialized self = false
          /\ ConfigRegistry.config_dict self = out_map
          /\ dict.keys out_map = dict.keys (CONFIG_MAP imp)
          /\ (entries out_map + length errors = count_set config (CONFIG_MAP imp))%nat
          /\ _init_log self = (_init_log self1 ++ error_entries errors)%list
          /\ forall command option default,
               get2 command option (CONFIG_MAP imp) = Some default ->
               (forall v,
                   get2 command option (ConfigRegistry.config_dict self) = Some v <->
                   file_sets config command option = true
                   /\ stores imp config command option default v)
               /\ (forall msg,
                     rejects imp config command option default msg ->
                     In msg errors
                     /\ get2 command option (ConfigRegistry.config_dict self) = None
                     /\ ConfigRegistry.is_default self command option = true
                     /\ ConfigRegistry.get_value imp self command option VNone
                        = Return (unwrap default))
               /\ (file_sets config command option = false ->
                   get2 command option (ConfigRegistry.config_dict self) = None
                   /\ ConfigRegistry.is_default self command option = true
                   /\ ConfigRegistry.get_value imp self command option VNone
                      = Return (unwrap default))
               /\ (forall v,
                     get2 command option (ConfigRegistry.config_dict self) = Some v ->
                     ConfigRegistry.is_default self command option = false
                     /\ ConfigRegistry.get_value imp self command option VNone
                        = Return (unwrap v))).
Proof.
  intros Hlocate Hread.
  destruct (locate_file imp world path self1 p Hlocate) as (Hconfig & Hinit & _).
  split.
  - intros Hstruct.
    exists (mkRegistry []
              (_init_log self1 ++ error_entries (_validate_structure imp config)) false).
    split.
    { unfold ConfigRegistry.__init__.
      rewrite (_load_from_disk_file imp world path self1 p config Hlocate Hread).
      rewrite (validate_structural imp config self1 Hstruct), log_errors_spec.
      rewrite Hconfig. reflexivity. }
    split; [reflexivity | ]. split; [reflexivity | ].
    intros command option default Hdefault. split; [reflexivity | ].
    rewrite (get_value_lookup imp _ command option default Hdefault). reflexivity.
  - intros out_map errors Hstruct Hparse Herrors.
    exists (mkRegistry out_map (_init_log self1 ++ error_entries errors) false).
    destruct (_parse_config_accumulates imp config out_map errors Hparse)
      as (_ & Hcount & Hkeys).
    split.
    { unfold ConfigRegistry.__init__.
      rewrite (_load_from_disk_file imp world path self1 p config Hlocate Hread).
      rewrite (validate_parsed imp config self1 out_map errors Hstruct Hparse).
      destruct errors as [ | e rest]; [congruence | ].
      rewrite log_errors_spec. reflexivity. }
    split; [reflexivity | ]. split; [reflexivity | ]. split; [exact Hkeys | ].
    split; [exact Hcount | ]. split; [reflexivity | ].
    intros command option default Hschema.
    destruct (_parse_config_lookup imp config out_map errors command option default
                Hparse Hschema) as (oc & Hc & Hget & Herr).
    pose proof (classify_stored_set imp config command option default oc Hc) as Hset.
    unfold ConfigRegistry.config_dict, ConfigRegistry.is_default.
    rewrite (get_value_lookup imp _ command option default Hschema).
    cbn [_config]. rewrite Hset.
    split.
    { intros v. rewrite stores_iff, Hc, Hget. destruct oc; split;
        try discriminate; try (intros [H _]; discriminate);
        try (intros [_ H]; discriminate).
      - intros [= ->]. split; reflexivity.
      - intros [_ [= ->]]. reflexivity. }
    split.
    { intros msg Hrej. apply rejects_iff in Hrej. rewrite Hc in Hrej.
      injection Hrej as ->. split; [apply Herr; reflexivity | ].
      assert (Hnone : has2 command option out_map = false)
        by (apply has2_false_get2; exact Hget).
      rewrite Hget, Hnone. repeat split. }
    split.
    { intros Habsent. destruct oc; try discriminate Habsent.
      assert (Hnone : has2 command option out_map = false)
        by (apply has2_false_get2; exact Hget).
      rewrite Hget, Hnone. repeat split. }
    intros v Hv.
    assert (Hhas : has2 command option out_map = true)
      by (apply has2_get2; exists v; exact Hv).
    rewrite Hv, Hhas. split; reflexivity.
Qed.

Lemma failed_load_config_dict_witness :
  (exists self,
      ConfigRegistry.__init__ Sample.imports bogus_disk (Some "bogus.cfg") false = Return self
      /\ ConfigRegistry.initialized self = false
      /\ ConfigRegistry.config_dict self = []
      /\ forall command option default,
           get2 command option (CONFIG_MAP Sample.imports) = Some default ->
           ConfigRegistry.is_default self command option = true
           /\ ConfigRegistry.get_value Sample.imports self command option VNone
              = Return (unwrap default))
  /\ (exists self,
        ConfigRegistry.__init__ Sample.imports half_valid_disk (Some "half.cfg") false = Return self
        /\ ConfigRegistry.initialized self = false
        /\ get2 "global" "frame-skip" (ConfigRegistry.config_dict self) = Some (VInt 2)
        /\ get2 "global" "downscale" (ConfigRegistry.config_dict self) = None
        /\ ConfigRegistry.get_value Sample.imports self "global" "downscale" VNone
           = Return (VInt 0)
        /\ dict.keys (ConfigRegistry.config_dict self) = dict.keys (CONFIG_MAP Sample.imports)).
Proof.
  split.
  - destruct (failed_load_config_dict Sample.imports bogus_disk (Some "bogus.cfg")
                (mkRegistry []
                   [(logging.INFO, "Loading config from file:" ++ PyStr.nl ++ "  bogus.cfg")]
                   false)
                "bogus.cfg" bogus_file eq_refl eq_refl) as [Hstruct _].
    apply Hstruct. discriminate.
  - destruct (failed_load_config_dict Sample.imports half_valid_disk (Some "half.cfg")
                (mkRegistry []
                   [(logging.INFO, "Loading config from file:" ++ PyStr.nl ++ "  half.cfg")]
                   false)
                "half.cfg" half_valid_file eq_refl eq_refl) as [_ Hvalue].
    destruct (Hvalue
                (match _parse_config Sample.imports half_valid_file with
                 | Return r => fst r
                 | Raise _ => []
                 end)
                ["Invalid [global] value for downscale: abc is not a valid integer."]
                eq_refl eq_refl ltac:(discriminate))
      as (self & Hinit & Hflag & Hdict & Hkeys & _ & _ & Hoptions).
    exists self. split; [exact Hinit | ]. split; [exact Hflag | ].
    destruct (Hoptions "global" "downscale" (VInt 0) eq_refl) as (_ & Hrejected & _).
    destruct (Hrejected "Invalid [global] value for downscale: abc is not a valid integer."
                ltac:(intros st; reflexivity))
      as (_ & Hnone & _ & Hvalue').
    split; [rewrite Hdict; reflexivity | ].
    split; [exact Hnone | ]. split; [exact Hvalue' | ].
    rewrite Hdict. exact Hkeys.
Defined.

(* ===================================================================== *)
(** * Further properties *)
(* ===================================================================== *)

(** ** The map and the errors that the parser returns *)

(** X5.  When [_parse_config] returns, an option of the schema has the entry
    [v] in the map exactly when the file sets it and the loop body stores
    [v] for it; it has no entry exactly when the file does not set it or the
    loop body rejects it, and then the rejection is one of the errors. *)
Theorem parsed_map_entries (imp : Imports) (config : RawConfig) (out_map : ConfigDict)
    (errors : list string) (command option : string) (default : Value) :
  _parse_config imp config = Return (out_map, errors) ->
  get2 command option (CONFIG_MAP imp) = Some default ->
  (forall v, get2 command option out_map = Some v <->
             file_sets config command option = true
             /\ stores imp config command option default v)
  /\ (get2 command option out_map = None <->
      file_sets config command option = false
      \/ exists msg, rejects imp config command option default msg /\ In msg errors).
Proof.
  intros Hparse Hschema.
  destruct (_parse_config_lookup imp config out_map errors command option default
              Hparse Hschema) as (oc & Hc & Hget & Herr).
  pose proof (classify_stored_set imp config command option default oc Hc) as Hset.
  rewrite Hget, Hset. split.
  - intros v. rewrite stores_iff, Hc. destruct oc; split;
      try discriminate; try (intros [H _]; discriminate); try (intros [_ H]; discriminate).
    + intros [= ->]. split; reflexivity.
    + intros [_ [= ->]]. reflexivity.
  - destruct oc as [ | v | msg]; split; try discriminate; auto.
    + intros [H | (msg & H & _)]; [discriminate | ].
      apply rejects_iff in H. congruence.
    + intros _. right. exists msg. split; [apply rejects_iff; exact Hc | ].
      apply Herr. reflexivity.
Qed.

Lemma parsed_map_entries_witness :
  match _parse_config Sample.imports half_valid_file with
  | Return (out_map, errors) =>
      get2 "global" "frame-skip" out_map = Some (VInt 2)
      /\ get2 "global" "downscale" out_map = None
  | Raise _ => False
  end.
Proof.
  destruct (_parse_config Sample.imports half_valid_file) as [[out_map errors] | e] eqn:H;
    [ | discriminate H].
  split.
  - apply (parsed_map_entries Sample.imports half_valid_file out_map errors
             "global" "frame-skip" (VInt 0) H eq_refl).
    split; [reflexivity | ]. intros st. reflexivity.
  - apply (parsed_map_entries Sample.imports half_valid_file out_map errors
             "global" "downscale" (VInt 0) H eq_refl).
    right. injection H as <- <-.
    exists "Invalid [global] value for downscale: abc is not a valid integer.".
    split; [intros st; reflexivity | left; reflexivity].
Defined.

(** ** What the validators return *)

Definition timecode_message : string :=
  "Timecodes must be in seconds (100.0), frames (100), or HH:MM:SS.".

Definition weights_message : string :=
  "Score weights must be specified as four numbers in the form (H,S,L,E),"
    ++ " e.g. (0.9, 0.2, 2.0, 0.5). Commas/brackets/slashes are ignored.".

Lemma range_reader_is_int (dvalue : Number) (config_value : string) (value : Number) :
  range_reader dvalue config_value = Some value ->
  PyNum.is_int value = PyNum.is_int dvalue.
Proof.
  unfold range_reader. destruct (PyNum.is_int dvalue).
  - destruct (PyNum.int config_value); intros [= <-]; reflexivity.
  - destruct (PyNum.float config_value); intros [= <-]; reflexivity.
Qed.

(** The tokens of a score weights text. *)
Definition weight_tokens (config_value : string) : list string :=
  PyStr.split (ScoreWeightsValue.translate config_value).

Lemma ScoreWeightsValue_from_config_spec (config_value : string) (default : Value) :
  ScoreWeightsValue.from_config config_value default
  = match map PyNum.float (weight_tokens config_value) with
    | [Some a; Some b; Some c; Some d] => Return (VScoreWeights (mkComponents a b c d))
    | _ => Raise (OptionParseFailure weights_message)
    end.
Proof.
  unfold ScoreWeightsValue.from_config, ScoreWeightsValue.__init__, weight_tokens.
  destruct (PyStr.split (ScoreWeightsValue.translate config_value))
    as [ | a [ | b [ | c [ | d [ | e r]]]]];
    cbn [length Nat.eqb negb map ScoreWeightsValue.floats];
    repeat match goal with
           | |- context [PyNum.float ?t] => destruct (PyNum.float t)
           end; reflexivity.
Qed.

(** What a validator returns when it returns. *)
Lemma from_config_returns (imp : Imports) (config_value : string) (default v : Value) :
  from_config imp config_value default = Return v ->
  match default with
  | VTimecode _ =>
      v = VTimecode (VStr config_value)
      /\ FrameTimecode_accepts imp (VStr config_value) = true
  | VRange dvalue min_val max_val =>
      exists value,
        v = VRange value min_val max_val
        /\ range_reader dvalue config_value = Some value
        /\ PyNum.lt value min_val = false /\ PyNum.gt value max_val = false
  | VScoreWeights _ =>
      exists a b c d,
        v = VScoreWeights (mkComponents a b c d)
        /\ map PyNum.float (weight_tokens config_value) = [Some a; Some b; Some c; Some d]
  | VKernelSize _ =>
      exists value,
        PyNum.int config_value = Some value
        /\ (value = -1 /\ v = VKernelSize None
            \/ 0 < value /\ Z.odd value = true /\ v = VKernelSize (Some value))
  | _ => False
  end.
Proof.
  destruct default; cbn [from_config]; try discriminate.
  - unfold TimecodeValue.from_config, TimecodeValue.__init__.
    destruct (FrameTimecode_accepts imp (VStr config_value)); simpl; [ | discriminate].
    intros [= <-]. split; reflexivity.
  - rewrite RangeValue_from_config_spec.
    destruct (range_reader _value config_value) as [value | ]; [ | discriminate].
    destruct (PyNum.lt value _min_val || PyNum.gt value _max_val) eqn:E; [discriminate | ].
    intros [= <-]. apply orb_false_iff in E. exists value. tauto.
  - rewrite ScoreWeightsValue_from_config_spec.
    destruct (map PyNum.float (weight_tokens config_value))
      as [ | [a | ] [ | [b | ] [ | [c | ] [ | [d | ] [ | e r]]]]]; try discriminate.
    intros [= <-]. exists a, b, c, d. split; reflexivity.
  - unfold KernelSizeValue.from_config.
    destruct (PyNum.int config_value) as [z | ]; cbn [or_ValueError bind];
      [ | discriminate].
    rewrite KernelSizeValue_init_cases.
    destruct (Z.eqb_spec z (-1)) as [-> | Hne].
    + intros [= <-]. exists (-1). split; [reflexivity | left; split; reflexivity].
    + destruct (Z.ltb_spec z 0) as [Hlt | Hge]; cbn [orb]; [discriminate | ].
      destruct (Z.even z) eqn:Heven; [discriminate | ].
      simpl. intros [= <-]. exists z. split; [reflexivity | right].
      assert (Hodd : Z.odd z = true) by (rewrite <- Z.negb_even, Heven; reflexivity).
      split; [ | split; [exact Hodd | reflexivity]].
      destruct (Z.eq_dec z 0) as [-> | ]; [discriminate Hodd | lia].
Qed.

Definition enum_class_eqb (a b : EnumClass) : bool :=
  match a, b with
  | FlashFilter_Mode, FlashFilter_Mode | Interpolation, Interpolation
  | TimecodeFormat, TimecodeFormat => true
  | _, _ => false
  end.

(** [type(v)] is the type the schema default asks for: the type of the
    default itself, and [str] where the default is [None]. *)
Definition same_type (default v : Value) : bool :=
  match default, v with
  | VNone, VStr _ => true
  | VBool _, VBool _ | VInt _, VInt _ | VFloat _, VFloat _ | VStr _, VStr _ => true
  | VEnum cls _, VEnum cls' _ => enum_class_eqb cls cls'
  | VTimecode _, VTimecode _ | VRange _ _ _, VRange _ _ _
  | VScoreWeights _, VScoreWeights _ | VKernelSize _, VKernelSize _ => true
  | _, _ => false
  end.

(** The validators whose construction is in this file: a range, score
    weights and a kernel size.  A timecode is checked by [FrameTimecode],
    which is not. *)
Definition constructed_here (default : Value) : bool :=
  match default with
  | VRange _ _ _ | VScoreWeights _ | VKernelSize _ => true
  | _ => false
  end.

(** X1.  The contract of [from_config] for a range, score weights and a
    kernel size: it returns a validator of the class of the default or
    raises [OptionParseFailure]; no other exception leaves it. *)
Theorem from_config_contract (imp : Imports) (config_value : string) (default : Value) :
  constructed_here default = true ->
  (exists v, from_config imp config_value default = Return v
             /\ same_type default v = true /\ constructed_here v = true)
  \/ (exists error, from_config imp config_value default = Raise (OptionParseFailure error)).
Proof.
  intros Hhere.
  assert (Hvalidated : is_ValidatedValue default = true)
    by (destruct default; try discriminate Hhere; reflexivity).
  destruct (from_config imp config_value default) as [v | e] eqn:H.
  - left. exists v. split; [reflexivity | ].
    apply from_config_returns in H.
    destruct default; try discriminate Hhere.
    + destruct H as (value & -> & _). split; reflexivity.
    + destruct H as (a & b & c & d & -> & _). split; reflexivity.
    + destruct H as (value & _ & [[_ ->] | (_ & _ & ->)]); split; reflexivity.
  - right. destruct (from_config_raises imp config_value default e Hvalidated H)
      as [error ->].
    exists error. reflexivity.
Qed.

Lemma from_config_contract_witness :
  (exists v, from_config Sample.imports "7" (VKernelSize None) = Return v
             /\ same_type (VKernelSize None) v = true /\ constructed_here v = true)
  \/ (exists error,
        from_config Sample.imports "7" (VKernelSize None) = Raise (OptionParseFailure error)).
Proof. apply (from_config_contract Sample.imports "7" (VKernelSize None)). reflexivity. Defined.

Lemma translate_idempotent (s : string) :
  ScoreWeightsValue.translate (ScoreWeightsValue.translate s)
  = ScoreWeightsValue.translate s.
Proof.
  unfold ScoreWeightsValue.translate. induction s as [ | c r IH]; [reflexivity | ].
  cbn [PyStr.map]. rewrite IH. f_equal.
  destruct (existsb (Ascii.eqb c) ScoreWeightsValue._IGNORE_CHARS) eqn:E;
    [reflexivity | rewrite E; reflexivity].
Qed.

(** X2.  Score weights are accepted exactly when the text, with each of
    [, / ( )] read as a space, splits at whitespace into four tokens that
    [float] reads; the components are those four numbers in order.  Any
    other text raises [OptionParseFailure] with the fixed message, and the
    ignored characters can be replaced by spaces without changing the
    answer. *)
Theorem ScoreWeightsValue_four_numbers (config_value : string) (default : Value) :
  ScoreWeightsValue.from_config config_value default
  = match map PyNum.float
            (PyStr.split (ScoreWeightsValue.translate config_value)) with
    | [Some a; Some b; Some c; Some d] => Return (VScoreWeights (mkComponents a b c d))
    | _ => Raise (OptionParseFailure weights_message)
    end
  /\ ScoreWeightsValue.from_config (ScoreWeightsValue.translate config_value) default
     = ScoreWeightsValue.from_config config_value default
  /\ (length (PyStr.split (ScoreWeightsValue.translate config_value)) <> 4%nat ->
      ScoreWeightsValue.from_config config_value default
      = Raise (OptionParseFailure weights_message)).
Proof.
  split; [apply ScoreWeightsValue_from_config_spec | ].
  split.
  - rewrite !ScoreWeightsValue_from_config_spec. unfold weight_tokens.
    rewrite translate_idempotent. reflexivity.
  - intros Hlen. rewrite ScoreWeightsValue_from_config_spec. unfold weight_tokens.
    destruct (PyStr.split (ScoreWeightsValue.translate config_value))
      as [ | a [ | b [ | c [ | d [ | e r]]]]]; cbn [map];
      try (exfalso; apply Hlen; reflexivity);
      repeat match goal with
             | |- context [PyNum.float ?t] => destruct (PyNum.float t)
             end; reflexivity.
Qed.

Lemma ScoreWeightsValue_four_numbers_witness :
  ScoreWeightsValue.from_config "0.9, 0.2, 2.0" VNone
  = Raise (OptionParseFailure weights_message).
Proof.
  apply (ScoreWeightsValue_four_numbers "0.9, 0.2, 2.0" VNone). discriminate.
Defined.

Example weights_spec_ex :
  ScoreWeightsValue.from_config "(1.5, 0.25, 2.0, 0.5)" VNone
  = Return (VScoreWeights
              (mkComponents (FFin (3 # 2)) (FFin (1 # 4)) (FFin 2) (FFin (1 # 2)))).
Proof. vm_compute. reflexivity. Qed.

(** ** The values that the parser stores *)

(** What the schema asks of the value stored for an option that the file
    writes as [raw]: how the value is read from the text, and the constraint
    it meets. *)
Definition satisfies (imp : Imports) (command option raw : string) (default v : Value)
  : Prop :=
  match default, v with
  | VBool _, VBool b => dict.get (PyStr.lower raw) ConfigParser.BOOLEAN_STATES = Some b
  | VInt _, VInt z => PyNum.int raw = Some z
  | VFloat _, VFloat f => PyNum.float raw = Some f
  | VRange dvalue min_val max_val, VRange value min_val' max_val' =>
      min_val' = min_val /\ max_val' = max_val
      /\ range_reader dvalue raw = Some value
      /\ PyNum.lt value min_val = false /\ PyNum.gt value max_val = false
      /\ PyNum.is_int value = PyNum.is_int dvalue
  | VKernelSize _, VKernelSize None => PyNum.int raw = Some (-1)
  | VKernelSize _, VKernelSize (Some value) =>
      PyNum.int raw = Some value /\ 0 < value /\ Z.odd value = true
  | VScoreWeights _, VScoreWeights (mkComponents a b c d) =>
      map PyNum.float (PyStr.split (ScoreWeightsValue.translate raw))
      = [Some a; Some b; Some c; Some d]
  | VEnum cls _, VEnum cls' name =>
      cls' = cls
      /\ name = PyStr.upper (PyStr.strip (PyStr.replace_char PyStr.newline " " raw))
      /\ PyStr.mem name (member_names imp cls) = true
  | VTimecode _, VTimecode value =>
      value = VStr raw /\ FrameTimecode_accepts imp (VStr raw) = true
  | VStr _, VStr s | VNone, VStr s =>
      s = PyStr.strip (PyStr.replace_char PyStr.newline " " raw)
      /\ forall choices,
           get2 command option (CHOICE_MAP imp) = Some choices ->
           PyStr.mem (PyStr.lower s) choices = true
  | _, _ => False
  end.

Definition is_Components (v : Value) : bool :=
  match v with VComponents _ => true | _ => false end.

Lemma schema_no_Components (imp : Imports) (command option : string) (default : Value) :
  get2 command option (CONFIG_MAP imp) = Some default -> is_Components default = false.
Proof.
  intros H. apply get2_schema_default in H.
  assert (Hall : forallb (fun v => negb (is_Components v)) (schema_defaults imp) = true)
    by (vm_compute; reflexivity).
  rewrite forallb_forall in Hall. apply negb_true_iff, (Hall _ H).
Qed.

Lemma classify_stored_conforms (imp : Imports) (config : RawConfig)
    (command option : string) (default v : Value) :
  classify imp config command option default = Return (Stored v) ->
  is_Components default = false ->
  same_type default v = true
  /\ satisfies imp command option (ConfigParser.get config command option) default v.
Proof.
  unfold classify, normalized.
  destruct (dict.has command config && _); [ | discriminate].
  set (raw := ConfigParser.get config command option).
  destruct default; try discriminate.
  - (* None *)
    intros H _. destruct (get2 command option (CHOICE_MAP imp)) as [choices | ] eqn:Hc.
    + destruct (negb (PyStr.mem _ choices)) eqn:Hm; [discriminate | ].
      injection H as <-. split; [reflexivity | ].
      simpl. split; [reflexivity | ].
      intros choices' Hch. rewrite Hc in Hch. injection Hch as <-.
      apply negb_false_iff, Hm.
    + injection H as <-. split; [reflexivity | ].
      simpl. split; [reflexivity | ].
      intros choices' Hch. rewrite Hc in Hch. discriminate Hch.
  - intros H _. destruct (dict.get _ ConfigParser.BOOLEAN_STATES) eqn:E; inversion H; subst;
      split; [reflexivity | exact E].
  - intros H _. destruct (PyNum.int _) eqn:E; inversion H; subst;
      split; [reflexivity | exact E].
  - intros H _. destruct (PyNum.float _) eqn:E; inversion H; subst;
      split; [reflexivity | exact E].
  - (* str *)
    intros H _. destruct (get2 command option (CHOICE_MAP imp)) as [choices | ] eqn:Hc.
    + destruct (negb (PyStr.mem _ choices)) eqn:Hm; [discriminate | ].
      injection H as <-. split; [reflexivity | ].
      simpl. split; [reflexivity | ].
      intros choices' Hch. rewrite Hc in Hch. injection Hch as <-.
      apply negb_false_iff, Hm.
    + injection H as <-. split; [reflexivity | ].
      simpl. split; [reflexivity | ].
      intros choices' Hch. rewrite Hc in Hch. discriminate Hch.
  - (* Enum *)
    unfold enum_getitem.
    destruct (PyStr.mem _ (member_names imp cls)) eqn:Hm; cbn [bind]; [ | discriminate].
    intros [= <-] _. split; [destruct cls; reflexivity | ].
    split; [reflexivity | split; [reflexivity | exact Hm]].
  - destruct (from_config imp _ _) as [v' | []] eqn:Hfc; try discriminate.
    intros [= <-] _. apply from_config_returns in Hfc. destruct Hfc as [-> Hacc].
    split; [reflexivity | split; [reflexivity | exact Hacc]].
  - destruct (from_config imp _ _) as [v' | []] eqn:Hfc; try discriminate.
    intros [= <-] _. apply from_config_returns in Hfc.
    destruct Hfc as (value & -> & Hread & Hlo & Hhi).
    split; [reflexivity | ]. repeat split; try assumption.
    apply (range_reader_is_int _ _ _ Hread).
  - destruct (from_config imp _ _) as [v' | []] eqn:Hfc; try discriminate.
    intros [= <-] _. apply from_config_returns in Hfc.
    destruct Hfc as (a & b & c & d & -> & Htokens). split; [reflexivity | exact Htokens].
  - destruct (from_config imp _ _) as [v' | []] eqn:Hfc; try discriminate.
    intros [= <-] _. apply from_config_returns in Hfc.
    destruct Hfc as (value & Hread & [[-> ->] | (Hpos & Hodd & ->)]);
      (split; [reflexivity | ]); [exact Hread | repeat split; assumption].
Qed.

Lemma parsed_entry_stored (imp : Imports) (config : RawConfig) (out_map : ConfigDict)
    (errors : list string) (command option : string) (default v : Value) :
  _parse_config imp config = Return (out_map, errors) ->
  get2 command option (CONFIG_MAP imp) = Some default ->
  get2 command option out_map = Some v ->
  classify imp config command option default = Return (Stored v).
Proof.
  intros Hparse Hschema Hentry.
  destruct (_parse_config_lookup imp config out_map errors command option default
              Hparse Hschema) as (oc & Hc & Hget & _).
  rewrite Hget in Hentry. destruct oc; try discriminate. congruence.
Qed.

(** X6.  The parser keeps the types of the schema: an entry of the map
    that it returns has the type of the schema default of its option (the
    same enumeration, the same validator class), and is a [str] where the
    default is [None]. *)
Theorem parsed_values_keep_type (imp : Imports) (config : RawConfig)
    (out_map : ConfigDict) (errors : list string) (command option : string)
    (default v : Value) :
  _parse_config imp config = Return (out_map, errors) ->
  get2 command option (CONFIG_MAP imp) = Some default ->
  get2 command option out_map = Some v ->
  same_type default v = true.
Proof.
  intros Hparse Hschema Hentry.
  apply (classify_stored_conforms imp config command option default v).
  - apply (parsed_entry_stored imp config out_map errors); assumption.
  - apply (schema_no_Components imp command option), Hschema.
Qed.

Definition typed_file : RawConfig :=
  [("detect-hash", [("size", "32"); ("threshold", "0.5")]);
   ("detect-content", [("kernel-size", "5"); ("filter-mode", "suppress")]);
   ("global", [("verbosity", "Debug"); ("output", "out")])].

Definition typed_map : ConfigDict :=
  match _parse_config Sample.imports typed_file with
  | Return r => fst r
  | Raise _ => []
  end.

Lemma parsed_values_keep_type_witness :
  same_type (VEnum FlashFilter_Mode "MERGE") (VEnum FlashFilter_Mode "SUPPRESS") = true.
Proof.
  apply (parsed_values_keep_type Sample.imports typed_file typed_map []
           "detect-content" "filter-mode"); reflexivity.
Defined.

(** X7.  What the parser stores for an option is read from the text that
    the file has for it, and meets the constraint of the option.  A boolean
    is what the text names, in any case; an integer and a number are what
    [int] and [float] read; a range value is what [int] or [float] reads,
    after the default's value, has the bounds of the default and is neither
    below the minimum nor above the maximum; a kernel size is [None] for
    [-1] and otherwise the positive odd number that [int] reads; score
    weights are the four numbers of the text; an enumeration member is the
    one named by the text, stripped and in upper case, in the default's
    enumeration; a timecode holds the text as written, which [FrameTimecode]
    accepts; a string is the text with line breaks as spaces, stripped, and
    with a choice list it is, in lower case, one of the choices. *)
Theorem parsed_values_satisfy_schema (imp : Imports) (config : RawConfig)
    (out_map : ConfigDict) (errors : list string) (command option : string)
    (default v : Value) :
  _parse_config imp config = Return (out_map, errors) ->
  get2 command option (CONFIG_MAP imp) = Some default ->
  get2 command option out_map = Some v ->
  satisfies imp command option (ConfigParser.get config command option) default v.
Proof.
  intros Hparse Hschema Hentry.
  apply (classify_stored_conforms imp config command option default v).
  - apply (parsed_entry_stored imp config out_map errors); assumption.
  - apply (schema_no_Components imp command option), Hschema.
Qed.

Definition timed_file : RawConfig :=
  [("detect-hash", [("size", "32")]);
   ("global", [("verbosity", " Debug "); ("min-scene-len", "0:00:01.5")])].

Definition timed_map : ConfigDict :=
  match _parse_config Sample.imports timed_file with
  | Return r => fst r
  | Raise _ => []
  end.

Lemma parsed_values_satisfy_schema_witness :
  satisfies Sample.imports "detect-hash" "size" "32" (irange 16 1 256) (irange 32 1 256)
  /\ satisfies Sample.imports "global" "verbosity" " Debug " (VStr "info") (VStr "Debug")
  /\ satisfies Sample.imports "global" "min-scene-len" "0:00:01.5"
       (VTimecode (VStr "0.6s")) (VTimecode (VStr "0:00:01.5")).
Proof.
  split; [ | split].
  - apply (parsed_values_satisfy_schema Sample.imports timed_file timed_map []
             "detect-hash" "size"); reflexivity.
  - apply (parsed_values_satisfy_schema Sample.imports timed_file timed_map []
             "global" "verbosity"); reflexivity.
  - apply (parsed_values_satisfy_schema Sample.imports timed_file timed_map []
             "global" "min-scene-len"); reflexivity.
Defined.

(** ** When the two passes succeed *)

Lemma flat_map_nil {A B : Type} (f : A -> list B) (l : list A) :
  flat_map f l = [] <-> forall x, In x l -> f x = [].
Proof.
  induction l as [ | a r IH]; simpl.
  - split; [intros _ x [] | reflexivity].
  - split.
    + intros H x [<- | Hx].
      * apply app_eq_nil in H. apply H.
      * apply app_eq_nil in H. apply IH; [apply H | exact Hx].
    + intros H. rewrite (H a (or_introl eq_refl)). simpl.
      apply IH. intros x Hx. apply H. right. exact Hx.
Qed.

Lemma _validate_structure_nil_inv (imp : Imports) (config : ParserData) :
  OnParser._validate_structure imp config = Return [] ->
  forall section,
    In section (RawParser.sections config) ->
    exists schema items,
      dict.get section (CONFIG_MAP imp) = Some schema
      /\ RawParser.items config section = Return items
      /\ forall option_name,
           In option_name (shown_options config section) ->
           dict.has option_name schema = true.
Proof.
  intros Hnil. destruct (readable imp config) eqn:Hreadable.
  - pose proof (validate_sections_readable imp config _ [] Hreadable) as Hlist.
    unfold OnParser._validate_structure in Hnil. rewrite Hlist in Hnil.
    injection Hnil as Hnil. cbn [app] in Hnil.
    intros section Hin.
    pose proof (proj1 (flat_map_nil _ _) Hnil section Hin) as Hsec.
    unfold readable in Hreadable. rewrite forallb_forall in Hreadable.
    specialize (Hreadable section Hin).
    unfold parser_problems in Hsec. unfold dict.has in Hreadable.
    destruct (dict.get section (CONFIG_MAP imp)) as [schema | ]; [ | discriminate].
    cbn [negb orb] in Hreadable.
    destruct (RawParser.items config section) as [its | e]; [ | discriminate].
    exists schema, its. split; [reflexivity | ]. split; [reflexivity | ].
    intros o Ho.
    destruct (dict.has o schema) eqn:E; [reflexivity | ].
    assert (Hu : In o (filter (fun o => negb (dict.has o schema))
                         (shown_options config section))).
    { apply filter_In. split; [exact Ho | ]. rewrite E. reflexivity. }
    destruct (filter (fun o => negb (dict.has o schema)) (shown_options config section));
      [contradiction | discriminate].
  - destruct (_validate_structure_unreadable imp config Hreadable)
      as (section & e & _ & _ & _ & Hraise).
    rewrite Hraise in Hnil. discriminate.
Qed.

(** X3.  The structural validator returns the empty list exactly when
    every section that the parser lists is a section of the schema, the
    values it shows can all be read, and every option it shows, its own or
    one of [[DEFAULT]], is declared for that section. *)
Theorem _validate_structure_passes (imp : Imports) (config : ParserData) :
  OnParser._validate_structure imp config = Return [] <->
  forall section,
    In section (RawParser.sections config) ->
    exists schema items,
      dict.get section (CONFIG_MAP imp) = Some schema
      /\ RawParser.items config section = Return items
      /\ forall option_name,
           (In option_name (dict.keys (_defaults config))
            \/ exists own, dict.get section (_sections config) = Some own
                           /\ In option_name (dict.keys own)) ->
           dict.has option_name schema = true.
Proof.
  split.
  - intros Hnil section Hin.
    destruct (_validate_structure_nil_inv imp config Hnil section Hin)
      as (schema & its & Hs & Hitems & Hdeclared).
    exists schema, its. split; [exact Hs | ]. split; [exact Hitems | ].
    intros o Ho. apply Hdeclared, shown_options_spec, Ho.
  - intros Hall.
    assert (Hreadable : readable imp config = true).
    { unfold readable. apply forallb_forall. intros section Hin.
      destruct (Hall section Hin) as (schema & its & _ & Hitems & _).
      rewrite Hitems. apply orb_true_r. }
    unfold OnParser._validate_structure.
    rewrite (validate_sections_readable imp config _ [] Hreadable). cbn [app].
    f_equal. apply flat_map_nil. intros section Hin.
    destruct (Hall section Hin) as (schema & its & Hs & _ & Hdeclared).
    unfold parser_problems. rewrite Hs.
    destruct (filter (fun o => negb (dict.has o schema)) (shown_options config section))
      as [ | o r] eqn:E; [reflexivity | ].
    assert (Hu : In o (filter (fun o => negb (dict.has o schema))
                         (shown_options config section)))
      by (rewrite E; left; reflexivity).
    apply filter_In in Hu. destruct Hu as [Ho Hneg].
    apply shown_options_spec in Ho. rewrite (Hdeclared o Ho) in Hneg. discriminate.
Qed.

Definition small_parser : ParserData :=
  mkParserData [] [("global", [("verbosity", "debug")]); ("detect-hash", [("size", "32")])].

Lemma _validate_structure_passes_witness :
  OnParser._validate_structure Sample.imports small_parser = Return [].
Proof.
  apply (_validate_structure_passes Sample.imports small_parser).
  intros section [<- | [<- | []]]; eexists; eexists;
    (split; [reflexivity | ]); (split; [reflexivity | ]);
    intros o [[] | (own & Heq & Ho)]; injection Heq as <-;
    destruct Ho as [<- | []]; reflexivity.
Defined.

(** *** The parser and its view *)

Lemma read_sections_total (config : ParserData) (sections : list string) :
  (forall section, In section sections ->
     exists its, RawParser.items config section = Return its) ->
  exists raw, RawParser.read_sections config sections = Return raw.
Proof.
  induction sections as [ | section rest IH]; intros Hall.
  - exists []. reflexivity.
  - destruct (Hall section (or_introl eq_refl)) as [its Hitems].
    destruct IH as [raw Hraw]; [intros s Hs; apply Hall; right; exact Hs | ].
    exists ((section, its) :: raw). cbn [RawParser.read_sections].
    rewrite Hitems, Hraw. reflexivity.
Qed.

(** A file in which the structural validator finds nothing can be read
    whole: every value of it interpolates, so it has a view, the validator
    finds nothing in the view, and the value parser, which runs only then,
    reads the view. *)
Lemma clean_structure_has_view (imp : Imports) (config : ParserData) :
  OnParser._validate_structure imp config = Return [] ->
  exists raw,
    RawParser.view config = Return raw
    /\ ConfigParser.sections raw = RawParser.sections config
    /\ _validate_structure imp raw = [].
Proof.
  intros Hnil.
  destruct (read_sections_total config (RawParser.sections config)) as [raw Hraw].
  { intros section Hin.
    destruct (_validate_structure_nil_inv imp config Hnil section Hin)
      as (_ & its & _ & Hitems & _).
    exists its. exact Hitems. }
  exists raw. split; [exact Hraw | ].
  split; [apply (read_sections_get _ _ _ Hraw) | ].
  pose proof (_validate_structure_on_view imp config raw Hraw) as Hview.
  rewrite Hnil in Hview. injection Hview as <-. reflexivity.
Qed.

Lemma interpolate_all_get (map entries texts : Dict string) (k : string) :
  RawParser.interpolate_all map entries = Return texts ->
  match dict.get k entries with
  | Some value =>
      exists text, RawParser.before_get map value = Return text
                   /\ dict.get k texts = Some text
  | None => dict.get k texts = None
  end.
Proof.
  revert texts. induction entries as [ | [o v] rest IH]; intros texts; simpl.
  - intros [= <-]. reflexivity.
  - destruct (RawParser.before_get map v) as [text | e] eqn:Hv; simpl; [ | discriminate].
    destruct (RawParser.interpolate_all map rest) as [texts' | e]; simpl; [ | discriminate].
    intros [= <-]. simpl. destruct (String.eqb k o).
    + exists text. split; [exact Hv | reflexivity].
    + apply IH. reflexivity.
Qed.

(** The reads of the value parser, [option in config[command]] and
    [config.get(command, option)], answer on the view as they do on the
    parser, for a section of the file and an option name in lower case, as
    the names of the schema are. *)
Lemma view_get (config : ParserData) (raw : RawConfig) (command option : string) :
  RawParser.view config = Return raw ->
  In command (RawParser.sections config) ->
  PyStr.lower option = option ->
  dict.has command raw = RawParser.has_section config command
  /\ ConfigParser.has_option raw command option
     = RawParser.has_option config command option
  /\ (RawParser.has_option config command option = true ->
      RawParser.get config command option
      = Return (ConfigParser.get raw command option)).
Proof.
  intros Hview Hin Hlower.
  destruct (read_sections_get _ _ _ Hview) as [_ Hget].
  destruct (Hget command Hin) as (its & Hitems & Hraw).
  unfold RawParser.items in Hitems.
  unfold ConfigParser.has_option, ConfigParser.get, RawParser.has_option, RawParser.get,
    has2, get2, dict.has.
  rewrite Hraw, Hlower.
  destruct (RawParser.has_section config command); [ | discriminate].
  pose proof (interpolate_all_get _ _ _ option Hitems) as Hoption.
  destruct (dict.get option (RawParser.unify_values config command)) as [value | ].
  - destruct Hoption as (text & Hvalue & Htext). rewrite Htext, Hvalue.
    split; [reflexivity | ]. split; reflexivity.
  - rewrite Hoption. split; [reflexivity | ]. split; [reflexivity | discriminate].
Qed.

Lemma classify_options_raise_inv (imp : Imports) (config : RawConfig) (command : string)
    (schema : Dict Value) (e : Exn) :
  classify_options imp config command schema = Raise e ->
  exists option default,
    In (option, default) schema
    /\ classify imp config command option default = Raise e.
Proof.
  induction schema as [ | [o d] r IH]; [discriminate | ].
  cbn [classify_options].
  destruct (classify imp config command o d) as [oc | e0] eqn:Hoc; cbn [bind].
  - destruct (classify_options imp config command r) as [r' | e'];
      cbn [bind]; [discriminate | ].
    intros [= <-]. destruct (IH eq_refl) as (o' & d' & Hin & Hc).
    exists o', d'. split; [right; exact Hin | exact Hc].
  - intros [= <-]. exists o, d. split; [left; reflexivity | exact Hoc].
Qed.

Lemma classify_commands_raise_inv (imp : Imports) (config : RawConfig)
    (schema : ConfigDict) (e : Exn) :
  classify_commands imp config schema = Raise e ->
  exists command options option default,
    In (command, options) schema /\ In (option, default) options
    /\ classify imp config command option default = Raise e.
Proof.
  induction schema as [ | [c opts] rest IH]; [discriminate | ].
  cbn [classify_commands].
  destruct (classify_options imp config c opts) as [r1 | e1] eqn:H1; cbn [bind].
  - destruct (classify_commands imp config rest) as [r2 | e2]; cbn [bind]; [discriminate | ].
    intros [= <-]. destruct (IH eq_refl) as (c' & opts' & o & d & Hsec & Hopt & Hc).
    exists c', opts', o, d. split; [right; exact Hsec | split; assumption].
  - intros [= <-].
    destruct (classify_options_raise_inv imp config c opts e1 H1) as (o & d & Hin & Hc).
    exists c, opts, o, d. split; [left; reflexivity | split; assumption].
Qed.

(** ** Options of the builtin types *)

Definition true_literals : list string := ["1"; "yes"; "true"; "on"].
Definition false_literals : list string := ["0"; "no"; "false"; "off"].

(** X8.  For an option with a boolean default that the file sets, the loop
    body looks at the text in lower case only: one of [1 yes true on] stores
    [True], one of [0 no false off] stores [False], and any other text adds
    the single error "... is not a valid yes/no value." and stores nothing. *)
Theorem boolean_option (imp : Imports) (config : RawConfig) (command option : string)
    (d : bool) (st : ParseState) :
  file_sets config command option = true ->
  parse_option imp config command option (VBool d) st
  = Return
      (let text := PyStr.lower (ConfigParser.get config command option) in
       if PyStr.mem text true_literals then store command option (VBool true) st
       else if PyStr.mem text false_literals then store command option (VBool false) st
       else append_error
              ("Invalid [" ++ command ++ "] value for " ++ option ++ ": "
                 ++ ConfigParser.get config command option
                 ++ " is not a valid yes/no value.") st).
Proof.
  intros Hset. rewrite parse_option_classify. unfold classify.
  fold (file_sets config command option). rewrite Hset.
  unfold PyStr.mem, true_literals, false_literals, ConfigParser.BOOLEAN_STATES.
  cbn [dict.get existsb bind].
  repeat match goal with
         | |- context [String.eqb ?a ?b] => destruct (String.eqb a b)
         end; reflexivity.
Qed.

Definition flag_file : RawConfig :=
  [("global", [("drop-short-scenes", "YES"); ("merge-last-scene", "maybe")])].

Lemma boolean_option_witness :
  parse_option Sample.imports flag_file "global" "drop-short-scenes" (VBool false)
    (fresh_state "global")
  = Return ([("global", [("drop-short-scenes", VBool true)])], [])
  /\ parse_option Sample.imports flag_file "global" "merge-last-scene" (VBool false)
       (fresh_state "global")
     = Return ([("global", [])],
               ["Invalid [global] value for merge-last-scene: maybe is not a valid yes/no value."]).
Proof.
  split.
  - apply (boolean_option Sample.imports flag_file "global" "drop-short-scenes" false
             (fresh_state "global")). reflexivity.
  - apply (boolean_option Sample.imports flag_file "global" "merge-last-scene" false
             (fresh_state "global")). reflexivity.
Defined.

Definition is_text_default (default : Value) : bool :=
  match default with VStr _ | VNone => true | _ => false end.

(** X9.  For an option whose default is a string or [None] and that the
    file sets, the loop body stores the text, line breaks turned into spaces
    and stripped, in the case it was written in; it rejects the text only
    when [CHOICE_MAP] has a list under the very names of the section and the
    option and the text in lower case is not in it.  The list of threading
    modes is stored under [threading_mode], which is no option of the
    schema, so every text is accepted for [threading-mode]. *)
Theorem text_option (imp : Imports) (config : RawConfig) (command option : string)
    (default : Value) (st : ParseState) :
  is_text_default default = true ->
  file_sets config command option = true ->
  parse_option imp config command option default st
  = Return
      (let config_value := normalized config command option in
       match get2 command option (CHOICE_MAP imp) with
       | Some choices =>
           if PyStr.mem (PyStr.lower config_value) choices
           then store command option (VStr config_value) st
           else append_error (must_be_one_of config command option choices) st
       | None => store command option (VStr config_value) st
       end)
  /\ get2 "backend-pyav" "threading-mode" (CHOICE_MAP imp) = None
  /\ has2 "backend-pyav" "threading_mode" (CONFIG_MAP imp) = false
  /\ (command = "backend-pyav" -> option = "threading-mode" ->
      parse_option imp config command option default st
      = Return (store command option (VStr (normalized config command option)) st)).
Proof.
  intros Htext Hset.
  assert (Hgen : parse_option imp config command option default st
    = Return
        (let config_value := normalized config command option in
         match get2 command option (CHOICE_MAP imp) with
         | Some choices =>
             if PyStr.mem (PyStr.lower config_value) choices
             then store command option (VStr config_value) st
             else append_error (must_be_one_of config command option choices) st
         | None => store command option (VStr config_value) st
         end)).
  { rewrite parse_option_classify. unfold classify.
    fold (file_sets config command option). rewrite Hset.
    destruct default; try discriminate Htext; cbn zeta;
      (destruct (get2 command option (CHOICE_MAP imp)) as [choices | ];
       [destruct (PyStr.mem _ choices) | ]; reflexivity). }
  split; [exact Hgen | ]. split; [reflexivity | ]. split; [reflexivity | ].
  intros -> ->. rewrite Hgen. reflexivity.
Qed.

Definition threading_file : RawConfig :=
  [("backend-pyav", [("threading-mode", "Turbo")])].

Lemma text_option_witness :
  parse_option Sample.imports threading_file "backend-pyav" "threading-mode" (VStr "auto")
    (fresh_state "backend-pyav")
  = Return ([("backend-pyav", [("threading-mode", VStr "Turbo")])], []).
Proof.
  apply (text_option Sample.imports threading_file "backend-pyav" "threading-mode"
           (VStr "auto") (fresh_state "backend-pyav")); reflexivity.
Defined.

(** ** The registry after a load *)

(** X10.  After a successful load of a file, an option of the schema is at
    its default exactly when the file does not set it, and [get_value]
    without an override then answers with the schema default; when the file
    sets it, [get_value] answers with the value that the loop body stores
    for it, a validator being replaced by its payload. *)
Theorem is_default_after_load (imp : Imports) (world : World)
    (path : Datatypes.option string) (throw_exception : bool)
    (self1 : ConfigRegistry) (p : string) (config : RawConfig) (self : ConfigRegistry)
    (command option : string) (default : Value) :
  ConfigRegistry.locate imp world path (mkRegistry [] [] false)
  = (self1, Return (Some p)) ->
  read_config world p = Parsed config ->
  ConfigRegistry.__init__ imp world path throw_exception = Return self ->
  ConfigRegistry.initialized self = true ->
  get2 command option (CONFIG_MAP imp) = Some default ->
  ConfigRegistry.is_default self command option = negb (file_sets config command option)
  /\ (file_sets config command option = false ->
      ConfigRegistry.get_value imp self command option VNone = Return (unwrap default))
  /\ (file_sets config command option = true ->
      exists v,
        stores imp config command option default v
        /\ ConfigRegistry.get_value imp self command option VNone = Return (unwrap v)).
Proof.
  intros Hlocate Hread Hinit Hflag Hschema.
  destruct (init_success_inv imp world path throw_exception self1 p config self
              Hlocate Hread Hinit Hflag) as [_ Hparse].
  destruct (_parse_config_lookup imp config _ [] command option default Hparse Hschema)
    as (oc & Hc & Hget & Herr).
  pose proof (classify_stored_set imp config command option default oc Hc) as Hset.
  assert (Hhas : has2 command option (CONFIG_MAP imp) = true)
    by (apply has2_get2; exists default; exact Hschema).
  unfold ConfigRegistry.config_dict in Hget.
  unfold ConfigRegistry.is_default, ConfigRegistry.get_value.
  rewrite Hhas, Hset. cbn [negb].
  destruct oc as [ | v | msg].
  - apply has2_false_get2 in Hget as Hnone. rewrite Hnone, Hget, Hschema.
    split; [reflexivity | ]. split; [ | discriminate].
    intros _. unfold unwrap. destruct (is_ValidatedValue default); reflexivity.
  - assert (Hsome : has2 command option (_config self) = true)
      by (apply has2_get2; exists v; exact Hget).
    rewrite Hsome, Hget. split; [reflexivity | ]. split; [discriminate | ].
    intros _. exists v. split; [apply stores_iff; exact Hc | ].
    unfold unwrap. destruct (is_ValidatedValue v); reflexivity.
  - exfalso. apply (Herr msg eq_refl).
Qed.

Lemma is_default_after_load_witness :
  ConfigRegistry.is_default small_registry "detect-hash" "size" = false
  /\ ConfigRegistry.is_default small_registry "detect-hash" "lowpass" = true
  /\ ConfigRegistry.get_value Sample.imports small_registry "detect-hash" "lowpass" VNone
     = Return (VInt 2).
Proof.
  destruct (is_default_after_load Sample.imports small_disk (Some "small.cfg") true
              (mkRegistry []
                 [(logging.INFO, "Loading config from file:" ++ PyStr.nl ++ "  small.cfg")]
                 false)
              "small.cfg" small_file small_registry "detect-hash" "lowpass" (irange 2 1 256)
              eq_refl eq_refl eq_refl eq_refl eq_refl) as (Hdefault & Hvalue & _).
  split; [reflexivity | ]. split; [exact Hdefault | ].
  apply Hvalue. reflexivity.
Defined.

(** The map with every section of the schema and no option. *)
Definition empty_sections (imp : Imports) : ConfigDict :=
  map (fun sec => (fst sec, [])) (CONFIG_MAP imp).

Lemma classify_commands_nothing_set (imp : Imports) (config : RawConfig)
    (schema : ConfigDict) :
  (forall command options option default,
      In (command, options) schema -> In (option, default) options ->
      file_sets config command option = false) ->
  classify_commands imp config schema
  = Return (map (fun sec => (fst sec, [])) schema, []).
Proof.
  induction schema as [ | [command options] rest IH]; intros Hnone; [reflexivity | ].
  cbn [classify_commands].
  assert (H1 : classify_options imp config command options = Return ([], [])).
  { assert (Hopts : forall o d, In (o, d) options -> file_sets config command o = false).
    { intros o d Hin. apply (Hnone command options o d); [left; reflexivity | exact Hin]. }
    clear - Hopts. induction options as [ | [o d] r IHr]; [reflexivity | ].
    cbn [classify_options].
    rewrite (classify_absent imp config command o d (Hopts o d (or_introl eq_refl))).
    cbn [bind]. rewrite IHr; [reflexivity | ].
    intros o' d' Hin. apply (Hopts o' d'). right. exact Hin. }
  rewrite H1, IH; [reflexivity | ].
  intros c opts o d Hsec Hopt. apply (Hnone c opts o d); [right; exact Hsec | exact Hopt].
Qed.

(** X15.  A file that passes the structural check and sets no option of
    the schema (an empty file, or one with section headers only) loads
    successfully: the registry is initialized, its log is the "Loading ..."
    entry alone, and [config_dict], unlike after a load without any file, has
    every section of the schema, each with no option. *)
Theorem empty_file_loads (imp : Imports) (world : World)
    (path : Datatypes.option string) (throw_exception : bool)
    (self1 : ConfigRegistry) (p : string) (config : RawConfig) :
  ConfigRegistry.locate imp world path (mkRegistry [] [] false)
  = (self1, Return (Some p)) ->
  read_config world p = Parsed config ->
  _validate_structure imp config = [] ->
  (forall command option,
      has2 command option (CONFIG_MAP imp) = true ->
      file_sets config command option = false) ->
  ConfigRegistry.__init__ imp world path throw_exception
  = Return (mkRegistry (empty_sections imp) (_init_log self1) true)
  /\ length (empty_sections imp) = 14%nat
  /\ forall command option,
       ConfigRegistry.is_default (mkRegistry (empty_sections imp) (_init_log self1) true)
         command option = true.
Proof.
  intros Hlocate Hread Hstruct Hnone.
  assert (Hparse : _parse_config imp config = Return (empty_sections imp, [])).
  { rewrite _parse_config_spec. apply classify_commands_nothing_set.
    intros command options option default Hsec Hopt. apply Hnone.
    apply has2_get2. exists default. apply (schema_In_get2 imp _ _ options); assumption. }
  destruct (locate_file imp world path self1 p Hlocate) as (Hconfig & Hinit & _).
  split; [ | split; [reflexivity | ]].
  - unfold ConfigRegistry.__init__.
    rewrite (_load_from_disk_file imp world path self1 p config Hlocate Hread).
    rewrite (validate_parsed imp config self1 _ [] Hstruct Hparse).
    unfold ConfigRegistry.set_initialized, ConfigRegistry.set_config. reflexivity.
  - intros command option. unfold ConfigRegistry.is_default. cbn [_config].
    apply negb_true_iff. unfold has2, empty_sections.
    destruct (dict.get command _) as [sec | ] eqn:E; [ | reflexivity].
    apply dict_get_In in E. apply in_map_iff in E.
    destruct E as (s & [= _ <-] & _). reflexivity.
Qed.

Definition headers_only_file : RawConfig := [("global", []); ("detect-hash", [])].

Lemma empty_file_loads_witness :
  ConfigRegistry.__init__ Sample.imports (Sample.disk [("e.cfg", headers_only_file)])
    (Some "e.cfg") true
  = Return (mkRegistry (empty_sections Sample.imports)
              [(logging.INFO, "Loading config from file:" ++ PyStr.nl ++ "  e.cfg")] true).
Proof.
  apply (empty_file_loads Sample.imports (Sample.disk [("e.cfg", headers_only_file)])
           (Some "e.cfg") true
           (mkRegistry []
              [(logging.INFO, "Loading config from file:" ++ PyStr.nl ++ "  e.cfg")] false)
           "e.cfg" headers_only_file eq_refl eq_refl eq_refl).
  intros command option _. unfold file_sets.
  assert (H : ConfigParser.has_option headers_only_file command option = false).
  { unfold ConfigParser.has_option, has2, headers_only_file. simpl.
    destruct (String.eqb command "global"); [reflexivity | ].
    destruct (String.eqb command "detect-hash"); reflexivity. }
  rewrite H. apply andb_false_r.
Defined.

(** ** Failures of the load *)

Definition loading_entry (path : string) : LogEntry :=
  (logging.INFO, "Loading config from file:" ++ PyStr.nl ++ "  " ++ path).

(** X11.  An explicit path that does not exist fails the load with the two
    entries "Loading ..." and "File not found: ..." and no reason; the file
    is not read and the user config file is not tried instead.  With
    [throw_exception] false the registry is left uninitialized and empty. *)
Theorem explicit_path_missing (imp : Imports) (world : World) (path : string) :
  path <> "" ->
  os_path_exists world path = false ->
  let log := [loading_entry path; (logging.ERROR, "File not found: " ++ path)] in
  ConfigRegistry.__init__ imp world (Some path) true = Raise (ConfigLoadFailure log None)
  /\ ConfigRegistry.__init__ imp world (Some path) false
     = Return (mkRegistry [] log false).
Proof.
  intros Hne Hmissing log.
  assert (Hgiven : ConfigRegistry.given (Some path) = Some path)
    by (destruct path; [congruence | reflexivity]).
  unfold ConfigRegistry.__init__, ConfigRegistry._load_from_disk, ConfigRegistry.locate.
  rewrite Hgiven, Hmissing. split; reflexivity.
Qed.

Lemma explicit_path_missing_witness :
  ConfigRegistry.__init__ Sample.imports small_disk (Some "other.cfg") false
  = Return (mkRegistry []
              [loading_entry "other.cfg"; (logging.ERROR, "File not found: other.cfg")]
              false).
Proof.
  apply (explicit_path_missing Sample.imports small_disk "other.cfg");
    [discriminate | reflexivity].
Defined.

(** The exception of [open], [read] or [read_string], if there is one. *)
Definition read_failure (r : ReadResult) : Datatypes.option string :=
  match r with
  | ParsingError ex | OSError ex => Some ex
  | Parsed _ => None
  end.

(** X12.  When the file cannot be opened, read or tokenized, the load
    fails with the log so far and the exception as its reason, and neither
    pass runs.  With [throw_exception] false the constructor adds one error
    entry, "Error: " followed by the text of the reason with each tab
    replaced by two spaces, and leaves the registry uninitialized and
    empty. *)
Theorem unreadable_file (imp : Imports) (world : World)
    (path : Datatypes.option string) (self1 : ConfigRegistry) (p ex : string) :
  ConfigRegistry.locate imp world path (mkRegistry [] [] false)
  = (self1, Return (Some p)) ->
  read_failure (read_config world p) = Some ex ->
  ConfigRegistry.__init__ imp world path true
  = Raise (ConfigLoadFailure (_init_log self1) (Some ex))
  /\ ConfigRegistry.__init__ imp world path false
     = Return (mkRegistry []
                 (list_append
                    (logging.ERROR, "Error: " ++ PyStr.replace_char PyStr.tab "  " ex)
                    (_init_log self1))
                 false).
Proof.
  intros Hlocate Hread.
  destruct (locate_file imp world path self1 p Hlocate) as (Hconfig & _ & _).
  unfold ConfigRegistry.__init__, ConfigRegistry._load_from_disk. rewrite Hlocate.
  destruct (read_config world p) as [ex' | ex' | config]; try discriminate Hread;
    injection Hread as ->; (split; [reflexivity | ]);
    unfold ConfigRegistry.set_initialized, ConfigRegistry._log,
      ConfigRegistry.set_init_log, list_append; cbn [_config _init_log];
    rewrite Hconfig; reflexivity.
Qed.

Definition broken_disk : World :=
  {| os_path_exists := fun _ => true;
     read_config := fun _ =>
       ParsingError ("Source contains parsing errors: 'x.cfg'" ++ PyStr.nl
                       ++ String PyStr.tab "[line  2]: 'oops'") |}.

Lemma unreadable_file_witness :
  ConfigRegistry.__init__ Sample.imports broken_disk (Some "x.cfg") false
  = Return (mkRegistry []
              [loading_entry "x.cfg";
               (logging.ERROR,
                "Error: Source contains parsing errors: 'x.cfg'" ++ PyStr.nl
                  ++ "  [line  2]: 'oops'")]
              false).
Proof.
  apply (unreadable_file Sample.imports broken_disk (Some "x.cfg")
           (mkRegistry [] [loading_entry "x.cfg"] false) "x.cfg"
           ("Source contains parsing errors: 'x.cfg'" ++ PyStr.nl
              ++ String PyStr.tab "[line  2]: 'oops'"));
    reflexivity.
Defined.

(** ** The flag and the log *)

(** The log has an entry at error level. *)
Definition has_error (log : list LogEntry) : bool :=
  existsb (fun entry => fst entry =? logging.ERROR) log.

Lemma has_error_app (l1 l2 : list LogEntry) :
  has_error (l1 ++ l2) = has_error l1 || has_error l2.
Proof. unfold has_error. apply existsb_app. Qed.

Lemma has_error_entries (errors : list string) :
  errors <> [] -> has_error (error_entries errors) = true.
Proof. destruct errors as [ | e r]; [congruence | reflexivity]. Qed.

Lemma _parse_config_raises_KeyError (imp : Imports) (config : RawConfig) (e : Exn) :
  _parse_config imp config = Raise e -> exists key, e = KeyError key.
Proof.
  rewrite _parse_config_spec. intros He.
  destruct (classify_commands_raise_inv imp config (CONFIG_MAP imp) e He)
    as (c & opts & o & d & _ & _ & Hc).
  destruct (classify_raises imp config c o d e Hc) as (_ & _ & _ & _ & _ & ->).
  eexists. reflexivity.
Qed.

(** X13.  Whenever the constructor returns a registry, the registry is
    initialized exactly when its log has no entry at error level. *)
Theorem initialized_iff_no_error (imp : Imports) (world : World)
    (path : Datatypes.option string) (throw_exception : bool) (self : ConfigRegistry) :
  ConfigRegistry.__init__ imp world path throw_exception = Return self ->
  ConfigRegistry.initialized self = negb (has_error (_init_log self)).
Proof.
  unfold ConfigRegistry.__init__, ConfigRegistry._load_from_disk.
  destruct (ConfigRegistry.locate imp world path (mkRegistry [] [] false))
    as [self1 [[p | ] | e]] eqn:Hlocate.
  - destruct (locate_file imp world path self1 p Hlocate) as (Hc & Hi & msg & Hlog).
    destruct (read_config world p) as [ex | ex | config].
    + destruct throw_exception; [discriminate | ]. intros [= <-].
      unfold ConfigRegistry.initialized, ConfigRegistry.set_initialized,
        ConfigRegistry._log, ConfigRegistry.set_init_log, list_append.
      cbn [_initialized _init_log]. rewrite has_error_app, orb_true_r. reflexivity.
    + destruct throw_exception; [discriminate | ]. intros [= <-].
      unfold ConfigRegistry.initialized, ConfigRegistry.set_initialized,
        ConfigRegistry._log, ConfigRegistry.set_init_log, list_append.
      cbn [_initialized _init_log]. rewrite has_error_app, orb_true_r. reflexivity.
    + destruct (_validate_structure imp config) as [ | e0 rest] eqn:Hstruct.
      * destruct (_parse_config imp config) as [[out_map errors] | e] eqn:Hparse.
        -- rewrite (validate_parsed imp config self1 out_map errors Hstruct Hparse).
           destruct errors as [ | e1 rest].
           ++ intros [= <-]. cbn. rewrite Hlog. reflexivity.
           ++ destruct throw_exception; [discriminate | ]. intros [= <-].
              rewrite log_errors_spec.
              unfold ConfigRegistry.initialized, ConfigRegistry.set_initialized,
                ConfigRegistry.set_init_log, ConfigRegistry.set_config.
              cbn [_initialized _init_log].
              unfold ConfigRegistry._log, list_append. cbn [_init_log].
              rewrite !has_error_app.
              replace (has_error [(logging.ERROR, e1)]) with true by reflexivity.
              rewrite orb_true_r. reflexivity.
        -- rewrite (validate_escapes imp config self1 e Hstruct Hparse).
           destruct (_parse_config_raises_KeyError imp config e Hparse) as [key ->].
           discriminate.
      * rewrite validate_structural by (rewrite Hstruct; discriminate).
        destruct throw_exception; [discriminate | ]. intros [= <-].
        rewrite log_errors_spec.
        unfold ConfigRegistry.initialized, ConfigRegistry.set_initialized,
          ConfigRegistry.set_init_log.
        cbn [_initialized _init_log].
        rewrite has_error_app, (has_error_entries (_validate_structure imp config)),
          orb_true_r; [reflexivity | rewrite Hstruct; discriminate].
  - intros [= <-]. revert Hlocate. unfold ConfigRegistry.locate.
    destruct (ConfigRegistry.given path) as [q | ].
    + destruct (os_path_exists world q); discriminate.
    + destruct (os_path_exists world (CONFIG_FILE_PATH imp)); [discriminate | ].
      intros [= <-]. reflexivity.
  - revert Hlocate. unfold ConfigRegistry.locate.
    destruct (ConfigRegistry.given path) as [q | ].
    + destruct (os_path_exists world q); [discriminate | ].
      intros [= <- <-]. destruct throw_exception; [discriminate | ].
      intros [= <-]. reflexivity.
    + destruct (os_path_exists world (CONFIG_FILE_PATH imp)); discriminate.
Qed.

Lemma initialized_iff_no_error_witness :
  ConfigRegistry.initialized small_registry = negb (has_error (_init_log small_registry)).
Proof.
  apply (initialized_iff_no_error Sample.imports small_disk (Some "small.cfg") true).
  reflexivity.
Defined.

(** ** Strict and lenient construction *)

(** The entry that the constructor adds for the reason of a failure. *)
Definition reason_entries (reason : Datatypes.option string) : list LogEntry :=
  match reason with
  | Some reason =>
      [(logging.ERROR, "Error: " ++ PyStr.replace_char PyStr.tab "  " reason)]
  | None => []
  end.

(** X14.  [throw_exception] matters only when the load fails.  The strict
    constructor returns a registry exactly when the lenient one returns an
    initialized registry, and it is the same registry.  When the lenient one
    returns an uninitialized registry, the strict one raises
    [ConfigLoadFailure], and the log of the registry is the log of the
    exception followed by the entry for its reason, if it has one.  The
    lenient constructor never raises [ConfigLoadFailure]; any other exception
    leaves both alike. *)
Theorem strict_and_lenient (imp : Imports) (world : World)
    (path : Datatypes.option string) :
  (forall self,
      ConfigRegistry.__init__ imp world path true = Return self <->
      ConfigRegistry.__init__ imp world path false = Return self
      /\ ConfigRegistry.initialized self = true)
  /\ (forall self,
      ConfigRegistry.__init__ imp world path false = Return self ->
      ConfigRegistry.initialized self = false ->
      exists init_log reason,
        ConfigRegistry.__init__ imp world path true
        = Raise (ConfigLoadFailure init_log reason)
        /\ _init_log self = (init_log ++ reason_entries reason)%list)
  /\ (forall e,
      ConfigRegistry.__init__ imp world path false = Raise e ->
      is_ConfigLoadFailure e = false
      /\ ConfigRegistry.__init__ imp world path true = Raise e).
Proof.
  unfold ConfigRegistry.__init__.
  destruct (ConfigRegistry._load_from_disk imp world path (mkRegistry [] [] false))
    as [s [u | e]].
  - split; [ | split].
    + intros self. split.
      * intros [= <-]. split; reflexivity.
      * intros [H _]. exact H.
    + intros self [= <-] H. discriminate H.
    + intros e H. discriminate H.
  - destruct e as [ | | key | | | error | init_log reason | | reference | | section | opt];
      try (split; [ | split];
           [ intros self; split; [discriminate | intros [H _]; discriminate H]
           | intros self H; discriminate H
           | intros e [= <-]; split; reflexivity ]).
    split; [ | split].
    + intros self. split; [discriminate | ].
      intros [[= <-] H]. destruct reason; discriminate H.
    + intros self [= <-] _. exists init_log, reason. split; [reflexivity | ].
      destruct reason; [reflexivity | ]. simpl. rewrite app_nil_r. reflexivity.
    + intros e H. discriminate H.
Qed.

Lemma strict_and_lenient_witness :
  exists init_log reason,
    ConfigRegistry.__init__ Sample.imports bogus_disk (Some "bogus.cfg") true
    = Raise (ConfigLoadFailure init_log reason)
    /\ [loading_entry "bogus.cfg";
        (logging.ERROR, "Unsupported config section: [bogus]");
        (logging.ERROR, "Unsupported config option in [global]: colour")]
       = (init_log ++ reason_entries reason)%list.
Proof.
  destruct (strict_and_lenient Sample.imports bogus_disk (Some "bogus.cfg"))
    as (_ & Hfail & _).
  apply (Hfail (mkRegistry []
                  [loading_entry "bogus.cfg";
                   (logging.ERROR, "Unsupported config section: [bogus]");
                   (logging.ERROR, "Unsupported config option in [global]: colour")]
                  false)); reflexivity.
Defined.

(* ===================================================================== *)
(** ** Help strings *)
(* ===================================================================== *)

(** [ConfigRegistry.get_help_string] and the [__str__] methods it reaches.
    Two builtins are left open: [str()] of an object that is not one of the
    validators, and the conversion ["%.3f" % f] of a float. *)
Module Rendering.

Section Builtins.

Variable py_str : Value -> string.
Variable format_3f : PyFloat -> string.

(** [TimecodeValue.__str__] and [RangeValue.__str__]: [str(self.value)]. *)
Definition TimecodeValue__str__ (self : Value) : string := py_str (dot_value self).

Definition RangeValue__str__ (self : Value) : string := py_str (dot_value self).

(** [ScoreWeightsValue.__str__]: ["%.3f, %.3f, %.3f, %.3f" % self.value]. *)
Definition ScoreWeightsValue__str__ (c : Components) : string :=
  format_3f (delta_hue c) ++ ", " ++ format_3f (delta_sat c) ++ ", "
    ++ format_3f (delta_lum c) ++ ", " ++ format_3f (delta_edges c).

Definition KernelSizeValue__str__ (self : Value) : string :=
  match dot_value self with
  | VNone => "auto"
  | value => py_str value
  end.

(** [str(v)]. *)
Definition str (v : Value) : string :=
  match v with
  | VTimecode _ => TimecodeValue__str__ v
  | VRange _ _ _ => RangeValue__str__ v
  | VScoreWeights c => ScoreWeightsValue__str__ c
  | VKernelSize _ => KernelSizeValue__str__ v
  | _ => py_str v
  end.

(** The truth value of an object.  A member of the enumerations and an
    instance of the validators are true, as objects without [__bool__]
    and [__len__] are. *)
Definition truth (v : Value) : bool :=
  match v with
  | VNone => false
  | VBool b => b
  | VInt z => negb (z =? 0)
  | VFloat (FFin q) => negb (Qeq_bool q 0)
  | VStr s => negb (String.eqb s "")
  | _ => true
  end.

(** [isinstance(v, bool)]. *)
Definition is_bool (v : Value) : bool :=
  match v with VBool _ => true | _ => false end.

(** [v is False]. *)
Definition is_False (v : Value) : bool :=
  match v with VBool false => true | _ => false end.

(** [show_default] is [None], [Some true] or [Some false]. *)
Definition hidden (show_default : Datatypes.option bool) (default : Value) : bool :=
  match show_default with
  | Some b => negb b
  | None => is_bool default && is_False default
  end.

Definition get_help_string (imp : Imports) (self : ConfigRegistry)
    (command option : string) (show_default : Datatypes.option bool) : Res string :=
  match get2 command option (CONFIG_MAP imp) with
  | None => Raise AssertionError
  | Some default =>
      let is_flag := is_bool default in
      match get2 command option (_config self) with
      | Some v =>
          let value_str :=
            if is_flag then (if truth v then "on" else "off") else str v in
          Return (" [setting: " ++ value_str ++ "]")
      | None =>
          if hidden show_default default then Return ""
          else Return (" [default: " ++ str default ++ "]")
      end
  end.

End Builtins.

End Rendering.

(** X16.  For an option of the schema that is set, the help string is
    [" [setting: ...]"] whatever [show_default] is: [on] for a flag set to
    [True] and [off] for one set to [False], and for any other option the
    text of the value, which for a validator is the text of what it holds,
    three decimals for each score weight and [auto] for a kernel size of
    [None].  For an option that is not set it is empty when [show_default]
    is [False], and when [show_default] is not given and the default is the
    flag value [False]; otherwise it is [" [default: ...]"] with the text of
    the default. *)
Theorem get_help_string_cases (py_str : Value -> string) (format_3f : PyFloat -> string)
    (imp : Imports) (self : ConfigRegistry) (command option : string)
    (default : Value) (show_default : Datatypes.option bool) :
  let text := fun v =>
    match v with
    | VTimecode value => py_str value
    | VRange (NInt value) _ _ => py_str (VInt value)
    | VRange (NFloat value) _ _ => py_str (VFloat value)
    | VScoreWeights (mkComponents hue sat lum edges) =>
        format_3f hue ++ ", " ++ format_3f sat ++ ", "
          ++ format_3f lum ++ ", " ++ format_3f edges
    | VKernelSize None => "auto"
    | VKernelSize (Some size) => py_str (VInt size)
    | other => py_str other
    end in
  let help :=
    Rendering.get_help_string py_str format_3f imp self command option show_default in
  get2 command option (CONFIG_MAP imp) = Some default ->
  (forall v,
      get2 command option (_config self) = Some v ->
      (forall flag, default = VBool flag ->
         (v = VBool true -> help = Return " [setting: on]")
         /\ (v = VBool false -> help = Return " [setting: off]"))
      /\ ((forall flag, default <> VBool flag) ->
          help = Return (" [setting: " ++ text v ++ "]")))
  /\ (get2 command option (_config self) = None ->
      (show_default = Some false -> help = Return "")
      /\ (show_default = None -> default = VBool false -> help = Return "")
      /\ (show_default = Some true ->
          help = Return (" [default: " ++ text default ++ "]"))
      /\ (show_default = None -> default <> VBool false ->
          help = Return (" [default: " ++ text default ++ "]")))
  /\ (help = Return "" <->
      get2 command option (_config self) = None
      /\ (show_default = Some false \/ show_default = None /\ default = VBool false)).
Proof.
  intros text help Hschema. subst help. unfold Rendering.get_help_string.
  rewrite Hschema.
  assert (Htext : forall v, Rendering.str py_str format_3f v = text v).
  { intros v. destruct v as [ | | | | | | | | [ | ] | [ ] | [ | ]]; reflexivity. }
  split; [ | split].
  - intros v ->. split.
    + intros flag ->. split; intros ->; reflexivity.
    + intros Hflag. rewrite Htext.
      destruct default; try reflexivity. exfalso. apply (Hflag b). reflexivity.
  - intros ->. rewrite Htext. split; [intros ->; reflexivity | ].
    split; [intros -> ->; reflexivity | ].
    split; [intros ->; reflexivity | ].
    intros -> Hdefault. destruct default as [ | [ | ] | | | | | | | | | ]; try reflexivity.
    exfalso. apply Hdefault. reflexivity.
  - destruct (get2 command option (_config self)) as [v | ].
    + split; [ | intros [H _]; discriminate H].
      destruct (Rendering.is_bool default); [destruct (Rendering.truth v) | ]; discriminate.
    + destruct show_default as [[ | ] | ]; cbn [Rendering.hidden negb].
      * split; [discriminate | intros [_ [H | [H _]]]; discriminate H].
      * split; [intros _; split; [reflexivity | left; reflexivity] | reflexivity].
      * destruct (Rendering.is_bool default && Rendering.is_False default) eqn:Hhide.
        -- assert (Hdefault : default = VBool false)
             by (destruct default as [ | [ | ] | | | | | | | | | ];
                 try discriminate Hhide; reflexivity).
           split; [intros _ | reflexivity].
           split; [reflexivity | right; split; [reflexivity | exact Hdefault]].
        -- split; [intros H; simpl in H; discriminate H | ].
           intros [_ [H | [_ ->]]]; [discriminate H | simpl in Hhide; discriminate Hhide].
Qed.

Lemma get_help_string_cases_witness :
  Rendering.get_help_string (fun _ => "?") (fun _ => "?") Sample.imports
    (mkRegistry [("global", [("drop-short-scenes", VBool true)])] [] true)
    "global" "drop-short-scenes" None
  = Return " [setting: on]"
  /\ Rendering.get_help_string (fun _ => "?") (fun _ => "?") Sample.imports
       (mkRegistry [] [] true) "global" "drop-short-scenes" None
     = Return ""
  /\ Rendering.get_help_string (fun _ => "?") (fun _ => "?") Sample.imports
       (mkRegistry [] [] true) "detect-content" "kernel-size" (Some true)
     = Return " [default: auto]".
Proof.
  destruct (get_help_string_cases (fun _ => "?") (fun _ => "?") Sample.imports
              (mkRegistry [("global", [("drop-short-scenes", VBool true)])] [] true)
              "global" "drop-short-scenes" (VBool false) None eq_refl) as (Hset & _).
  destruct (get_help_string_cases (fun _ => "?") (fun _ => "?") Sample.imports
              (mkRegistry [] [] true)
              "global" "drop-short-scenes" (VBool false) None eq_refl) as (_ & Hunset & _).
  destruct (get_help_string_cases (fun _ => "?") (fun _ => "?") Sample.imports
              (mkRegistry [] [] true)
              "detect-content" "kernel-size" (VKernelSize None) (Some true) eq_refl)
    as (_ & Hkernel & _).
  destruct (Hset (VBool true) eq_refl) as [Hflag _].
  destruct (Hflag false eq_refl) as [Hon _].
  destruct (Hunset eq_refl) as (_ & Hhidden & _).
  destruct (Hkernel eq_refl) as (_ & _ & Hshown & _).
  split; [exact (Hon eq_refl) | ].
  split; [exact (Hhidden eq_refl eq_refl) | exact (Hshown eq_refl)].
Defined.

(** ** What the parser reads of the file *)

Lemma classify_ext (imp : Imports) (c1 c2 : RawConfig) (command option : string)
    (default : Value) :
  file_sets c1 command option = file_sets c2 command option ->
  (file_sets c1 command option = true ->
   ConfigParser.get c1 command option = ConfigParser.get c2 command option) ->
  classify imp c1 command option default = classify imp c2 command option default.
Proof.
  intros Hset Hget. unfold classify.
  fold (file_sets c1 command option). fold (file_sets c2 command option).
  rewrite <- Hset. destruct (file_sets c1 command option); [ | reflexivity].
  unfold normalized, not_a_valid, must_be_one_of. rewrite (Hget eq_refl). reflexivity.
Qed.

(** X17.  The parser reads of the file only whether each option of the
    schema is set and, when it is, its text: two files that agree on that
    give the same map and the same errors, or the same exception.  So the
    order of the sections and of the options in the file does not matter. *)
Theorem _parse_config_reads_schema_options (imp : Imports) (c1 c2 : RawConfig) :
  (forall command option,
      has2 command option (CONFIG_MAP imp) = true ->
      file_sets c1 command option = file_sets c2 command option
      /\ (file_sets c1 command option = true ->
          ConfigParser.get c1 command option = ConfigParser.get c2 command option)) ->
  _parse_config imp c1 = _parse_config imp c2.
Proof.
  intros Hagree. rewrite !_parse_config_spec.
  assert (Hall : forall command options option default,
             In (command, options) (CONFIG_MAP imp) -> In (option, default) options ->
             classify imp c1 command option default
             = classify imp c2 command option default).
  { intros command options option default Hsec Hopt.
    destruct (Hagree command option) as [Hset Hget].
    - apply has2_get2. exists default. apply (schema_In_get2 imp _ _ options); assumption.
    - apply classify_ext; assumption. }
  clear Hagree. induction (CONFIG_MAP imp) as [ | [command options] rest IH];
    [reflexivity | ].
  cbn [classify_commands].
  assert (H1 : classify_options imp c1 command options
               = classify_options imp c2 command options).
  { assert (Hopts : forall o d, In (o, d) options ->
               classify imp c1 command o d = classify imp c2 command o d).
    { intros o d Hin. apply (Hall command options o d); [left; reflexivity | exact Hin]. }
    clear - Hopts. induction options as [ | [o d] r IHr]; [reflexivity | ].
    cbn [classify_options]. rewrite (Hopts o d (or_introl eq_refl)).
    rewrite IHr; [reflexivity | ]. intros o' d' Hin. apply Hopts. right. exact Hin. }
  rewrite H1, IH; [reflexivity | ].
  intros c opts o d Hsec Hopt. apply (Hall c opts o d); [right; exact Hsec | exact Hopt].
Qed.

Definition small_file_reordered : RawConfig :=
  [("global", [("verbosity", "debug")]); ("detect-hash", [("size", "32")])].

Lemma _parse_config_reads_schema_options_witness :
  _parse_config Sample.imports small_file
  = _parse_config Sample.imports small_file_reordered.
Proof.
  apply (_parse_config_reads_schema_options Sample.imports small_file small_file_reordered).
  intros command option _.
  unfold file_sets, ConfigParser.has_option, ConfigParser.get, has2, get2, dict.has,
    small_file, small_file_reordered.
  cbn [dict.get].
  destruct (String.eqb_spec command "detect-hash") as [E1 | _];
    [subst command; cbn; split; [reflexivity | intros _; reflexivity] | ].
  destruct (String.eqb_spec command "global") as [E2 | _];
    [subst command | ]; cbn; split; try reflexivity; intros _; reflexivity.
Defined.
